(* ===== verification/_CoqProject ===== *)
-Q . S2P
Prelude.v
Config.v
GeoData.v
Pyplot.v
Fonts.v
Layout.v
ColorScale.v
Graph.v
App.v
Http.v
ExampleUsage.v
Tests.v
