(* ===== verification/Prelude.v ===== *)
(** * A verification development of gis-toolkit

    gis-toolkit draws maps of Taiwan with geopandas and matplotlib and
    serves them over HTTP.  [src/src/config.py] holds the configuration:
    the region registry [FigConfig.AREA_RANGE], the figure size and the
    resource paths.  [src/src/core.py] holds the layout engine [GeoPlot]
    and the geometry store [GeoData]: read a shapefile within a box, and
    join request records to its features.  [src/src/graph.py] holds the
    renderers of class [Graph] and their parameter dataclasses.
    [src/app.py] is the FastAPI service: it counts requests, purges pyplot
    every 50th request, encodes each figure and closes it.
    [src/example_usage.py] is a script that calls the renderers directly.
    [src/test/memory_test.py] and [src/test/test_api.py] are HTTP drivers
    of the service.

    The parts interact as follows.  A route of [app.py] calls
    [handle_plot_request] around a [Graph] method.  That method asks
    [GeoPlot.base] for a figure with one inset axes per region.  It then
    loops over [area_list], queries [GeoData] for the region's box, and
    draws on [ax.child_axes[i]].  The choropleth also merges the records
    and adds one colorbar.  The figure comes back to [fig_to_image], which
    closes it.

    ** Files, and what each models

    - [Prelude]: Python exceptions [PyExn], fallible results [res], the
      state-and-exception monad [StM] with [try_finally] / [try_except]
      (the [py_scope] notations), dict lookup [assoc] / [dict_getitem],
      the loop combinator [res_fold], and the shared lemmas, tactics and
      the hint database [gis].
    - [Config]: [config.py].  [WORK_DIR], [Font], [Shapefile], [Json],
      and [FigConfig] with [AREA_RANGE] as an ordered association list
      (a Python dict iterates in insertion order).  Decimal literals are
      exact rationals.
    - [GeoData]: [GeoData] of [core.py].  It has the [GeometrySource]
      class (the interface the renderers use) with its law, the
      shapefile-backed instance [GeoData.geo_data] over [read_file], and
      pandas frames from records ([DataFrame]) and from a dict of
      columns ([frame_of_columns]).  [merge_gdf_and_df] is pandas' inner
      merge, with its ValueError and KeyError paths, including the dtype
      check that refuses a numeric key column against the string
      [COUNTYNAME] ([col_numeric]).  Module [Sample] gives sample
      shapefiles for the examples.
    - [Pyplot]: the library collaborator.  It holds the pyplot state
      [PltState] (open figure numbers, [rcParams["figure.max_open_warning"]],
      the font list) and [subplots], [close], [plt.close("all")],
      [rcdefaults], [addfont].  It also holds figures with a main [Axes]
      and its [child_axes], and the argument checks of [scatter] and
      [hist2d]: lengths, bins, color names, colormap names and alpha.
      Which strings name colors and colormaps, [str(float)] and
      [float(str)] differ between matplotlib and Python versions: they are
      the class [Mpl], whose laws [MplLaws] hold of every version (the
      colors and colormaps the code and its tests name); every renderer
      is defined over any [Mpl].
    - [Fonts]: [Font.show_all] of [config.py] over the font list of
      [Pyplot], the names read from the font files being a parameter.
    - [Layout]: [GeoPlot] of [core.py].  [area_list], [_cal_insert_ax_height],
      [_inset], and [base] as [subplots] followed by [base_layout], which
      transcribes lines 30-64 call by call.
    - [ColorScale]: the value column's [min()] / [max()] (numeric and
      [object] columns), [plt.Normalize], the per-panel fill of
      [gdf.plot(column=..., cmap=...)] (numeric, or categorical for an
      [object] column), and [Graph._colorbar] with its conversions and
      colormap check.
    - [Graph]: the parameter dataclasses (Module [Params]) and every
      method of [Graph] (Module [Graph]).  Each renderer is a [Plt]
      computation over any [GeometrySource].  A loop
      [for i, a in area_list] is a [res_fold].  [figure_discipline] is
      the interface between a renderer and [handle_plot_request].
    - [App]: [app.py].  [AppState] is the pyplot state plus the global
      [request_counter].  It has [cleanup_memory_if_needed],
      [fig_to_image], [handle_plot_request], the request models and their
      defaults, [dispatch] (one case per route), and the lifespan.
      Module [Serving] makes serving a state machine: [serve_one], the
      inductive [reachable] from [serving_start], and [serve] over a
      sequence of requests; [run_app] is [uvicorn.run(app)], the
      lifespan's startup and shutdown around [serve].  The PNG encoder
      [savefig] is a section variable.  Optional fields of the models are
      [option]s that flow, [None] included, through the parameter
      dataclasses to matplotlib.
    - [Http]: the FastAPI layer of [app.py].  [app], its routes and the
      documentation routes FastAPI adds; [resolve] is Starlette's routing
      (405 for another method, 307 to the trailing-slash variant, 404);
      the models are validated from a JSON body ([validate_choropleth] and
      the like: Field defaults, Optional [null], 422 when the body does
      not fit) through the class [PyCoerce] of Pydantic's scalar
      coercions, with the laws [PyCoerceLaws] every Pydantic version
      satisfies; [http_handle] routes, validates and runs [dispatch],
      turning an [HTTPException] into its status.
    - [ExampleUsage]: [main()] of [example_usage.py], over any source.
    - [Tests]: the drivers of [src/test] as HTTP clients of
      [Http.http_handle], with their JSON bodies:
      [MemoryMonitor.test_endpoints] with its count-up loop (Equations,
      well-founded recursion on [iterations - i]), [memory_test.main] and
      [test_api_endpoints], each sending to the port of its [base_url]
      and logging the status code it reads, or none when the connection
      is refused.

    ** The theorems, by group

    - Memory discipline of the service (App): no request leaks a figure.
      Every reachable state has no open figure and a counter below 50
      (rule induction on [reachable]).  The counter counts plot requests
      modulo 50.  Any 50 plot requests in a row reach a purged state.
    - Response typing (App): every route answers the type it declares;
      the only error that leaves the service is HTTP 500.  Every valid
      plot request is served a PNG when the sources can be read and the
      encoder succeeds (valid: lengths, bins, colors, colormaps and alphas
      matplotlib accepts, and string county keys with numeric values).
    - HTTP (Http): every HTTP request answers 200, 307, 404, 405, 422 or
      500; the answers 307, 404, 405 and 422 leave the service untouched,
      and the service invariant holds across every request.
    - Renderers (Graph): each opens exactly one figure.  Panel [i] shows
      region [i]'s boundaries, fills or overlays.  The choropleth has one
      colorbar over the least and greatest value of the whole column,
      while each panel is filled at its rows' values normalised over that
      panel's own range (ColorScale).  A refinement theorem is proved
      against [GeometrySourceLaws] and discharged by the shapefile
      instance.
    - Layout (Layout): inset [i] is region [i].  The aspect of each
      level-1 and level-2 inset matches its box.  The insets lie in the
      unit square.  The level-1 insets are disjoint.
    - Join (GeoData): the county join is characterised exactly on string
      keys, and pandas' dtype [ValueError] on numeric ones.
    - Drivers (Tests): [test_endpoints(iterations)] terminates after
      exactly [iterations] rounds with [5 * iterations + iterations // 10]
      requests; on readable shapefiles, for every Pydantic coercion and
      matplotlib registry satisfying their laws, every request of the
      memory test answers 200 through routing and validation and no
      figure stays open; [test_api.py], aimed at port 5010, never reaches
      the service on 5011.
    - Fonts (Fonts): [show_all] prints the unique ascending arrangement
      of the font names.
    - Findings, proved as theorems except where noted:
      - the panels do not share the color scale;
      - the subsidy legend's color differs from its fill;
      - level-2 insets overlap their parents;
      - the main inset is not aspect-correct;
      - length-mismatched dot data is drawn before it fails (HTTP 500);
      - [{"bins": null}] validates and fails mid-render with TypeError
        (HTTP 500);
      - counties sent as numbers make the merge raise (HTTP 500) instead
        of giving the boundary-only map;
      - [test_api.py] targets port 5010, the service serves on 5011;
      - the bubble defaults fail unless there are six points;
      - an empty choropleth request fails with KeyError;
      - startup undoes [max_open_warning = 0];
      - an unknown level is drawn as a county map;
      - [example_usage.py] leaves four figures open, and (a lemma) its
        frame misspells three counties;
      - (not a theorem) the [/dot] docstring's default size 1 differs
        from [Field(10)], and colors, colormaps and alpha are checked only
        by matplotlib, mid-render.

    ** Bounds and fuel

    Every loop of the program is a [for] over a finite list: [area_list]
    (7 regions), the features, or the records.  Each is modelled by
    structural recursion ([res_fold], [res_mapM]), so no fuel is needed
    and every definition is total and executable.  The one loop that
    counts up, [for i in range(iterations)] of the memory test, is
    defined by well-founded recursion on [iterations - i]; it too needs
    no fuel and computes.  [sorted] is stdpp's [merge_sort].  The request counter is
    a [nat] kept below [CLEANUP_INTERVAL = 50] by the invariant.  Python
    ints there do not overflow.  Coordinates and values are exact
    rationals: comparisons that the code makes on floats, and that are
    exact in the source's decimal data, are decided exactly.

    ** Not modelled

    - The socket transport, header parsing and FastAPI's async
      scheduling: a request is its method, path and parsed JSON body
      ([None] when absent or not JSON).
    - The home page's Jinja template: the home route returns a template
      response, named by its file, and touches no state.
    - The bytes of the PNG: [savefig] is any fallible encoder.
    - The geometry itself: features are names plus envelopes, and the
      [bbox] filter is envelope intersection.
    - Pixels of the rendering.
    - Colormap colors, which stay symbolic as [cmap(t)]; the registries
      of color and colormap names are the class [Mpl].
    - The exact operand types in the message of the [TypeError] a mixed
      [object] column raises in [Series.min] (the model names [str] and
      [float]), and the message of the [IndexError] of a categorical
      panel without values; a JSON float with an integral value is named
      [int64] in pandas' dtype message.
    - The exact scalar coercions of Pydantic, which differ between its
      versions (v1 truncates a float in [Union[int, float]]): they are a
      class with laws, and the theorems hold for every instance.
    - The OpenAPI schema and documentation pages FastAPI generates: their
      responses carry the app's title and description only.
    - The family names stored in font files: [show_all] takes the name
      of the font at a path as a parameter.
    - The prints of [example_usage.py] and numpy's random generator: its
      1000 coordinates are parameters.
    - [gc.collect()], which has no effect the model observes.
    - Of the tests: the memory readings (psutil), [analyze_results],
      [save_results], the prints and the sleeps; of the connection
      failures the drivers catch, only a refused connection to a port the
      service does not listen on is modelled. *)

From Stdlib Require Import QArith Lqa String.
From stdpp Require Import base list list_numbers strings gmap.

(** ** Python exceptions

    The exceptions the modelled code raises or lets escape.  Every fallible
    operation returns a [res]: a value, or the exception it raises. *)

Inductive PyExn :=
  | KeyError (key : string)
  | IndexError
  | ValueError (msg : string)
  | ZeroDivisionError
  | TypeError (msg : string)
  | FileNotFoundError (path : string)
  | HTTPException (status_code : Z) (detail : string).

Inductive res (A : Type) : Type :=
  | Ok (a : A)
  | Raise (e : PyExn).
Arguments Ok {A} a.
Arguments Raise {A} e.

Definition res_bind {A B} (r : res A) (k : A -> res B) : res B :=
  match r with Ok a => k a | Raise e => Raise e end.

Definition is_ok {A} (r : res A) : bool :=
  match r with Ok _ => true | Raise _ => false end.

(** ** The state-and-exception monad

    [StM S A] threads a state [S] (the process-wide state the Python code
    mutates: pyplot's figure registry, the service's request counter) and may
    raise.  A raised exception keeps the state reached so far, as Python
    does: side effects performed before a [raise] are not undone. *)

Definition StM (S A : Type) : Type := S -> res A * S.

Section Monad.
Context {S : Type}.

Definition ret {A} (a : A) : StM S A := fun s => (Ok a, s).
Definition raise {A} (e : PyExn) : StM S A := fun s => (Raise e, s).
Definition bind {A B} (m : StM S A) (k : A -> StM S B) : StM S B :=
  fun s => match m s with
           | (Ok a, s') => k a s'
           | (Raise e, s') => (Raise e, s')
           end.
Definition get : StM S S := fun s => (Ok s, s).
Definition modify (f : S -> S) : StM S unit := fun s => (Ok tt, f s).
Definition lift {A} (r : res A) : StM S A := fun s => (r, s).

(** [try: m finally: fin]: [fin] runs on every exit path; an exception of
    [m] is re-raised after it, unless [fin] itself raises. *)
Definition try_finally {A} (m : StM S A) (fin : StM S unit) : StM S A :=
  fun s => match m s with
           | (r, s1) => match fin s1 with
                        | (Ok _, s2) => (r, s2)
                        | (Raise e, s2) => (Raise e, s2)
                        end
           end.

(** [try: m except Exception as e: h e]. *)
Definition try_except {A} (m : StM S A) (h : PyExn -> StM S A) : StM S A :=
  fun s => match m s with
           | (Ok a, s1) => (Ok a, s1)
           | (Raise e, s1) => h e s1
           end.

(** [for x in l: body x], stopping at the first exception. *)
Fixpoint for_ {B} (l : list B) (body : B -> StM S unit) : StM S unit :=
  match l with
  | [] => ret tt
  | x :: l' => bind (body x) (fun _ => for_ l' body)
  end.
End Monad.

Declare Scope py_scope.
Delimit Scope py_scope with py.
Notation "x <- m ;; k" := (bind m (fun x => k))
  (at level 100, m at level 90, k at level 200, right associativity) : py_scope.
Notation "m ;; k" := (bind m (fun _ => k))
  (at level 100, k at level 200, right associativity) : py_scope.

(** ** Invariants of monadic code

    [preserves P m]: from a state satisfying [P], every exit of [m], normal
    or exceptional, ends in a state satisfying [P]. *)

Definition preserves {S A} (P : S -> Prop) (m : StM S A) : Prop :=
  forall s r s', P s -> m s = (r, s') -> P s'.

Create HintDb gis discriminated.
#[export] Hint Constants Transparent : gis.

Section Preserves.
Context {S : Type} (P : S -> Prop).

Lemma preserves_ret {A} (a : A) : preserves P (ret a).
Proof. intros s r s' Hs [= _ <-]. done. Qed.

Lemma preserves_raise {A} e : preserves P (raise (A:=A) e).
Proof. intros s r s' Hs [= _ <-]. done. Qed.

Lemma preserves_lift {A} (r0 : res A) : preserves P (lift r0).
Proof. intros s r s' Hs [= _ <-]. done. Qed.

Lemma preserves_bind {A B} (m : StM S A) (k : A -> StM S B) :
  preserves P m -> (forall a, preserves P (k a)) -> preserves P (bind m k).
Proof.
  intros Hm Hk s r s' Hs. unfold bind.
  destruct (m s) as [[a|e] s1] eqn:E; intros Heq.
  - eapply Hk; [eapply Hm|]; eauto.
  - injection Heq as <- <-. eapply Hm; eauto.
Qed.

Lemma preserves_for {B} (l : list B) (body : B -> StM S unit) :
  (forall x, x ∈ l -> preserves P (body x)) -> preserves P (for_ l body).
Proof.
  induction l as [|x l IH]; intros Hb; simpl.
  - apply preserves_ret.
  - apply preserves_bind; [apply Hb; set_solver|].
    intros _. apply IH. intros y Hy. apply Hb. set_solver.
Qed.
End Preserves.

#[export] Hint Resolve preserves_ret preserves_raise preserves_lift
  preserves_bind preserves_for : gis.

(** Running a [for_] loop whose body never raises. *)
Lemma for_ok {S B} (l : list B) (body : B -> StM S unit) (s : S) :
  (forall x s0, x ∈ l -> fst (body x s0) = Ok tt) ->
  fst (for_ l body s) = Ok tt.
Proof.
  revert s. induction l as [|x l IH]; intros s Hb; simpl; [done|].
  unfold bind. pose proof (Hb x s ltac:(set_solver)) as Hx.
  destruct (body x s) as [[[]|e] s1]; simpl in *; [|done].
  apply IH. intros y s0 Hy. apply Hb. set_solver.
Qed.

(** ** Association lists

    A Python [dict] whose iteration order matters (insertion order) is an
    association list; [d[k]] is [dict_getitem], which raises [KeyError]. *)

Fixpoint assoc {K V} `{EqDecision K} (k : K) (l : list (K * V)) : option V :=
  match l with
  | [] => None
  | (k', v) :: l' => if decide (k = k') then Some v else assoc k l'
  end.

Definition dict_getitem {V} (k : string) (d : list (string * V)) : res V :=
  match assoc k d with Some v => Ok v | None => Raise (KeyError k) end.

Lemma assoc_In {K V} `{EqDecision K} (k : K) (v : V) l :
  assoc k l = Some v -> (k, v) ∈ l.
Proof.
  induction l as [|[k' v'] l IH]; simpl; [done|].
  case_decide; [intros [= <-]; subst; set_solver|]. set_solver.
Qed.

Lemma assoc_first {K V} `{EqDecision K} (k : K) (v : V) l :
  NoDup l.*1 -> (k, v) ∈ l -> assoc k l = Some v.
Proof.
  induction l as [|[k' v'] l IH]; simpl; [set_solver|].
  intros Hnd Hin. apply NoDup_cons in Hnd as [Hk Hnd].
  apply elem_of_cons in Hin as [[= -> ->]|Hin]; case_decide; subst; try done.
  - destruct Hk. apply (list_elem_of_fmap_2 fst) in Hin. done.
  - by apply IH.
Qed.

(** ** Rationals

    Python floats are modelled by exact rationals.  [Qlt_bool] is the
    strict comparison the Standard Library leaves out. *)

Definition Qlt_bool (x y : Q) : bool := negb (Qle_bool y x).

Lemma Qlt_bool_iff (x y : Q) : Qlt_bool x y = true <-> (x < y)%Q.
Proof.
  unfold Qlt_bool. rewrite negb_true_iff.
  split; intros H.
  - apply Qnot_le_lt. intros Hle. apply Qle_bool_iff in Hle. congruence.
  - destruct (Qle_bool y x) eqn:E; [|done].
    apply Qle_bool_iff in E. exfalso. apply (Qlt_not_le _ _ H E).
Qed.

Lemma Qle_bool_false (x y : Q) : Qle_bool x y = false -> (y < x)%Q.
Proof.
  intros H. apply Qnot_le_lt. intros Hle. apply Qle_bool_iff in Hle. congruence.
Qed.

(** Turn the boolean comparisons of the code into propositions. *)
Ltac qbool :=
  repeat match goal with
  | H : Qle_bool _ _ = true |- _ => apply Qle_bool_iff in H
  | H : Qle_bool _ _ = false |- _ => apply Qle_bool_false in H
  | H : Qlt_bool _ _ = true |- _ => apply Qlt_bool_iff in H
  | H : Qeq_bool _ _ = true |- _ => apply Qeq_bool_iff in H
  | H : (_ && _) = true |- _ => apply andb_true_iff in H as [? ?]
  | |- Qle_bool _ _ = true => apply Qle_bool_iff
  | |- Qlt_bool _ _ = true => apply Qlt_bool_iff
  | |- (_ && _) = true => apply andb_true_iff; split
  end.

(** [map] through a fallible function, stopping at the first exception. *)
Fixpoint res_mapM {A B} (f : A -> res B) (l : list A) : res (list B) :=
  match l with
  | [] => Ok []
  | x :: l' => res_bind (f x) (fun y => res_bind (res_mapM f l') (fun ys => Ok (y :: ys)))
  end.

Lemma res_mapM_ok {A B} (f : A -> res B) (g : A -> B) (l : list A) :
  (forall x, x ∈ l -> f x = Ok (g x)) -> res_mapM f l = Ok (map g l).
Proof.
  induction l as [|x l IH]; intros Hf; simpl; [done|].
  rewrite Hf by set_solver. simpl. rewrite IH by set_solver. done.
Qed.

(** Sequencing of pure fallible code. *)
Notation "'let!' x ':=' r 'in' k" := (res_bind r (fun x => k))
  (at level 10, x name, r at level 100, k at level 200) : py_scope.

(** Close a goal about closed, computable data: evaluate it, then split
    the conjunctions and lists and decide the atoms. *)
Ltac closed_check :=
  vm_compute;
  repeat match goal with
  | |- Forall2 _ _ _ => constructor
  | |- Forall _ _ => constructor
  | |- _ /\ _ => split
  | |- _ -> _ => intro
  | H : ?x <> ?x |- _ => destruct (H eq_refl)
  | H : ?x = ?x -> False |- _ => destruct (H eq_refl)
  end;
  try reflexivity; try discriminate.

(** Case on a list index [i] whose lookup [H : l !! i = Some _] is in
    the context, up to length 8, closing the out-of-range cases. *)
Ltac index_cases i H :=
  destruct i as [|[|[|[|[|[|[|[|i]]]]]]]];
  vm_compute in H; try discriminate H; try (injection H as <-).

(** [for x in l: acc = body(acc, x)] in pure fallible code. *)
Fixpoint res_fold {B C} (l : list B) (acc : C) (body : C -> B -> res C) : res C :=
  match l with
  | [] => Ok acc
  | x :: l' => res_bind (body acc x) (fun acc' => res_fold l' acc' body)
  end.

Section ResFold.
Context {B C : Type} (P : C -> Prop) (body : C -> B -> res C).

(** An invariant of every step holds of the loop's result. *)
Lemma res_fold_inv (l : list B) (acc r : C) :
  P acc ->
  (forall a x a', x ∈ l -> P a -> body a x = Ok a' -> P a') ->
  res_fold l acc body = Ok r -> P r.
Proof.
  revert acc. induction l as [|x l IH]; simpl; intros acc Hacc Hstep.
  - by intros [= <-].
  - destruct (body acc x) as [a'|e] eqn:E; simpl; [|done].
    apply IH; [eapply Hstep; eauto; set_solver|].
    intros a y a'' Hy. apply Hstep. set_solver.
Qed.

(** A loop whose steps succeed under an invariant succeeds. *)
Lemma res_fold_ok (l : list B) (acc : C) :
  P acc ->
  (forall a x, x ∈ l -> P a -> exists a', body a x = Ok a' /\ P a') ->
  exists r, res_fold l acc body = Ok r /\ P r.
Proof.
  revert acc. induction l as [|x l IH]; simpl; intros acc Hacc Hstep; [eauto|].
  destruct (Hstep acc x ltac:(set_solver) Hacc) as (a' & -> & Ha'). simpl.
  apply IH; [done|]. intros a y Hy. apply Hstep. set_solver.
Qed.
(** Loops with pointwise equal bodies give equal results. *)
Lemma res_fold_ext (l : list B) (acc : C) (body' : C -> B -> res C) :
  (forall a x, body a x = body' a x) -> res_fold l acc body = res_fold l acc body'.
Proof.
  intros Heq. revert acc. induction l as [|x l IH]; intros acc; simpl; [done|].
  rewrite Heq. destruct (body' acc x); simpl; [apply IH|done].
Qed.

End ResFold.

(** Equality of optional rationals up to [==], and of fallible results up to
    a relation on their values (the same exception on both sides). *)
Definition opt_Qeq (a b : option Q) : Prop :=
  match a, b with
  | Some x, Some y => (x == y)%Q
  | None, None => True
  | _, _ => False
  end.

Definition res_rel {A} (R : A -> A -> Prop) (a b : res A) : Prop :=
  match a, b with
  | Ok x, Ok y => R x y
  | Raise e, Raise e' => e = e'
  | _, _ => False
  end.

Lemma res_bind_ok_r {A} (r : res A) : res_bind r Ok = r.
Proof. by destruct r. Qed.

(** [Forall2] weakened using that the right element belongs to the list. *)
Lemma Forall2_impl_in_r {A B} (P Q : A -> B -> Prop) (l : list A) (k : list B) :
  Forall2 P l k -> (forall x y, y ∈ k -> P x y -> Q x y) -> Forall2 Q l k.
Proof.
  induction 1 as [|x y l k Hxy Hlk IH]; intros HPQ; constructor.
  - apply HPQ; [set_solver|done].
  - apply IH. intros x' y' Hy. apply HPQ. set_solver.
Qed.

(** The left list of a [Forall2], each element through its partner. *)
Lemma Forall2_Forall_l_in {A B} (P : A -> B -> Prop) (Q : A -> Prop) (l : list A) (k : list B) :
  Forall2 P l k -> (forall x y, y ∈ k -> P x y -> Q x) -> Forall Q l.
Proof.
  induction 1 as [|x y l k Hxy Hlk IH]; intros HPQ; constructor.
  - apply (HPQ x y); [set_solver|done].
  - apply IH. intros x' y' Hy. apply HPQ. set_solver.
Qed.

(** A list zipped with its own image pairs each element with its image. *)
Lemma elem_of_zip_image {A B C D} (g : C -> D) (h1 : B -> C) (h0 : A -> B) (l : list A) x y :
  (x, y) ∈ zip l (g <$> map h1 (map h0 l)) -> y = g (h1 (h0 x)).
Proof.
  induction l as [|z l IH]; simpl; [by intros ?%elem_of_nil|].
  rewrite elem_of_cons. by intros [[= -> ->]|Hin%IH].
Qed.

(** Case analysis on [H : x ∈ l] for a concrete list [l], each case
    closed by [tac]. *)
Ltac elem_cases H tac :=
  apply list_elem_of_In in H; simpl in H;
  repeat (destruct H as [<-|H]; [tac|]); contradiction.

(** The same, with the list computed by [vm_compute] first. *)
Ltac elem_cases_vm H tac :=
  apply list_elem_of_In in H; vm_compute in H;
  repeat (destruct H as [<-|H]; [tac|]); contradiction.
