(* ===== verification/Config.v ===== *)
(** * Config: the process-wide configuration of [src/config.py]

    [FigConfig] (figure size, resolution and the region registry
    [AREA_RANGE]) and the resource paths of [Shapefile], [Json] and
    [Font], with the lookup [AREA_RANGE[label]] and the distinctness of
    the registry's labels it relies on.  Coordinates are rationals: the
    decimal literals of the source are exact here. *)

From Stdlib Require Import QArith String.
From stdpp Require Import base list strings.
From S2P Require Import Prelude.

Open Scope string_scope.

(** [pathlib.Path.__truediv__] on the absolute POSIX paths of the source. *)
Definition path_div (p : string) (c : string) : string := p +:+ "/" +:+ c.

Definition WORK_DIR : string := "/app".

Module Shapefile.
Definition SHAPEFILE_DIR := path_div (path_div WORK_DIR "res") "shp".
Definition COUNTY := path_div SHAPEFILE_DIR "COUNTY_MOI_1090820.shp".
Definition TOWN := path_div SHAPEFILE_DIR "TOWN_MOI_1120825.shp".
End Shapefile.

Module Font.
Definition FONT_DIR := path_div (path_div WORK_DIR "res") "fonts".
Definition NotoSerifTC := path_div FONT_DIR "NotoSerifTC-Regular.ttf".
Definition CharisSIL := path_div FONT_DIR "CharisSIL-Regular.ttf".
Definition CharisSIL_Bold := path_div FONT_DIR "CharisSIL-Bold.ttf".
Definition NotoSerifTC_Bold := path_div FONT_DIR "NotoSerifTC-Bold.ttf".
Definition TimesNewRoman := path_div FONT_DIR "TimesNewRoman-Regular.ttf".
Definition TimesNewRoman_Bold := path_div FONT_DIR "TimesNewRoman-Bold.ttf".
Definition Urbanist := path_div FONT_DIR "Urbanist-Regular.ttf".
End Font.

Module Json.
Definition JSON_DIR := path_div (path_div WORK_DIR "res") "json".
Definition COUNTY_TOWN := path_div JSON_DIR "county_town.json".
Definition TOWN_TYPE_BY_TOWN := path_div JSON_DIR "town_type_by_town.json".
Definition TOWN_TYPE_BY_TYPE := path_div JSON_DIR "town_type_by_type.json".
Definition NO_GAS_STATION_TOWN := path_div JSON_DIR "no_gas_station_town.json".
End Json.

Module FigConfig.
Open Scope Q_scope.

Record Bounds := mkBounds { min_x : Q; max_x : Q; min_y : Q; max_y : Q }.

(** One entry of [AREA_RANGE]: ["name"], ["level"], ["center"], ["bounds"]. *)
Record Area := mkArea {
  name : string;
  level : nat;
  center : Q * Q;
  bounds : Bounds;
}.

Definition WIDTH : Q := 14.65.
Definition HEIGHT : Q := 16.
Definition DPI : Q := 200.
Definition SIZE : Q * Q := (WIDTH, HEIGHT).

(** The dict, in its insertion (= iteration) order. *)
Definition AREA_RANGE : list (string * Area) := [
  ("taiwan", mkArea "台灣本島" 0 (120.96, 23.7)
               (mkBounds 118.9 122.6 21.75 25.35));
  ("penghu", mkArea "澎湖縣" 1 (119.57, 23.57)
               (mkBounds 119.3 119.74 23.16 23.86));
  ("kinmen", mkArea "金門縣" 1 (118.3, 24.4)
               (mkBounds 118.1 118.6 24.34 24.56));
  ("kinmen-wuqiu", mkArea "金門縣烏坵鄉" 2 (119.5, 24.8)
               (mkBounds 119.42 119.5 24.96 25.02));
  ("lienchiang", mkArea "連江縣" 1 (119.90, 26.20)
               (mkBounds 119.86 120.1 26.12 26.30));
  ("lienchiang-dongyin", mkArea "連江縣東引鄉" 2 (120.5, 26.3)
               (mkBounds 120.45 120.52 26.34 26.4));
  ("lienchiang-juguang", mkArea "連江縣莒光鄉" 2 (119.9, 25.9)
               (mkBounds 119.91 120 25.93 26))
].

(** [AREA_RANGE[label]]. *)
Definition area_info (label : string) : res Area := dict_getitem label AREA_RANGE.

(** The registry's labels are distinct, so [AREA_RANGE[label]] finds the
    entry of each label. *)
Lemma AREA_RANGE_keys_NoDup : NoDup AREA_RANGE.*1.
Proof. apply NoDup_ListNoDup. vm_compute. repeat constructor; simpl; intuition discriminate. Qed.

Lemma area_info_in (e : string * Area) : e ∈ AREA_RANGE -> area_info e.1 = Ok e.2.
Proof.
  destruct e as [k a]. intros Hin. unfold area_info, dict_getitem.
  by rewrite (assoc_first k a AREA_RANGE AREA_RANGE_keys_NoDup Hin).
Qed.

Lemma area_info_key (j : nat) (k : string) :
  AREA_RANGE.*1 !! j = Some k -> exists a, AREA_RANGE !! j = Some (k, a) /\ area_info k = Ok a.
Proof.
  rewrite list_lookup_fmap. destruct (AREA_RANGE !! j) as [[k' a]|] eqn:E; [|done].
  intros [= <-]. exists a. split; [done|]. apply (area_info_in (k', a)).
  by apply list_elem_of_lookup_2 in E.
Qed.
End FigConfig.
