(* ===== verification/GeoData.v ===== *)
(** * GeoData: geometry source and attribute join of [src/core.py]

    The geometry store ([GeoData.get_county_gpd], [GeoData.get_town_gpd]:
    [gpd.read_file] with a [bbox] filter), the pandas frame built from the
    request's records, and the attribute join [GeoData.merge_gdf_and_df]
    (a pandas inner merge), and the frame [pd.DataFrame] builds from a
    dict of columns.  The interface [GeometrySource] states what the
    renderers of [Graph] rely on; the shapefile-backed instance discharges
    its law.  The theorem characterises the county join: its rows when
    the key column is not numeric, pandas' dtype [ValueError] when it is.
    Module [Sample] holds sample shapefiles for the examples. *)

From Stdlib Require Import QArith String.
From stdpp Require Import base list sets gmap strings.
From S2P Require Import Prelude Config.

Open Scope string_scope.

(** ** Geometry *)

(** A [bbox] tuple [(min_x, min_y, max_x, max_y)], in the code's order. *)
Record BBox := mkBBox { bx0 : Q; by0 : Q; bx1 : Q; by1 : Q }.

(** A polygon feature of the county or town shapefile: its administrative
    names and its envelope.  County features have no [TOWNNAME]. *)
Record Feature := mkFeature {
  COUNTYNAME : string;
  TOWNNAME : option string;
  envelope : BBox;
}.

Definition GeoDataFrame := list Feature.

(** Closed-box intersection, the test of the [bbox] filter. *)
Definition bbox_intersects (a b : BBox) : bool :=
  Qle_bool (bx0 a) (bx1 b) && Qle_bool (bx0 b) (bx1 a) &&
  Qle_bool (by0 a) (by1 b) && Qle_bool (by0 b) (by1 a).

(** A shapefile as [gpd.read_file] sees it: its features, or [None] when it
    cannot be read. *)
Definition Shapefile := option (list Feature).

(** [gpd.read_file(path, bbox=bbox)]. *)
Definition read_file (path : string) (shp : Shapefile) (bbox : BBox) : res GeoDataFrame :=
  match shp with
  | None => Raise (FileNotFoundError path)
  | Some fs => Ok (filter (fun f => bbox_intersects (envelope f) bbox = true) fs)
  end.

(** ** The interface the renderers use *)

Class GeometrySource := {
  get_county_gpd : BBox -> res GeoDataFrame;
  get_town_gpd : BBox -> res GeoDataFrame;
}.

(** Every feature returned for a box meets the box. *)
Class GeometrySourceLaws `{GeometrySource} := {
  county_in_bbox : forall b g, get_county_gpd b = Ok g ->
    Forall (fun f => bbox_intersects (envelope f) b = true) g;
  town_in_bbox : forall b g, get_town_gpd b = Ok g ->
    Forall (fun f => bbox_intersects (envelope f) b = true) g;
}.

(** ** The shapefile-backed implementation: class [GeoData] *)

Module GeoData.
Section Impl.
Context (county_shp town_shp : Shapefile).

#[export] Instance geo_data : GeometrySource := {
  get_county_gpd bbox := read_file Shapefile.COUNTY county_shp bbox;
  get_town_gpd bbox := read_file Shapefile.TOWN town_shp bbox;
}.
End Impl.
End GeoData.

(** ** pandas frames built from the request's records *)

(** A cell of [pd.DataFrame(data)]: a JSON string, a JSON number, or a
    missing / [null] entry (NaN). *)
Inductive Cell := CStr (s : string) | CNum (q : Q) | CNull.

(** One record of the request's [data] list, a JSON object. *)
Definition Record_ := list (string * Cell).

(** [pd.DataFrame(records)]: the frame of a list of dicts.  Its columns are
    the keys of its records; a record lacking a key holds NaN there. *)
Definition DataFrame := list Record_.

Definition has_column (df : DataFrame) (c : string) : bool :=
  existsb (fun r => bool_decide (c ∈ r.*1)) df.

Definition cell_get (r : Record_) (c : string) : Cell :=
  match assoc c r with Some v => v | None => CNull end.

(** [df[c]]. *)
Definition df_col (df : DataFrame) (c : string) : res (list Cell) :=
  if has_column df c then Ok (map (fun r => cell_get r c) df) else Raise (KeyError c).

(** Row [i] of [pd.DataFrame({c1: v1, c2: v2, ...})]. *)
Definition frame_row (cols : list (string * list Cell)) (i : nat) : Record_ :=
  omap (fun cw => pair cw.1 <$> cw.2 !! i) cols.

(** [pd.DataFrame({c1: v1, c2: v2, ...})]: the frame of a dict of
    columns, one row per index; pandas refuses columns of different
    lengths. *)
Definition frame_of_columns (cols : list (string * list Cell)) : res DataFrame :=
  match cols with
  | [] => Ok []
  | (_, v) :: _ =>
      if forallb (fun cw => length cw.2 =? length v)%nat cols
      then Ok (imap (fun i _ => frame_row cols i) v)
      else Raise (ValueError "All arrays must be of the same length")
  end.

(** The value of a feature's key column ([left_on]). *)
Definition feature_key (f : Feature) (c : string) : res string :=
  if decide (c = "COUNTYNAME") then Ok (COUNTYNAME f)
  else if decide (c = "TOWNNAME") then
    match TOWNNAME f with Some t => Ok t | None => Raise (KeyError c) end
  else Raise (KeyError c).

(** Key equality of the merge: a string key never equals a number or NaN. *)
Definition key_match (k : string) (c : Cell) : bool :=
  match c with CStr s => bool_decide (s = k) | _ => false end.

(** Columns the merge reads, checked before any row is joined. *)
Fixpoint check_columns (df : DataFrame) (cs : list string) : res unit :=
  match cs with
  | [] => Ok tt
  | c :: cs' => if has_column df c then check_columns df cs' else Raise (KeyError c)
  end.

Fixpoint feature_keys (f : Feature) (cs : list string) : res (list string) :=
  match cs with
  | [] => Ok []
  | c :: cs' => res_bind (feature_key f c) (fun k =>
                res_bind (feature_keys f cs') (fun ks => Ok (k :: ks)))
  end.

Definition row_matches (ks : list string) (right_on : list string) (r : Record_) : bool :=
  forallb (fun '(k, c) => key_match k (cell_get r c)) (zip ks right_on).

Definition pair_matches (left_on right_on : list string) (f : Feature) (r : Record_) : bool :=
  match feature_keys f left_on with
  | Ok ks => row_matches ks right_on r
  | Raise _ => false
  end.

(** The dtype pandas gives a column built from records: numeric
    ([int64], or [float64] when a value is fractional or NaN) when it holds
    a number and otherwise only NaN (a [None] or a missing key); [object]
    when it holds a string, or nothing but [None]. *)
Definition col_numeric (df : DataFrame) (c : string) : bool :=
  existsb (fun r => match cell_get r c with CNum _ => true | _ => false end) df &&
  forallb (fun r => match cell_get r c with CStr _ => false | _ => true end) df.

(** The name of a numeric column's dtype.  A JSON float with an integral
    value ([100.0]) is a [CNum] like [100] and is named [int64] here. *)
Definition col_dtype (df : DataFrame) (c : string) : string :=
  if forallb (fun r => match cell_get r c with
                       | CNum q => bool_decide (Qden q = 1%positive)
                       | _ => false
                       end) df
  then "int64" else "float64".

(** [_MergeOperation._maybe_coerce_merge_keys]: the left keys are
    [object] columns of strings; a numeric right key column is refused
    (its inferred type is not string-like), each key pair in turn. *)
Fixpoint check_key_dtypes (df : DataFrame) (left_on right_on : list string) : res unit :=
  match left_on, right_on with
  | lk :: ls, rk :: rs =>
      if col_numeric df rk
      then Raise (ValueError ("You are trying to merge on object and " +:+ col_dtype df rk
                              +:+ " columns for key '" +:+ lk
                              +:+ "'. If you wish to proceed you should use pd.concat"))
      else check_key_dtypes df ls rs
  | _, _ => Ok tt
  end.

(** [GeoData.merge_gdf_and_df(gdf, df, left_on=..., right_on=...)]:
    [gdf.merge(df, ...)] with pandas' default [how="inner"].  The result
    keeps the order of the left frame; a feature is repeated once per
    matching record (fan-out).  pandas looks the key columns up (the
    right ones, then the left ones), then compares their dtypes, which it
    skips when the left frame has no row. *)
Definition merge_gdf_and_df (gdf : GeoDataFrame) (df : DataFrame)
    (left_on right_on : list string) : res (list (Feature * Record_)) :=
  if negb (length left_on =? length right_on)%nat
  then Raise (ValueError "len(right_on) must equal len(left_on)")
  else res_bind (check_columns df right_on) (fun _ =>
       res_bind (res_mapM (fun f =>
                   res_bind (feature_keys f left_on) (fun ks =>
                   Ok (map (pair f) (filter (fun r => row_matches ks right_on r = true) df))))
                 gdf)
       (fun blocks =>
          res_bind (match gdf with [] => Ok tt | _ => check_key_dtypes df left_on right_on end)
            (fun _ => Ok (concat blocks)))).

(** [gdf.empty] on the merged frame. *)
Definition gdf_empty {A} (g : list A) : bool := bool_decide (g = []).

Lemma check_columns_ok df cs :
  Forall (fun c => has_column df c = true) cs -> check_columns df cs = Ok tt.
Proof. induction 1 as [|c cs Hc _ IH]; simpl; [done|]. by rewrite Hc. Qed.

Lemma check_columns_missing df cs c :
  c ∈ cs -> has_column df c = false ->
  exists c', check_columns df cs = Raise (KeyError c').
Proof.
  induction cs as [|c0 cs IH]; simpl; [set_solver|].
  intros Hin Hc. destruct (has_column df c0) eqn:E; [|eauto].
  apply IH; [|done]. apply elem_of_cons in Hin as [->|]; [congruence|done].
Qed.

Definition has_keys (left_on : list string) (f : Feature) : Prop :=
  exists ks, feature_keys f left_on = Ok ks.

(** The pairs of the inner join, in the left frame's order. *)
Definition join_pairs (left_on right_on : list string) (gdf : GeoDataFrame)
    (df : DataFrame) : list (Feature * Record_) :=
  gdf ≫= (fun f => pair f <$> filter (fun r => pair_matches left_on right_on f r = true) df).

(** The merge, when its columns are present, is the left-ordered list of
    all matching (feature, record) pairs. *)
Lemma check_key_dtypes_ok df left_on right_on :
  Forall (fun c => col_numeric df c = false) right_on -> check_key_dtypes df left_on right_on = Ok tt.
Proof.
  intros Hn. revert left_on. induction Hn as [|c cs Hc _ IH]; intros [|lk ls]; simpl; try done.
  rewrite Hc. apply IH.
Qed.

Lemma merge_ok gdf df left_on right_on :
  length left_on = length right_on ->
  Forall (fun c => has_column df c = true) right_on ->
  Forall (fun c => col_numeric df c = false) right_on ->
  Forall (has_keys left_on) gdf ->
  merge_gdf_and_df gdf df left_on right_on = Ok (join_pairs left_on right_on gdf df).
Proof.
  intros Hlen Hcols Hnum Hkeys. unfold merge_gdf_and_df.
  rewrite Hlen, Nat.eqb_refl. simpl. rewrite check_columns_ok by done. simpl.
  rewrite (res_mapM_ok _ (fun f => pair f <$>
            filter (fun r => pair_matches left_on right_on f r = true) df)).
  - simpl. rewrite check_key_dtypes_ok by done.
    replace (match gdf with [] => Ok tt | _ => Ok tt end) with (Ok tt : res unit)
      by (by destruct gdf).
    simpl. f_equal. unfold join_pairs. clear.
    induction gdf as [|f gdf IH]; simpl; [done|]. by rewrite IH.
  - intros f Hf. rewrite Forall_forall in Hkeys. destruct (Hkeys f Hf) as [ks Hks].
    unfold pair_matches. rewrite Hks. done.
Qed.

Lemma elem_of_join_pairs left_on right_on gdf df f r :
  (f, r) ∈ join_pairs left_on right_on gdf df <->
  f ∈ gdf /\ r ∈ df /\ pair_matches left_on right_on f r = true.
Proof.
  unfold join_pairs. rewrite list_elem_of_bind. split.
  - intros (f' & Hin & Hf'). apply list_elem_of_fmap in Hin as (r' & [= <- <-] & Hr).
    apply list_elem_of_filter in Hr as [Hm Hr]. done.
  - intros (Hf & Hr & Hm). exists f. split; [|done].
    apply list_elem_of_fmap. exists r. split; [done|]. by apply list_elem_of_filter.
Qed.

Lemma key_match_true k c : key_match k c = true <-> c = CStr k.
Proof.
  destruct c; simpl; split; try discriminate; [|by intros [= ->]; apply bool_decide_eq_true].
  by intros ->%bool_decide_eq_true_1.
Qed.

(** The shapefile-backed source keeps the interface's law: [gpd.read_file]
    with a [bbox] returns only features meeting the box. *)
Lemma read_file_in_bbox path shp b g :
  read_file path shp b = Ok g -> Forall (fun f => bbox_intersects (envelope f) b = true) g.
Proof.
  destruct shp as [fs|]; simpl; [|discriminate]. intros [= <-].
  apply Forall_forall. intros f Hf. by apply list_elem_of_filter in Hf as [? _].
Qed.

#[export] Instance geo_data_laws county_shp town_shp :
  @GeometrySourceLaws (GeoData.geo_data county_shp town_shp).
Proof. split; intros b g; apply read_file_in_bbox. Qed.

(** A numeric [county] column meets a left frame with a row: pandas
    raises its dtype [ValueError] once the keys are found. *)
Lemma merge_county_numeric (gdf : GeoDataFrame) (df : DataFrame) :
  has_column df "county" = true -> col_numeric df "county" = true -> gdf <> [] ->
  merge_gdf_and_df gdf df ["COUNTYNAME"] ["county"] =
    Raise (ValueError ("You are trying to merge on object and " +:+ col_dtype df "county"
                       +:+ " columns for key 'COUNTYNAME'. If you wish to proceed you should use pd.concat")).
Proof.
  intros Hc Hn Hne. unfold merge_gdf_and_df. simpl. rewrite Hc. simpl.
  rewrite (res_mapM_ok _ (fun f => pair f <$>
            filter (fun r => row_matches [COUNTYNAME f] ["county"] r = true) df)) by done.
  destruct gdf; [done|]. simpl. by rewrite Hn.
Qed.


(** ** Sample shapefiles

    A few features of the two shapefiles, with their envelopes rounded to
    the hundredth of a degree, for the examples of the development. *)
Module Sample.
Open Scope Q_scope.

Definition taipei := mkFeature "臺北市" None (mkBBox 121.45 24.96 121.67 25.21).
Definition new_taipei := mkFeature "新北市" None (mkBBox 121.28 24.67 122.01 25.30).
Definition penghu := mkFeature "澎湖縣" None (mkBBox 119.31 23.19 119.73 23.81).
Definition kinmen := mkFeature "金門縣" None (mkBBox 118.13 24.39 118.49 24.53).
Definition lienchiang := mkFeature "連江縣" None (mkBBox 119.90 25.94 120.51 26.39).
Definition hualien := mkFeature "花蓮縣" None (mkBBox 121.07 23.10 121.67 24.37).

Definition county_shp : Shapefile :=
  Some [taipei; new_taipei; penghu; kinmen; lienchiang; hualien].

Definition town_shp : Shapefile := Some [
  mkFeature "臺北市" (Some "大安區") (mkBBox 121.52 25.01 121.56 25.04);
  mkFeature "新北市" (Some "板橋區") (mkBBox 121.43 24.99 121.48 25.03);
  mkFeature "澎湖縣" (Some "馬公市") (mkBBox 119.54 23.52 119.62 23.60);
  mkFeature "金門縣" (Some "金城鎮") (mkBBox 118.28 24.39 118.35 24.44);
  mkFeature "連江縣" (Some "南竿鄉") (mkBBox 119.90 26.13 119.97 26.17);
  mkFeature "花蓮縣" (Some "吉安鄉") (mkBBox 121.50 23.90 121.62 24.00)].

(** Some entries of [res/json/town_type_by_town.json]. *)
Definition town_type : gmap string string :=
  <["花蓮縣吉安鄉" := "平地原民區"]> (<["連江縣南竿鄉" := "離島地區"]> ∅).

(** The shapefiles as [Graph] reads them. *)
Definition source : GeometrySource := GeoData.geo_data county_shp town_shp.

End Sample.

