(* ===== verification/Pyplot.v ===== *)
(** * Pyplot: the matplotlib state and objects the code drives

    The process-wide pyplot state (open figures, the [rcParams] entry the
    code sets, the font manager's list), figures with a main [Axes] and its
    [child_axes], the artists the renderers add, and the argument checks of
    [Axes.scatter] and [Axes.hist2d] that decide whether a draw call raises.
    The tables and conversions matplotlib and Python consult (which strings
    name a color, the registered colormaps, [str(float)], [float(str)])
    differ between versions and are the class [Mpl]; [MplLaws] states what
    every version has: the named colors and colormaps the code and its
    tests use.
    This is the library collaborator of [src/src/core.py] and
    [src/src/graph.py], modelled at its interface. *)

From Stdlib Require Import QArith String ZArith.
From stdpp Require Import base list list_numbers sets gmap strings sorting pretty.
From S2P Require Import Prelude Config GeoData.

Open Scope string_scope.

(** ** Process-wide state *)

Record RcParams := mkRc { max_open_warning : Z }.

(** [matplotlib.rcParamsDefault]. *)
Definition rcParamsDefault : RcParams := mkRc 20.

Record PltState := mkPlt {
  open_figs : gset nat;        (** [plt.get_fignums()] *)
  rc : RcParams;               (** [plt.rcParams] *)
  ttflist : list string;       (** [font_manager.fontManager] additions *)
}.

Definition Plt (A : Type) := StM PltState A.

(** ** Figures, axes and artists *)

(** An axes rectangle [(x, y, w, h)] in the parent's fraction coordinates. *)
Record Rect := mkRect { rx : Q; ry : Q; rw : Q; rh : Q }.

Inductive Color :=
  | Named (c : string)
  | CmapColor (cmap : option string) (t : Q).   (** [cmap(norm(v))], [t = norm(v)] *)

Inductive Locator := MaxNLocator (nbins : nat) | NullLocator.

Inductive Artist :=
  | Lines (geoms : list Feature) (color : string) (linewidth : Q)
  | Patches (polys : list (Feature * Color))
  | PathCollection (offsets : list (Q * Q)) (sizes : list Q) (colors : list string)
      (alpha : option Q) (edgecolor : option string) (linewidth : option Q)
  | QuadMesh (x y : list Q) (bins : Z) (range : (Q * Q) * (Q * Q))
      (cmap : option string) (alpha : option Q) (cmin : option Z)
  | Legend (handles : list (string * string)) (labels : list string) (loc : string)
  | Colorbar (vmin vmax : option Q) (cmap : option string) (format : option string)
      (locator : Locator).

Record Axes := mkAxes {
  ax_label : string;
  ax_bounds : Rect;
  xlim : Q * Q;
  ylim : Q * Q;
  axis_on : bool;
  frame_on : bool;
  ticks_off : bool;            (** [set_xticks([])] and [set_yticks([])] *)
  artists : list Artist;
}.

Record Figure := mkFigure {
  fig_num : nat;
  figsize : Q * Q;
  dpi : Q;
  main_ax : Axes;
  child_axes : list Axes;      (** [ax.child_axes], in creation order *)
}.

Definition default_axes : Axes :=
  mkAxes "" (mkRect 0 0 1 1) (0, 1)%Q (0, 1)%Q true true false [].

(** ** pyplot operations *)

(** The number [plt.figure] gives a new figure: one more than the largest
    open one. *)
Definition next_fignum (s : gset nat) : nat := S (max_list (elements s)).

(** [plt.subplots(figsize=..., dpi=...)]: a new open figure with one axes. *)
Definition subplots (size : Q * Q) (d : Q) : Plt Figure :=
  fun s => let n := next_fignum (open_figs s) in
           (Ok (mkFigure n size d default_axes []),
            mkPlt ({[n]} ∪ open_figs s) (rc s) (ttflist s)).

(** [plt.close(fig)]. *)
Definition close (f : Figure) : Plt unit :=
  modify (fun s => mkPlt (open_figs s ∖ {[fig_num f]}) (rc s) (ttflist s)).

(** [plt.close("all")]. *)
Definition close_all : Plt unit :=
  modify (fun s => mkPlt ∅ (rc s) (ttflist s)).

(** [plt.rcdefaults()]. *)
Definition rcdefaults : Plt unit :=
  modify (fun s => mkPlt (open_figs s) rcParamsDefault (ttflist s)).

(** [font_manager.fontManager.addfont(path)]. *)
Definition addfont (path : string) : Plt unit :=
  modify (fun s => mkPlt (open_figs s) (rc s) (ttflist s ++ [path])).

(** [ax.child_axes[i].<draw>(...)]: Python's indexing raises [IndexError]
    out of range. *)
Definition draw_child (fig : Figure) (i : nat) (a : Artist) : res Figure :=
  match child_axes fig !! i with
  | None => Raise IndexError
  | Some ax =>
      Ok (mkFigure (fig_num fig) (figsize fig) (dpi fig) (main_ax fig)
            (<[i := mkAxes (ax_label ax) (ax_bounds ax) (xlim ax) (ylim ax)
                      (axis_on ax) (frame_on ax) (ticks_off ax)
                      (artists ax ++ [a])]> (child_axes fig)))
  end.

(** A draw call on the main axes ([ax.legend], [plt.colorbar(ax=ax)]). *)
Definition draw_main (fig : Figure) (a : Artist) : Figure :=
  let ax := main_ax fig in
  mkFigure (fig_num fig) (figsize fig) (dpi fig)
    (mkAxes (ax_label ax) (ax_bounds ax) (xlim ax) (ylim ax) (axis_on ax)
       (frame_on ax) (ticks_off ax) (artists ax ++ [a]))
    (child_axes fig).

(** ** Argument checks of the draw calls *)

(** What matplotlib and Python look up: [matplotlib.colors.is_color_like]
    on a string, the names of [matplotlib.colormaps], [str] of a float and
    [float] of a string ([None] where it raises). *)
Class Mpl := {
  is_color_like : string -> bool;
  colormaps : list string;
  float_str : Q -> string;
  float_of_str : string -> option Q;
}.

(** The colors and colormaps the code, its defaults and its tests name. *)
Definition mpl_named_colors : list string :=
  ["red"; "blue"; "green"; "yellow"; "purple"; "orange"; "black"].
Definition mpl_builtin_cmaps : list string := ["GnBu"; "Blues"; "Reds"; "tab10"].

(** Every matplotlib version names these colors and registers these
    colormaps. *)
Class MplLaws `{Mpl} : Prop := {
  named_colors_like : Forall (fun c => is_color_like c = true) mpl_named_colors;
  builtin_colormaps : Forall (fun n => n ∈ colormaps) mpl_builtin_cmaps;
}.

(** Python's [repr] of a string and of a list of strings. *)
Definition py_repr_str (s : string) : string := "'" +:+ s +:+ "'".
Definition py_repr_strs (l : list string) : string :=
  "[" +:+ String.concat ", " (map py_repr_str l) +:+ "]".

Section Checks.
Context `{MP : Mpl}.

(** [cmap=name] goes through [cm._ensure_cmap]: [None] is
    [rcParams["image.cmap"]]; any other name must be registered, checked by
    [_api.check_in_list(sorted(_colormaps), cmap=name)]. *)
Definition check_cmap (cmap : option string) : res unit :=
  match cmap with
  | None => Ok tt
  | Some n =>
      if bool_decide (n ∈ colormaps) then Ok tt
      else Raise (ValueError (py_repr_str n +:+ " is not a valid value for cmap; supported values are "
                              +:+ String.concat ", " (map py_repr_str (merge_sort String.le colormaps))))
  end.

(** [Artist.set_alpha]: [None] or a number of [[0, 1]]. *)
Definition check_alpha (alpha : option Q) : res unit :=
  match alpha with
  | None => Ok tt
  | Some a =>
      if Qle_bool 0 a && Qle_bool a 1 then Ok tt
      else Raise (ValueError ("alpha (" +:+ float_str a +:+ ") is outside 0-1 range"))
  end.

(** A [color=] argument [scatter] accepts as one color. *)
Definition color_ok (c : option string) : bool :=
  match c with Some c0 => is_color_like c0 | None => true end.

Definition c_arg_error (r : string) : PyExn :=
  ValueError ("'c' argument must be a color, a sequence of colors, or a sequence of numbers, not " +:+ r).

(** [s=] of [scatter]: [None] (the default size), a scalar, or one size
    per point. *)
Inductive SizeArg := SDefault | SScalar (q : Q) | SList (l : list Q).
(** [c=] of [scatter]: [None] (the next color of the axes' cycle), one
    color, or one color per point. *)
Inductive ColorArg := CDefault | CSingle (c : string) | CList (l : list string).

(** The colors [scatter] draws with ([Axes._parse_scatter_color_args]):
    [c=None] takes the next color of the axes' property cycle,
    ['#1f77b4'] on the inset axes, whose cycle no earlier call has
    advanced (every earlier artist is given its color); a string must be a
    color; a list of strings is converted by [to_rgba_array], which
    raises on a string that is not a color, and must then have 0, 1 or
    [n] entries. *)
Definition scatter_colors (n : nat) (c : ColorArg) : res (list string) :=
  match c with
  | CDefault => Ok ["#1f77b4"]
  | CSingle c0 => if is_color_like c0 then Ok [c0] else Raise (c_arg_error (py_repr_str c0))
  | CList cs =>
      if negb (forallb is_color_like cs) then Raise (c_arg_error (py_repr_strs cs))
      else if negb ((length cs =? 0) || (length cs =? 1) || (length cs =? n))%nat
      then Raise (ValueError ("'c' argument has " +:+ pretty (length cs)
                              +:+ " elements, which is inconsistent with 'x' and 'y' with size "
                              +:+ pretty n +:+ "."))
      else Ok cs
  end.

(** [Axes.scatter(x, y, s=..., c=..., alpha=..., edgecolor=..., linewidth=...)]:
    [x] and [y] must have one length [n]; [s=None] is
    [rcParams["lines.markersize"] ** 2 = 36] (the default, which the code
    never changes); an array [s] must have 1 or [n] entries; then the
    colors; then the [PathCollection] sets [alpha]. *)
Definition scatter (xs ys : list Q) (s : SizeArg) (c : ColorArg) (alpha : option Q)
    (edge : option string) (lw : option Q) : res Artist :=
  let n := length xs in
  if negb (length ys =? n)%nat then Raise (ValueError "x and y must be the same size")
  else
    (let! sizes := match s with
                  | SDefault => Ok [36%Q]
                  | SScalar q => Ok [q]
                  | SList l =>
                      if negb ((length l =? 1) || (length l =? n))%nat
                      then Raise (ValueError
                             "s must be a scalar, or float array-like with the same size as x and y")
                      else Ok l
                  end in
    let! colors := scatter_colors n c in
    let! _ := check_alpha alpha in
    Ok (PathCollection (zip xs ys) sizes colors alpha edge lw))%py.

(** [Axes.hist2d(x, y, bins=..., range=..., cmap=..., alpha=..., cmin=...)]:
    numpy's [histogram2d] needs [x] and [y] of one length, then
    [histogramdd] compares the bin count with 1: [bins=None] fails there
    with a [TypeError], a count below 1 with a [ValueError]; then
    [pcolormesh] builds the [QuadMesh], whose [ScalarMappable] checks
    [cmap] before [alpha] is set. *)
Definition hist2d (xs ys : list Q) (bins : option Z) (range : (Q * Q) * (Q * Q))
    (cmap : option string) (alpha : option Q) (cmin : option Z) : res Artist :=
  if negb (length xs =? length ys)%nat
  then Raise (ValueError "x and y must have the same length.")
  else match bins with
       | None => Raise (TypeError "'<' not supported between instances of 'NoneType' and 'int'")
       | Some b =>
           if (b <=? 0)%Z then Raise (ValueError "`bins[0]` must be positive, when an integer")
           else (let! _ := check_cmap cmap in
                 let! _ := check_alpha alpha in
                 Ok (QuadMesh xs ys b range cmap alpha cmin))%py
       end.

End Checks.

Section Laws.
Context `{MPL : MplLaws}.

(** Colors among the named ones are accepted. *)
Lemma named_colors (l : list string) :
  forallb (fun c => bool_decide (c ∈ mpl_named_colors)) l = true -> forallb is_color_like l = true.
Proof.
  intros Hl. apply forallb_forall. intros c Hc. eapply forallb_forall in Hl; [|exact Hc].
  apply bool_decide_eq_true_1 in Hl. pose proof named_colors_like as Hall.
  rewrite Forall_forall in Hall. by apply Hall.
Qed.

Lemma named_color (c : string) : bool_decide (c ∈ mpl_named_colors) = true -> is_color_like c = true.
Proof.
  intros Hc. pose proof (named_colors [c]) as Hl. simpl in Hl. rewrite Hc in Hl. simpl in Hl.
  destruct (is_color_like c); [done|]. by discriminate (Hl eq_refl).
Qed.

(** The colormaps among the built-in ones pass [check_cmap]. *)
Lemma builtin_cmap (n : string) : bool_decide (n ∈ mpl_builtin_cmaps) = true -> check_cmap (Some n) = Ok tt.
Proof.
  intros Hn. apply bool_decide_eq_true_1 in Hn. unfold check_cmap.
  rewrite bool_decide_eq_true_2; [done|]. pose proof builtin_colormaps as Hall.
  rewrite Forall_forall in Hall. by apply Hall.
Qed.

End Laws.

(** ** Drawing several artists on one panel *)

Definition add_artists (ax : Axes) (l : list Artist) : Axes :=
  mkAxes (ax_label ax) (ax_bounds ax) (xlim ax) (ylim ax) (axis_on ax) (frame_on ax)
    (ticks_off ax) (artists ax ++ l).

Definition set_children (fig : Figure) (cs : list Axes) : Figure :=
  mkFigure (fig_num fig) (figsize fig) (dpi fig) (main_ax fig) cs.

(** Successive draw calls on [ax.child_axes[i]]. *)
Definition draw_all (fig : Figure) (i : nat) (arts : list Artist) : res Figure :=
  res_fold arts fig (fun f a => draw_child f i a).

Lemma draw_child_ok fig i a ax :
  child_axes fig !! i = Some ax ->
  draw_child fig i a = Ok (set_children fig (<[i := add_artists ax [a]]> (child_axes fig))).
Proof. unfold draw_child. by intros ->. Qed.

Lemma draw_all_ok fig i arts ax :
  child_axes fig !! i = Some ax ->
  draw_all fig i arts = Ok (set_children fig (<[i := add_artists ax arts]> (child_axes fig))).
Proof.
  unfold draw_all. revert fig ax. induction arts as [|a arts IH]; intros fig ax Hax; simpl.
  - f_equal. destruct fig as [n sz d m cs]; unfold set_children, add_artists; simpl in *.
    rewrite app_nil_r. destruct ax; simpl. by rewrite list_insert_id.
  - rewrite (draw_child_ok fig i a ax Hax). simpl.
    rewrite (IH _ (add_artists ax [a])); [|simpl; by apply list_lookup_insert_eq, (lookup_lt_Some _ _ ax)].
    f_equal. unfold set_children, add_artists; simpl. rewrite list_insert_insert_eq.
    by rewrite <- app_assoc.
Qed.

Lemma draw_all_out_of_range fig i arts :
  arts <> [] -> child_axes fig !! i = None -> draw_all fig i arts = Raise IndexError.
Proof. destruct arts; [done|]. unfold draw_all, draw_child. simpl. by intros _ ->. Qed.

(** ** A loop that draws on panel [i] at its [i]-th step

    The renderers iterate [for i, a in area_list] and draw only on
    [ax.child_axes[i]].  When step [i] appends the artists [A i a] to panel
    [i], the loop appends them to every panel in range and leaves the
    rest of the figure alone. *)

Section PanelLoop.
Context {K : Type} (step : Figure -> nat * K -> res Figure) (A : nat -> K -> list Artist).

Definition panel_after (keys : list K) (off j : nat) (ax : Axes) : Axes :=
  if decide (off <= j) then
    match keys !! (j - off) with Some k => add_artists ax (A j k) | None => ax end
  else ax.

Lemma panel_loop_ok (keys : list K) (off : nat) (fig0 : Figure) :
  (forall fig j k, keys !! j = Some k -> off + j < length (child_axes fig) ->
     step fig (off + j, k) = draw_all fig (off + j) (A (off + j) k)) ->
  off + length keys <= length (child_axes fig0) ->
  exists fig, res_fold (imap (fun j k => (off + j, k)) keys) fig0 step = Ok fig /\
    fig_num fig = fig_num fig0 /\ main_ax fig = main_ax fig0 /\
    length (child_axes fig) = length (child_axes fig0) /\
    forall j ax, child_axes fig0 !! j = Some ax ->
      child_axes fig !! j = Some (panel_after keys off j ax).
Proof.
  revert off fig0. induction keys as [|k ks IH]; intros off fig0 Hstep Hlen; simpl.
  - exists fig0. split_and!; try done. intros j ax Hj. rewrite Hj. unfold panel_after.
    case_decide; [by rewrite lookup_nil|done].
  - simpl in Hlen.
    destruct (lookup_lt_is_Some_2 (child_axes fig0) off) as [ax0 Hax0]; [lia|].
    rewrite (Hstep fig0 0 k) by (done || lia). rewrite Nat.add_0_r.
    rewrite (draw_all_ok _ _ _ ax0 Hax0). simpl.
    set (fig1 := set_children fig0 (<[off := add_artists ax0 (A off k)]> (child_axes fig0))).
    rewrite (imap_ext _ (fun j k => (S off + j, k)))
      by (intros; cbv [compose]; f_equal; lia).
    destruct (IH (S off) fig1) as (fig & Hfold & Hn & Hm & Hl & Hc).
    { intros fig j k' Hj Hlt. replace (S off + j) with (off + S j) by lia. apply Hstep; [done|lia]. }
    { unfold fig1, set_children; simpl. rewrite length_insert. lia. }
    exists fig. rewrite Hfold. split_and!; try done.
    { unfold fig1, set_children in Hl; simpl in Hl. by rewrite length_insert in Hl. }
    intros j ax Hj. destruct (decide (j = off)) as [->|Hne].
    + rewrite (Hc off (add_artists ax0 (A off k))).
      * unfold panel_after. rewrite Hax0 in Hj. injection Hj as <-.
        rewrite !decide_False, decide_True, Nat.sub_diag by lia. done.
      * unfold fig1, set_children; simpl. apply list_lookup_insert_eq.
        by apply (lookup_lt_Some _ _ ax0).
    + rewrite (Hc j ax).
      * unfold panel_after. destruct (decide (S off <= j)), (decide (off <= j)); try lia; [|done].
        by replace (j - off) with (S (j - S off)) by lia.
      * unfold fig1, set_children; simpl. rewrite list_lookup_insert_ne; done.
Qed.
End PanelLoop.

Lemma draw_all_cons fig i a arts :
  draw_all fig i (a :: arts) = res_bind (draw_child fig i a) (fun f => draw_all f i arts).
Proof. done. Qed.

Lemma draw_all_one fig i a : draw_all fig i [a] = draw_child fig i a.
Proof. unfold draw_all. simpl. apply res_bind_ok_r. Qed.

(** ** Figure numbers survive drawing *)

Definition keeps_num (R : Figure -> res Figure) : Prop :=
  forall fig fig', R fig = Ok fig' -> fig_num fig' = fig_num fig.

Lemma draw_child_num fig i a fig' : draw_child fig i a = Ok fig' -> fig_num fig' = fig_num fig.
Proof. unfold draw_child. destruct (child_axes fig !! i); [|done]. by intros [= <-]. Qed.

Lemma res_fold_num {B} (l : list B) (step : Figure -> B -> res Figure) :
  (forall x, keeps_num (fun f => step f x)) -> keeps_num (fun f => res_fold l f step).
Proof.
  intros Hs fig fig' H. apply (res_fold_inv (fun f => fig_num f = fig_num fig) step l fig);
    [done| |done]. intros a x a' _ Ha Hst. rewrite <- Ha. by apply (Hs x).
Qed.

(** Peel the binds of a drawing step and close each part by [draw_child_num]. *)
Ltac keeps_num_step :=
  intros ?fig ?fig' ?H; simpl in H;
  repeat match type of H with
  | res_bind ?r _ = Ok _ => destruct r eqn:?; simpl in H; [|discriminate H]
  | match ?r with Ok _ => _ | Raise _ => _ end = Ok _ => destruct r eqn:?; [|discriminate H]
  | (if ?b then _ else _) = Ok _ => destruct b
  end;
  repeat match goal with
  | E : draw_child _ _ _ = Ok _ |- _ => apply draw_child_num in E
  end;
  congruence.

(** A new figure's number is not one of the open figures. *)
Lemma next_fignum_fresh (s : gset nat) : next_fignum s ∉ s.
Proof.
  unfold next_fignum. intros Hin. apply elem_of_elements in Hin.
  apply max_list_elem_of_le in Hin. lia.
Qed.

(** Closing the figure just opened restores the open set. *)
Lemma close_opened (s : gset nat) : ({[next_fignum s]} ∪ s) ∖ {[next_fignum s]} = s.
Proof. pose proof (next_fignum_fresh s). set_solver. Qed.

(** ** A registry for the examples

    Some of matplotlib's CSS4 colors, its sequential and qualitative
    colormaps; [str(float)] written as a fraction, and no string read as a
    float (the examples convert none). *)
Module SampleMpl.

Definition css_colors : list string :=
  ["black"; "white"; "gray"; "red"; "green"; "blue"; "yellow"; "purple"; "orange"; "pink"; "brown"].

Definition sample_colormaps : list string :=
  ["viridis"; "plasma"; "inferno"; "magma"; "cividis"; "Greys"; "Purples"; "Blues"; "Greens";
   "Oranges"; "Reds"; "YlOrBr"; "YlOrRd"; "OrRd"; "PuRd"; "RdPu"; "BuPu"; "GnBu"; "PuBu";
   "YlGnBu"; "PuBuGn"; "BuGn"; "YlGn"; "tab10"; "tab20"; "Set1"; "Set2"; "Set3"].

#[export] Instance sample_mpl : Mpl := {|
  is_color_like c := bool_decide (c ∈ css_colors);
  colormaps := sample_colormaps;
  float_str q := pretty (Qnum q) +:+ "/" +:+ pretty (Npos (Qden q));
  float_of_str _ := None;
|}.

#[export] Instance sample_mpl_laws : MplLaws.
Proof. split; repeat constructor; vm_compute; (reflexivity || set_solver). Qed.

End SampleMpl.
