(* ===== verification/Fonts.v ===== *)
(** * Fonts: [Font.show_all] of [src/src/config.py]

    [show_all] lists the names of the fonts matplotlib's font manager
    knows ([font_manager.fontManager.ttflist]: the system fonts found at
    import, then the files added by [Font.register] and
    [Font.register_all]), sorted with Python's [sorted], under a heading.
    A font's name is read from its file, so the name of the font at a path
    is a parameter [font_name]; the printed lines are the computation's
    value and the pyplot state is left unchanged.

    Python orders strings by code points; the strings here are UTF-8
    bytes, whose lexicographic order is the code-point order, so [sorted]
    is stdpp's stable [merge_sort] on [String.le].  The theorem shows that
    the printed names are the unique ascending arrangement of the names in
    the font list. *)

From Stdlib Require Import String.
From stdpp Require Import base list sorting strings.
From S2P Require Import Prelude Config Pyplot.

Local Open Scope string_scope.

Module FontList.

Section ShowAll.
(** The fonts matplotlib finds on the system at import, by path. *)
Context (system_ttf : list string).
(** The family name stored in the font file at a path. *)
Context (font_name : string -> string).

(** [font_manager.fontManager.ttflist]: the system fonts, then the added
    files. *)
Definition ttf_entries (s : PltState) : list string := system_ttf ++ ttflist s.

(** [Font().show_all()]: the heading, then [sorted([font.name for font in
    ttflist])], one per line. *)
Definition show_all : Plt (list string) := fun s =>
  let font_names := merge_sort String.le (map font_name (ttf_entries s)) in
  (Ok ("所有可用字體：" :: font_names), s).

End ShowAll.

End FontList.

Module FontTheorems.
Import FontList.

Section ShowAll.
Context (system_ttf : list string) (font_name : string -> string).

(** C30: [Font.show_all] prints its heading and then exactly the names of
    the fonts in the font list, system fonts and registered files alike,
    in ascending order: any ascending list holding the same names, with
    their multiplicities, is what it prints; the pyplot state is
    unchanged. *)
Theorem show_all_sorted (s : PltState) (names : list string) :
  Sorted String.le names -> names ≡ₚ map font_name (system_ttf ++ ttflist s) ->
  show_all system_ttf font_name s = (Ok ("所有可用字體：" :: names), s).
Proof.
  intros Hs Hp. unfold show_all, ttf_entries. do 3 f_equal.
  apply (Sorted_unique String.le); [apply Sorted_merge_sort, String.le_total|exact Hs|].
  by rewrite merge_sort_Permutation.
Qed.

End ShowAll.

(** The fonts of [Graph()] ([Font.Urbanist], [Font.NotoSerifTC]) after one
    system font, each named by its file. *)
Lemma show_all_sorted_witness :
  Sorted String.le ["/app/res/fonts/NotoSerifTC-Regular.ttf"; "/app/res/fonts/Urbanist-Regular.ttf";
                    "/usr/share/fonts/DejaVuSans.ttf"] /\
  show_all ["/usr/share/fonts/DejaVuSans.ttf"] (fun p => p)
    (mkPlt ∅ rcParamsDefault [Font.Urbanist; Font.NotoSerifTC]) =
  (Ok ["所有可用字體："; "/app/res/fonts/NotoSerifTC-Regular.ttf";
       "/app/res/fonts/Urbanist-Regular.ttf"; "/usr/share/fonts/DejaVuSans.ttf"],
   mkPlt ∅ rcParamsDefault [Font.Urbanist; Font.NotoSerifTC]).
Proof.
  assert (Hs : Sorted String.le ["/app/res/fonts/NotoSerifTC-Regular.ttf";
                 "/app/res/fonts/Urbanist-Regular.ttf"; "/usr/share/fonts/DejaVuSans.ttf"])
    by (repeat constructor; vm_compute; exact I).
  split; [exact Hs|].
  apply show_all_sorted; [exact Hs|].
  vm_compute. exact (Permutation_rev _).
Defined.

End FontTheorems.
