(* ===== verification/Layout.v ===== *)
(** * Layout: the composite canvas of [GeoPlot] in [src/src/core.py]

    [GeoPlot.__init__] (the enumerated [area_list]), [GeoPlot.base] (the
    figure, its frameless main axes and one inset axes per region of
    [AREA_RANGE]), [GeoPlot._inset] and [GeoPlot._cal_insert_ax_height].
    The theorems show that inset [i] is region [i] of the registry, that
    its limits are the region's box, that every level-1 and level-2 panel
    has the aspect of its box, where the panels lie, and that the level-2
    panels are drawn over their level-1 parents. *)

From Stdlib Require Import QArith Qfield Lqa String.
From stdpp Require Import base list sets fin_sets gmap strings.
From S2P Require Import Prelude Config GeoData Pyplot.

Open Scope string_scope.
Open Scope py_scope.

Module GeoPlot.
Import FigConfig.

(** [self.area_list = [area for area in enumerate(self.fig_config.AREA_RANGE)]] *)
Definition area_list : list (nat * string) := imap pair AREA_RANGE.*1.

(** [_cal_insert_ax_height(bounds, width)]: [width * (dy / dx)]; Python's
    float division raises [ZeroDivisionError] on a zero [dx]. *)
Definition _cal_insert_ax_height (b : Bounds) (width : Q) : res Q :=
  let aspect_den := (max_x b - min_x b)%Q in
  if Qeq_bool aspect_den 0 then Raise ZeroDivisionError
  else Ok (width * ((max_y b - min_y b) / aspect_den))%Q.

(** [_inset(ax, bounds, label, frame_on)]: [ax.inset_axes(bounds,
    label=label)] appends the new axes to [ax.child_axes]; it is then
    configured in place (no ticks, frame, limits [AREA_RANGE[label]]). *)
Definition _inset (fig : Figure) (bounds : Rect) (label : string) (frame_on : bool)
    : res Figure :=
  let! area := area_info label in
  let b := FigConfig.bounds area in
  let ax_in := mkAxes label bounds (min_x b, max_x b) (min_y b, max_y b)
                 true frame_on true [] in
  Ok (mkFigure (fig_num fig) (figsize fig) (dpi fig) (main_ax fig)
        (child_axes fig ++ [ax_in])).

Definition area_bounds (label : string) : res Bounds :=
  let! a := area_info label in Ok (FigConfig.bounds a).

(** The main axes: [set_axis_off], no ticks, [set_xlim(118.93, 122.7)],
    [set_ylim(21.5, 25.5)]. *)
Definition base_main (ax : Axes) : Axes :=
  mkAxes (ax_label ax) (ax_bounds ax) (118.93, 122.7)%Q (21.5, 25.5)%Q
    false (frame_on ax) true (artists ax).

(** The body of [base] after [plt.subplots]. *)
Definition base_layout (fig0 : Figure) : res Figure :=
  let fig := mkFigure (fig_num fig0) (figsize fig0) (dpi fig0)
               (base_main (main_ax fig0)) (child_axes fig0) in
  (* taiwan *)
  let! fig := _inset fig (mkRect 0 0 1 1) "taiwan" false in
  let x0 := 0.02%Q in let x1 := 0.19%Q in
  let w0 := 0.21%Q in let w1 := 0.06%Q in
  let y := 0.35%Q in
  (* penghu *)
  let! b := area_bounds "penghu" in
  let! h := _cal_insert_ax_height b w0 in
  let! fig := _inset fig (mkRect x0 y w0 h) "penghu" true in
  (* kinmen *)
  let y := (y + h + 0.01)%Q in
  let! b := area_bounds "kinmen" in
  let! h := _cal_insert_ax_height b w0 in
  let! fig := _inset fig (mkRect x0 y w0 h) "kinmen" true in
  (* kinmen-wuqiu *)
  let! b := area_bounds "kinmen-wuqiu" in
  let! _h := _cal_insert_ax_height b w1 in
  let! fig := _inset fig (mkRect x1 (y + _h - 0.02) w1 _h) "kinmen-wuqiu" true in
  (* lienchiang *)
  let y := (y + h + 0.01)%Q in
  let! b := area_bounds "lienchiang" in
  let! h := _cal_insert_ax_height b w0 in
  let! fig := _inset fig (mkRect x0 y w0 h) "lienchiang" true in
  (* lienchiang-dongyin *)
  let! b := area_bounds "lienchiang-dongyin" in
  let! _h := _cal_insert_ax_height b w1 in
  let! fig := _inset fig (mkRect x1 (y + _h - 0.03) w1 _h) "lienchiang-dongyin" true in
  (* lienchiang-juguang *)
  let! b := area_bounds "lienchiang-juguang" in
  let! _h := _cal_insert_ax_height b w1 in
  let! fig := _inset fig (mkRect x1 (y + _h + 0.05) w1 _h) "lienchiang-juguang" true in
  Ok fig.

(** [GeoPlot.base()]: a new figure of [FigConfig.SIZE] at [FigConfig.DPI],
    laid out; the [(fig, ax)] pair is the figure with its [main_ax]. *)
Definition base : Plt Figure :=
  fig <- subplots SIZE DPI ;;
  lift (base_layout fig).
End GeoPlot.

(** ** Panels: what the layout computes *)

Module Panels.
Import FigConfig GeoPlot.

(** The inset axes [base] appends to a fresh figure. *)
Definition base_children : list Axes :=
  match base_layout (mkFigure 0 SIZE DPI default_axes []) with
  | Ok f => child_axes f
  | Raise _ => []
  end.

(** The figure [base] returns on a pyplot state [s], and the state after. *)
Definition base_fig (s : PltState) : Figure :=
  mkFigure (next_fignum (open_figs s)) SIZE DPI (base_main default_axes) base_children.

Definition opened (s : PltState) : PltState :=
  mkPlt ({[next_fignum (open_figs s)]} ∪ open_figs s) (rc s) (ttflist s).

(** [base] never raises: it opens one new figure and lays out the
    registry's panels. *)
Lemma base_run (s : PltState) : base s = (Ok (base_fig s), opened s).
Proof. unfold base, bind, subplots, lift. vm_compute. reflexivity. Qed.

(** Opening a figure adds exactly one figure to the open ones. *)
Lemma opened_size (s : PltState) : size (open_figs (opened s)) = S (size (open_figs s)).
Proof.
  unfold opened. cbn [open_figs]. rewrite size_union, size_singleton; [done|].
  apply disjoint_singleton_l, next_fignum_fresh.
Qed.

(** The panel a region must get: its label, and its box as limits. *)
Definition panel_of (ax : Axes) (entry : string * Area) : Prop :=
  ax_label ax = entry.1 /\
  xlim ax = (min_x (bounds entry.2), max_x (bounds entry.2)) /\
  ylim ax = (min_y (bounds entry.2), max_y (bounds entry.2)).

(** A panel keeps its box's shape: [h / w = dy / dx]. *)
Definition aspect_of (ax : Axes) (b : Bounds) : Prop :=
  (rh (ax_bounds ax) * (max_x b - min_x b) == rw (ax_bounds ax) * (max_y b - min_y b))%Q.

Definition rect_in_unit (r : Rect) : Prop :=
  (0 <= rx r /\ 0 <= ry r /\ 0 < rw r /\ 0 < rh r /\ rx r + rw r <= 1 /\ ry r + rh r <= 1)%Q.

(** The panels [base] makes carry no artist yet. *)
Lemma base_children_registry :
  Forall2 (fun ax e => panel_of ax e /\ artists ax = []) base_children AREA_RANGE.
Proof. unfold panel_of. closed_check. Qed.

(** Two rectangles share an area of positive measure. *)
Definition rect_overlap (r1 r2 : Rect) : Prop :=
  (rx r1 < rx r2 + rw r2 /\ rx r2 < rx r1 + rw r1 /\
   ry r1 < ry r2 + rh r2 /\ ry r2 < ry r1 + rh r1)%Q.
End Panels.

(** The computed layout is evaluated by [vm_compute] only; tactics treat it
    as a constant. *)
#[global] Opaque Panels.base_children.

(** ** Layout theorems *)

Module LayoutTheorems.
Import FigConfig GeoPlot Panels.

Lemma base_children_fst (s : PltState) :
  exists fig, fst (base s) = Ok fig /\ child_axes fig = base_children.
Proof. rewrite base_run. eauto. Qed.

(** C16: [_cal_insert_ax_height(bounds, width)] returns the height that
    gives a panel of width [width] its box's shape, and raises
    [ZeroDivisionError] exactly on a box of zero width. *)
Theorem cal_insert_ax_height_spec (b : Bounds) (w : Q) :
  (~ (max_x b - min_x b == 0)%Q ->
     exists h, _cal_insert_ax_height b w = Ok h /\
               (h * (max_x b - min_x b) == w * (max_y b - min_y b))%Q) /\
  ((max_x b - min_x b == 0)%Q -> _cal_insert_ax_height b w = Raise ZeroDivisionError).
Proof.
  unfold _cal_insert_ax_height. split; intros Hdx.
  - destruct (Qeq_bool _ _) eqn:E; [apply Qeq_bool_iff in E; contradiction|].
    eexists. split; [reflexivity|]. field. done.
  - apply Qeq_bool_iff in Hdx. by rewrite Hdx.
Qed.

Lemma cal_insert_ax_height_spec_witness :
  ~ (max_x ((mkBounds 119.3 119.74 23.16 23.86)) - min_x (mkBounds 119.3 119.74 23.16 23.86) == 0)%Q /\
  exists h, _cal_insert_ax_height (mkBounds 119.3 119.74 23.16 23.86) (1#4) = Ok h.
Proof.
  assert (Hdx : ~ (max_x (mkBounds 119.3 119.74 23.16 23.86) - min_x (mkBounds 119.3 119.74 23.16 23.86) == 0)%Q)
    by (intros Hc; vm_compute in Hc; discriminate Hc).
  split; [exact Hdx|].
  destruct (proj1 (cal_insert_ax_height_spec (mkBounds 119.3 119.74 23.16 23.86) (1#4)) Hdx) as (h & Hh & _).
  eauto.
Defined.

(** C8: [base] always succeeds, and its inset [i] is the panel of the
    [i]-th region of [AREA_RANGE]: same label, limits equal to the
    region's box.  Renderers address panels by this index. *)
Theorem base_panels_follow_registry (s : PltState) :
  exists fig, fst (base s) = Ok fig /\
    Forall2 panel_of (child_axes fig) AREA_RANGE.
Proof.
  destruct (base_children_fst s) as (fig & Hb & Hc). exists fig. split; [done|].
  rewrite Hc.
  unfold panel_of. closed_check.
Qed.

(** C17: every level-1 and level-2 panel has the shape of its region's
    box ([h * dx = w * dy]), while the main-island panel is the whole
    [(0, 0, 1, 1)] square, whose shape is not its box's
    ([dy / dx = 3.6 / 3.7]). *)
Theorem base_panels_aspect (s : PltState) :
  exists fig, fst (base s) = Ok fig /\
    Forall2 (fun ax e => level e.2 <> 0%nat -> aspect_of ax (bounds e.2))
      (child_axes fig) AREA_RANGE /\
    (exists ax, child_axes fig !! 0%nat = Some ax /\
      ax_bounds ax = mkRect 0 0 1 1 /\ ~ aspect_of ax (mkBounds 118.9 122.6 21.75 25.35)).
Proof.
  destruct (base_children_fst s) as (fig & Hb & Hc). exists fig. split; [done|].
  rewrite Hc. unfold aspect_of. split; [closed_check|].
  eexists. split; [reflexivity|]. split; [reflexivity|]. vm_compute. discriminate.
Qed.

(** C18: Every panel lies inside the main axes' unit square, with a positive
    size. *)
Theorem base_panels_in_unit (s : PltState) :
  exists fig, fst (base s) = Ok fig /\
    Forall (fun ax => rect_in_unit (ax_bounds ax)) (child_axes fig).
Proof.
  destruct (base_children_fst s) as (fig & Hb & Hc). exists fig. split; [done|].
  rewrite Hc.
  unfold rect_in_unit. closed_check.
Qed.

(** Introduce two panels with their regions and enumerate the indices. *)
Ltac two_panels :=
  intros i j ax1 ax2 l1 l2 a1 a2 Hij H1 H2 E1 E2 L1 L2;
  index_cases i H1; index_cases j H2;
  vm_compute in E1, E2; injection E1 as <- <-; injection E2 as <- <-;
  vm_compute in L1, L2; try discriminate L1; try discriminate L2;
  try (destruct (Hij eq_refl)).

(** C19: the level-1 panels (Penghu, Kinmen, Lienchiang), stacked with a
    [0.01] gap, never overlap one another; but each level-2 panel is drawn
    over the panel of its level-1 parent region (the region whose label
    prefixes its own): the "small vertical offset" does not keep them
    apart. *)
Theorem base_level1_panels_disjoint (s : PltState) :
  exists fig, fst (base s) = Ok fig /\
    (forall i j ax1 ax2 l1 l2 a1 a2, i <> j ->
      child_axes fig !! i = Some ax1 -> child_axes fig !! j = Some ax2 ->
      AREA_RANGE !! i = Some (l1, a1) -> AREA_RANGE !! j = Some (l2, a2) ->
      level a1 = 1%nat -> level a2 = 1%nat ->
      ~ rect_overlap (ax_bounds ax1) (ax_bounds ax2)) /\
    (forall j ax2 l2 a2,
      child_axes fig !! j = Some ax2 -> AREA_RANGE !! j = Some (l2, a2) ->
      level a2 = 2%nat ->
      exists i ax1 l1 a1, (i < j)%nat /\
        child_axes fig !! i = Some ax1 /\ AREA_RANGE !! i = Some (l1, a1) /\
        level a1 = 1%nat /\ String.prefix l1 l2 = true /\
        rect_overlap (ax_bounds ax1) (ax_bounds ax2)).
Proof.
  destruct (base_children_fst s) as (fig & Hb & Hc). exists fig. split; [done|].
  rewrite Hc. split.
  - two_panels; unfold rect_overlap; vm_compute; intros (?&?&?&?); discriminate.
  - intros j ax2 l2 a2 H2 E2 L2.
    index_cases j H2; vm_compute in E2; injection E2 as <- <-;
      vm_compute in L2; try discriminate L2;
      [exists 2%nat | exists 4%nat | exists 4%nat];
      do 3 eexists; split_and!; try lia; try (vm_compute; reflexivity);
      unfold rect_overlap; closed_check.
Qed.

End LayoutTheorems.
