(* ===== verification/ColorScale.v ===== *)
(** * ColorScale: value ranges, normalisation and the colorbar

    What [Graph.plot_choropleth] in [src/src/graph.py] computes from the
    value column: pandas' [Series.min] / [Series.max] (numeric columns
    with NaN skipped, [object] columns of strings in code-point order, a
    [TypeError] on mixed ones), the per-panel fill of
    [GeoDataFrame.plot(column=..., cmap=...)] (a numeric column normalised
    over the plotted rows with [plt.Normalize], an [object] column drawn
    as categories; the colormap checked by matplotlib), and
    [Graph._colorbar] ([Normalize] converting a string extreme with
    [float()], then the colormap check).  The theorem shows that a
    numeric panel is filled at each row's own value normalised over that
    panel's range. *)

From Stdlib Require Import QArith Qfield Lqa String.
From stdpp Require Import base list sets strings sorting.
From S2P Require Import Prelude Config GeoData Pyplot.

Open Scope string_scope.
Open Scope py_scope.

Module ColorScale.

Section Scale.
Context `{MP : Mpl}.

(** ** Ranges *)

Definition qmin (x y : Q) : Q := if Qle_bool x y then x else y.
Definition qmax (x y : Q) : Q := if Qle_bool y x then x else y.

(** The minimum and maximum of a list, as [min()] / [max()] give them. *)
Fixpoint list_min (l : list Q) : option Q :=
  match l with
  | [] => None
  | x :: l' => match list_min l' with None => Some x | Some m => Some (qmin x m) end
  end.

Fixpoint list_max (l : list Q) : option Q :=
  match l with
  | [] => None
  | x :: l' => match list_max l' with None => Some x | Some m => Some (qmax x m) end
  end.

(** A scalar [Series.min] / [Series.max] returns: a number, or the string
    of an [object] column. *)
Inductive Scalar := SNum (q : Q) | SStr (s : string).

Fixpoint str_min (l : list string) : option string :=
  match l with
  | [] => None
  | x :: l' => match str_min l' with
               | None => Some x
               | Some m => Some (if bool_decide (String.le x m) then x else m)
               end
  end.

Fixpoint str_max (l : list string) : option string :=
  match l with
  | [] => None
  | x :: l' => match str_max l' with
               | None => Some x
               | Some m => Some (if bool_decide (String.le m x) then x else m)
               end
  end.

Definition is_null (c : Cell) : bool := match c with CNull => true | _ => false end.

(** The numbers of a column, NaN ([CNull]) skipped. *)
Definition numbers (cs : list Cell) : list Q :=
  omap (fun c => match c with CNum q => Some q | _ => None end) cs.

(** The strings of a column holding nothing else. *)
Definition strings_only (cs : list Cell) : option (list string) :=
  mapM (fun c => match c with CStr s => Some s | _ => None end) cs.

(** [data[column].min()] / [.max()] ([nanops.nanmin] / [nanmax]): on a
    numeric column the extreme of its numbers; on an [object] column
    holding only [None], NaN ([None]); on one holding only strings, the
    least (greatest) in code-point order; on any other [object] column
    NaN is filled with [inf] and numpy's reduction compares a string with
    a number, which raises [TypeError] (the operand types the message
    names depend on the data; the message here names [str] and
    [float]). *)
Definition series_extreme (op : string) (qpick : list Q -> option Q)
    (spick : list string -> option string) (df : DataFrame) (c : string) : res (option Scalar) :=
  let! cs := df_col df c in
  if col_numeric df c then Ok (SNum <$> qpick (numbers cs))
  else if forallb is_null cs then Ok None
  else match strings_only cs with
       | Some ss => Ok (SStr <$> spick ss)
       | None => Raise (TypeError ("'" +:+ op +:+ "' not supported between instances of 'str' and 'float'"))
       end.

Definition series_min := series_extreme "<=" list_min str_min.
Definition series_max := series_extreme ">=" list_max str_max.

(** ** Normalisation *)

(** [plt.Normalize(vmin, vmax)(v)]: [0] when the range is a point. *)
Definition normalize (vmin vmax v : Q) : Q :=
  if Qeq_bool vmin vmax then 0 else ((v - vmin) / (vmax - vmin))%Q.

(** The value of a merged row in the plotted column. *)
Definition row_value (column : string) (fr : Feature * Record_) : Cell :=
  cell_get fr.2 column.

(** The merged rows with a number in the column, with that number. *)
Definition numeric_rows (column : string) (m : list (Feature * Record_)) : list (Feature * Q) :=
  omap (fun fr => match row_value column fr with CNum v => Some (fr.1, v) | _ => None end) m.

(** The polygons of [numeric_rows], each at [cmap] of its value
    normalised over [[mn, mx]]. *)
Definition fill_rows (cmap : option string) (mn mx : Q) (rows : list (Feature * Q))
    : list (Feature * Color) :=
  (fun fv => (fv.1, CmapColor cmap (normalize mn mx fv.2))) <$> rows.

(** ** Categories of an [object] column *)

(** Equality of two values, as [factorize] hashes them ([1 == 1.0]). *)
Definition cell_eqb (a b : Cell) : bool :=
  match a, b with
  | CStr x, CStr y => bool_decide (x = y)
  | CNum p, CNum q => Qeq_bool p q
  | _, _ => false
  end.

(** The distinct values, in order of first appearance. *)
Definition uniq_cells (l : list Cell) : list Cell :=
  fold_left (fun acc c => if existsb (cell_eqb c) acc then acc else (acc ++ [c])%list) l [].

Definition cell_le (a b : Cell) : Prop :=
  match a, b with
  | CStr x, CStr y => String.le x y
  | CNum p, CNum q => (p <= q)%Q
  | _, _ => True
  end.

#[export] Instance cell_le_dec : RelDecision cell_le.
Proof.
  intros [x|p|] [y|q|]; simpl; try (left; exact I).
  - apply _.
  - destruct (Qlt_le_dec q p); [right; lra|left; done].
Defined.

(** [pd.Categorical(values).categories]: the distinct non-NaN values,
    sorted when they are all strings or all numbers; [factorize] falls
    back to their order of appearance when sorting raises. *)
Definition categories (vals : list Cell) : list Cell :=
  let u := uniq_cells vals in
  if forallb (fun c => match c with CStr _ => true | _ => false end) u
     || forallb (fun c => match c with CNum _ => true | _ => false end) u
  then merge_sort cell_le u else u.

(** [cat.codes]: the index of a value's category. *)
Definition category_code (cats : list Cell) (c : Cell) : nat :=
  match list_find (cell_eqb c) cats with Some (i, _) => i | None => 0%nat end.

(** ** The fill of a panel *)

(** [gdf.plot(ax=..., column=column, cmap=cmap)] on the merged frame [m]
    whose value column comes from [df] ([plot_dataframe]).  A numeric
    column: the rows with a number are drawn at their value normalised
    over the least and greatest number of the panel ([vmin] and [vmax] are
    not passed; numpy's [min] of no number raises); an [object] column is
    categorical: [cmap] defaults to ["tab10"], each drawn row is colored
    at its category's code normalised over [[0, len(categories) - 1]], and
    a panel without a non-NaN value fails filling the NaN rows with
    [values[0]].  [PatchCollection.set_cmap] then checks the colormap. *)
Definition plot_column (df : DataFrame) (m : list (Feature * Record_))
    (column : string) (cmap : option string) : res Artist :=
  let! _ := df_col df column in
  if col_numeric df column then
    let vs := (numeric_rows column m).*2 in
    match list_min vs, list_max vs with
    | Some mn, Some mx =>
        let! _ := check_cmap cmap in
        Ok (Patches (fill_rows cmap mn mx (numeric_rows column m)))
    | _, _ => Raise (ValueError "zero-size array to reduction operation minimum which has no identity")
    end
  else
    let cmap' := Some (default "tab10" cmap) in
    let drawn := filter (fun fr => negb (is_null (row_value column fr))) m in
    let cats := categories (row_value column <$> drawn) in
    match drawn with
    | [] => Raise IndexError
    | _ =>
        let! _ := check_cmap cmap' in
        Ok (Patches ((fun fr => (fr.1, CmapColor cmap'
                       (normalize 0 (inject_Z (Z.of_nat (length cats) - 1))
                          (inject_Z (Z.of_nat (category_code cats (row_value column fr))))))) <$> drawn))
    end.

(** [Graph._colorbar(ax, vmin, vmax, cmap, colorbar_format,
    colorbar_tick_visible)]: [plt.Normalize(vmin=vmin, vmax=vmax)] first
    converts a string extreme with [float()], then [ScalarMappable] checks
    [cmap]; one colorbar beside the main axes, with at most 6 ticks when
    [if colorbar_tick_visible:] holds, none otherwise (the request may
    send [None] for the flag, which is falsy). *)
Definition sanitize_extremum (v : option Scalar) : res (option Q) :=
  match v with
  | None => Ok None
  | Some (SNum q) => Ok (Some q)
  | Some (SStr str) =>
      match float_of_str str with
      | Some q => Ok (Some q)
      | None => Raise (ValueError ("could not convert string to float: " +:+ py_repr_str str))
      end
  end.

Definition _colorbar (fig : Figure) (vmin vmax : option Scalar) (cmap colorbar_format : option string)
    (colorbar_tick_visible : option bool) : res Figure :=
  let! lo := sanitize_extremum vmin in
  let! hi := sanitize_extremum vmax in
  let! _ := check_cmap cmap in
  Ok (draw_main fig (Colorbar lo hi cmap colorbar_format
                       (match colorbar_tick_visible with Some true => MaxNLocator 6 | _ => NullLocator end))).

End Scale.

(** ** Lemmas *)

Lemma list_min_None (l : list Q) : list_min l = None <-> l = [].
Proof. destruct l; simpl; [done|]. destruct (list_min l); done. Qed.

Lemma list_max_None (l : list Q) : list_max l = None <-> l = [].
Proof. destruct l; simpl; [done|]. destruct (list_max l); done. Qed.

Lemma qmin_spec x y : (qmin x y = x \/ qmin x y = y) /\ (qmin x y <= x)%Q /\ (qmin x y <= y)%Q.
Proof. unfold qmin. destruct (Qle_bool x y) eqn:E; qbool; split_and!; auto; lra. Qed.

Lemma qmax_spec x y : (qmax x y = x \/ qmax x y = y) /\ (x <= qmax x y)%Q /\ (y <= qmax x y)%Q.
Proof. unfold qmax. destruct (Qle_bool y x) eqn:E; qbool; split_and!; auto; lra. Qed.

(** [list_min] and [list_max] return an element of the list that bounds
    every element. *)
Lemma list_min_spec (l : list Q) (m : Q) :
  list_min l = Some m -> m ∈ l /\ forall x, x ∈ l -> (m <= x)%Q.
Proof.
  revert m. induction l as [|y l IH]; simpl; intros m; [done|].
  destruct (list_min l) as [m'|] eqn:E; intros [= <-].
  - destruct (IH m' eq_refl) as [Hin Hle]. destruct (qmin_spec y m') as (Hc & H1 & H2).
    split; [destruct Hc as [-> | ->]; set_solver|].
    intros x Hx. apply elem_of_cons in Hx as [->|Hx]; [done|]. specialize (Hle x Hx). lra.
  - apply list_min_None in E. subst. split; [set_solver|].
    intros x Hx. apply list_elem_of_singleton in Hx as ->. lra.
Qed.

Lemma list_max_spec (l : list Q) (m : Q) :
  list_max l = Some m -> m ∈ l /\ forall x, x ∈ l -> (x <= m)%Q.
Proof.
  revert m. induction l as [|y l IH]; simpl; intros m; [done|].
  destruct (list_max l) as [m'|] eqn:E; intros [= <-].
  - destruct (IH m' eq_refl) as [Hin Hle]. destruct (qmax_spec y m') as (Hc & H1 & H2).
    split; [destruct Hc as [-> | ->]; set_solver|].
    intros x Hx. apply elem_of_cons in Hx as [->|Hx]; [done|]. specialize (Hle x Hx). lra.
  - apply list_max_None in E. subst. split; [set_solver|].
    intros x Hx. apply list_elem_of_singleton in Hx as ->. lra.
Qed.


Lemma numbers_elem (cs : list Cell) (v : Q) : v ∈ numbers cs <-> CNum v ∈ cs.
Proof.
  unfold numbers. rewrite list_elem_of_omap. split.
  - intros ([s|q|] & Hc & Hv); try done. by injection Hv as ->.
  - intros Hc. by exists (CNum v).
Qed.

Lemma numeric_rows_values (column : string) (m : list (Feature * Record_)) (v : Q) :
  v ∈ (numeric_rows column m).*2 <-> exists fr, fr ∈ m /\ row_value column fr = CNum v.
Proof.
  unfold numeric_rows. rewrite list_elem_of_fmap. split.
  - intros ([f v'] & -> & Hin). apply list_elem_of_omap in Hin as (fr & Hfr & Hv).
    destruct (row_value column fr) eqn:E; try done. injection Hv as <- <-. eauto.
  - intros (fr & Hfr & Hv). exists (fr.1, v). split; [done|].
    apply list_elem_of_omap. exists fr. by rewrite Hv.
Qed.

(** A list holding a number has a least and a greatest one, and they bound
    it. *)
Lemma list_extremes (l : list Q) :
  l <> [] -> exists mn mx, list_min l = Some mn /\ list_max l = Some mx /\
    mn ∈ l /\ mx ∈ l /\ forall v, v ∈ l -> (mn <= v <= mx)%Q.
Proof.
  intros Hne. destruct (list_min l) as [mn|] eqn:Emn; [|by apply list_min_None in Emn].
  destruct (list_max l) as [mx|] eqn:Emx; [|by apply list_max_None in Emx].
  apply list_min_spec in Emn as Hmn. apply list_max_spec in Emx as Hmx.
  exists mn, mx. split_and!; try tauto. intros v Hv.
  destruct Hmn as [_ H1], Hmx as [_ H2]. split; auto.
Qed.

(** [plt.Normalize(vmin, vmax)] maps the range into [[0, 1]]. *)
Lemma normalize_unit (vmin vmax v : Q) :
  (vmin <= v)%Q -> (v <= vmax)%Q -> (0 <= normalize vmin vmax v <= 1)%Q.
Proof.
  intros H1 H2. unfold normalize. destruct (Qeq_bool vmin vmax) eqn:E; [lra|].
  assert (Hlt : (0 < vmax - vmin)%Q).
  { destruct (Qlt_le_dec vmin vmax); [lra|]. exfalso.
    assert (vmin == vmax)%Q as Heq by lra. apply Qeq_bool_iff in Heq. congruence. }
  split.
  - apply Qle_shift_div_l; [done|]. lra.
  - apply Qle_shift_div_r; [done|]. lra.
Qed.

Section Scale.
Context `{MP : Mpl}.

(** A numeric column whose panel holds a number, with a registered
    colormap, is filled. *)
Lemma plot_column_ok (df : DataFrame) m column cmap :
  has_column df column = true -> col_numeric df column = true ->
  (exists fr v, fr ∈ m /\ row_value column fr = CNum v) -> check_cmap cmap = Ok tt ->
  exists mn mx, plot_column df m column cmap = Ok (Patches (fill_rows cmap mn mx (numeric_rows column m))) /\
    list_min (numeric_rows column m).*2 = Some mn /\ list_max (numeric_rows column m).*2 = Some mx.
Proof.
  intros Hc Hn (fr & v & Hfr & Hv) Hcm.
  destruct (list_extremes (numeric_rows column m).*2) as (mn & mx & Emn & Emx & _).
  { intros E. assert (Hin : v ∈ (numeric_rows column m).*2) by (apply numeric_rows_values; eauto).
    rewrite E in Hin. by apply elem_of_nil in Hin. }
  exists mn, mx. unfold plot_column, df_col. rewrite Hc, Hn. simpl. rewrite Emn, Emx, Hcm. done.
Qed.

(** On a numeric column of the request, [series_min] and [series_max] are
    the least and the greatest number of the whole column. *)
Lemma series_numeric (df : DataFrame) (c : string) :
  has_column df c = true -> col_numeric df c = true ->
  exists mn mx, series_min df c = Ok (Some (SNum mn)) /\ series_max df c = Ok (Some (SNum mx)) /\
    (exists r, r ∈ df /\ cell_get r c = CNum mn) /\ (exists r, r ∈ df /\ cell_get r c = CNum mx) /\
    forall r v, r ∈ df -> cell_get r c = CNum v -> (mn <= v <= mx)%Q.
Proof.
  intros Hc Hn. pose proof Hn as Hn'. unfold col_numeric in Hn'.
  apply andb_true_iff in Hn' as [Hex _]. apply existsb_exists in Hex as (r0 & Hr0 & Hv0).
  destruct (cell_get r0 c) as [|v0|] eqn:E0; try done.
  set (cs := map (fun r => cell_get r c) df).
  assert (Hcs : forall v, v ∈ numbers cs <-> exists r, r ∈ df /\ cell_get r c = CNum v).
  { intros v. rewrite numbers_elem. unfold cs. rewrite list_elem_of_In, in_map_iff. split.
    - intros (r & Hv & Hr). exists r. by rewrite list_elem_of_In.
    - intros (r & Hr & Hv). exists r. by rewrite <- list_elem_of_In. }
  destruct (list_extremes (numbers cs)) as (mn & mx & Emn & Emx & Hmn & Hmx & Hb).
  { intros E. assert (Hin : v0 ∈ numbers cs) by (apply Hcs; exists r0; split; [by apply list_elem_of_In|done]).
    rewrite E in Hin. by apply elem_of_nil in Hin. }
  exists mn, mx. unfold series_min, series_max, series_extreme, df_col.
  rewrite Hc, Hn. simpl. fold cs. rewrite Emn, Emx. split_and!; try done.
  - by apply Hcs.
  - by apply Hcs.
  - intros r v Hr Hv. apply Hb, Hcs. eauto.
Qed.

(** A numeric range and a registered colormap give the colorbar. *)
Lemma colorbar_ok (fig : Figure) (mn mx : Q) cmap fmt tick :
  check_cmap cmap = Ok tt ->
  _colorbar fig (Some (SNum mn)) (Some (SNum mx)) cmap fmt tick =
    Ok (draw_main fig (Colorbar (Some mn) (Some mx) cmap fmt
                         (match tick with Some true => MaxNLocator 6 | _ => NullLocator end))).
Proof. intros Hc. unfold _colorbar. simpl. by rewrite Hc. Qed.

(** ** Theorems *)

(** C12: on a numeric value column, [gdf.plot(column=..., cmap=...)]
    fills each merged row that has a number, in the frame's order, with
    [cmap] at that row's own value normalised over the least and the
    greatest number drawn in this panel (not over the request's whole
    column); every fill is [cmap] at a point of [[0, 1]]. *)
Theorem plot_column_panel_scale (df : DataFrame) m column cmap a :
  col_numeric df column = true ->
  plot_column df m column cmap = Ok a ->
  exists mn mx, a = Patches (fill_rows cmap mn mx (numeric_rows column m)) /\
    (exists fr, fr ∈ m /\ row_value column fr = CNum mn) /\
    (exists fr, fr ∈ m /\ row_value column fr = CNum mx) /\
    (forall fr v, fr ∈ m -> row_value column fr = CNum v ->
       (mn <= v <= mx)%Q /\ (0 <= normalize mn mx v <= 1)%Q).
Proof.
  intros Hn. unfold plot_column. destruct (df_col df column); simpl; [|done]. rewrite Hn.
  destruct (list_min (numeric_rows column m).*2) as [mn|] eqn:Emn,
    (list_max (numeric_rows column m).*2) as [mx|] eqn:Emx; try done.
  destruct (check_cmap cmap); simpl; [|done]. intros [= <-].
  apply list_min_spec in Emn as [Hmn Hmn']. apply list_max_spec in Emx as [Hmx Hmx'].
  exists mn, mx. split_and!; [done|by apply numeric_rows_values|by apply numeric_rows_values|].
  intros fr v Hfr Hv. assert (Hin : v ∈ (numeric_rows column m).*2) by (apply numeric_rows_values; eauto).
  assert (Hb : (mn <= v <= mx)%Q) by (split; auto). split; [done|]. apply normalize_unit; apply Hb.
Qed.

End Scale.

(** Penghu's inset of a choropleth: one joined row. *)
Definition penghu_row : Record_ := [("county", CStr "澎湖縣"); ("value", CNum 15)].

Lemma plot_column_panel_scale_witness :
  col_numeric [penghu_row] "value" = true /\
  exists mn mx, Patches [(Sample.penghu, CmapColor (Some "GnBu") 0)] =
    Patches (fill_rows (Some "GnBu") mn mx (numeric_rows "value" [(Sample.penghu, penghu_row)])).
Proof.
  split; [reflexivity|].
  destruct (@plot_column_panel_scale SampleMpl.sample_mpl [penghu_row] [(Sample.penghu, penghu_row)]
              "value" (Some "GnBu") (Patches [(Sample.penghu, CmapColor (Some "GnBu") 0)]))
    as (mn & mx & H & _); [reflexivity|reflexivity|eauto].
Defined.

End ColorScale.
