(* ===== verification/Graph.v ===== *)
(** * Graph: the renderers of [src/src/graph.py]

    The parameter objects ([ChoroplethParams], [Hist2DParams], [DotParams],
    [BubbleParams] with its [__post_init__]) and the methods of [Graph]:
    [plot_boundary], [plot_boundary_with_subsidy], [plot_choropleth],
    [plot_hist2d], [plot_dot], [plot_bubble], the memory helpers
    [cleanup_memory], [_ensure_figure_closed], [_managed_plot] and
    [manage_memory], and the constructor's font registration.  Every
    renderer runs in the pyplot monad [Plt] over a geometry source given as
    an instance of [GeometrySource]; the per-region loops are
    [for i, a in area_list] drawing on [ax.child_axes[i]]. *)

From Stdlib Require Import QArith String ZArith.
From stdpp Require Import base list sets gmap strings.
From S2P Require Import Prelude Config GeoData Pyplot Layout ColorScale.

Open Scope string_scope.
Open Scope py_scope.

(** ** Parameter objects *)

Module Params.

(** The dataclasses hold whatever the caller passes: the service passes
    its request fields, which may be [None] where the request model is
    [Optional]; such a field is an [option] here, [Some v] for a value. *)
Record ChoroplethParams := mkChoroplethParams {
  data : DataFrame;
  column : string;
  level : option string;
  cmap : option string;
  colorbar_format : option string;
  colorbar_tick_visible : option bool;
}.

(** The dataclass defaults: [level="county"], [cmap="GnBu"],
    [colorbar_format="{x:,.0f}"], [colorbar_tick_visible=True]. *)
Definition ChoroplethParams_defaults (d : DataFrame) (c : string) : ChoroplethParams :=
  mkChoroplethParams d c (Some "county") (Some "GnBu") (Some "{x:,.0f}") (Some true).

Record Hist2DParams := mkHist2DParams {
  h_x : list Q;
  h_y : list Q;
  bins : option Z;
  h_cmap : option string;
  h_alpha : option Q;
  cmin : option Z;
}.

Record DotParams := mkDotParams {
  d_x : list Q;
  d_y : list Q;
  d_size : option Q;
  d_color : option string;
  d_alpha : option Q;
}.

Record BubbleParams := mkBubbleParams {
  b_x : list Q;
  b_y : list Q;
  b_size : list Q;
  b_color : list string;
  b_alpha : option Q;
  b_cmin : Z;
}.

(** [BubbleParams(x, y, size, color, alpha, cmin)] with [__post_init__]:
    an omitted [size] becomes [[1] * len(x)], an omitted [color]
    [["red"] * len(x)]. *)
Definition BubbleParams_new (x y : list Q) (size : option (list Q))
    (color : option (list string)) (alpha : option Q) (c : Z) : BubbleParams :=
  mkBubbleParams x y
    (match size with None => replicate (length x) 1%Q | Some s => s end)
    (match color with None => replicate (length x) "red" | Some cs => cs end)
    alpha c.

End Params.

Module Graph.
Import FigConfig GeoPlot ColorScale Params.

(** The [bbox] tuple of a region: [(min_x, min_y, max_x, max_y)]. *)
Definition bbox_of (a : Area) : BBox :=
  mkBBox (min_x (bounds a)) (min_y (bounds a)) (max_x (bounds a)) (max_y (bounds a)).

(** The classification table of [plot_boundary_with_subsidy]. *)
Definition subsidy_colormap : list (string * string) := [
  ("山地原民區", "#477160");
  ("平地原民區", "#A8D8B9");
  ("偏遠地區", "#FFC145");
  ("離島地區", "#90C2E7")
].

(** The legend of [plot_boundary_with_subsidy]: its handles' colors. *)
Definition subsidy_legend_handles : list (string * string) := [
  ("山地原民區", "#477160");
  ("平地原民區", "#7FB685");
  ("偏遠地區", "#FFC145");
  ("離島地區", "#90C2E7")
].

Definition subsidy_labels : list string := ["山地原民區"; "平地原民區"; "偏遠地區"; "離島地區"].

(** [colormap.get(x, "#ffffff00")]; [x] is [None] for a town missing from
    the table. *)
Definition subsidy_color (t : option string) : string :=
  match t with
  | Some x => default "#ffffff00" (assoc x subsidy_colormap)
  | None => "#ffffff00"
  end.

(** [town_type.get(row["COUNTYNAME"] + row["TOWNNAME"])]. *)
Definition town_type_of (town_type : gmap string string) (f : Feature) : res (option string) :=
  match TOWNNAME f with
  | Some t => Ok (town_type !! (COUNTYNAME f +:+ t))
  | None => Raise (KeyError "TOWNNAME")
  end.

(** The join keys of [plot_choropleth] by level. *)
Definition left_on (lvl : option string) : list string :=
  if decide (lvl = Some "town") then ["COUNTYNAME"; "TOWNNAME"] else ["COUNTYNAME"].

Definition right_on (lvl : option string) : list string :=
  if decide (lvl = Some "town") then ["county"; "town"] else ["county"].

Section Renderers.
Context `{GS : GeometrySource} `{MP : Mpl}.
(** [res/json/town_type_by_town.json], or [None] when it cannot be opened. *)
Context (town_type_json : option (gmap string string)).

(** One pass of [plot_boundary]'s loop. *)
Definition boundary_step (fig : Figure) (ia : nat * string) : res Figure :=
  let! area := area_info ia.2 in
  let! gdf := get_county_gpd (bbox_of area) in
  draw_child fig ia.1 (Lines gdf "black" 0.8).

(** [Graph.plot_boundary()]. *)
Definition plot_boundary : Plt Figure :=
  fig <- base ;;
  lift (res_fold area_list fig boundary_step).

(** One pass of [plot_boundary_with_subsidy]'s loop. *)
Definition subsidy_step (town_type : gmap string string) (fig : Figure) (ia : nat * string)
    : res Figure :=
  let! area := area_info ia.2 in
  let bbox := bbox_of area in
  let! county_gdf := get_county_gpd bbox in
  let! town_gdf := get_town_gpd bbox in
  let! types := res_mapM (town_type_of town_type) town_gdf in
  let colors := map subsidy_color types in
  let! fig := draw_child fig ia.1 (Lines county_gdf "black" 0.8) in
  let! fig := draw_child fig ia.1 (Lines town_gdf "gray" 0.5) in
  draw_child fig ia.1 (Patches (zip town_gdf (Named <$> colors))).

Definition load_town_type : res (gmap string string) :=
  match town_type_json with
  | Some m => Ok m
  | None => Raise (FileNotFoundError "res/json/town_type_by_town.json")
  end.

(** [Graph.plot_boundary_with_subsidy()]: the table is read before the
    figure is made. *)
Definition plot_boundary_with_subsidy : Plt Figure :=
  town_type <- lift load_town_type ;;
  fig <- base ;;
  fig <- lift (res_fold area_list fig (subsidy_step town_type)) ;;
  ret (draw_main fig (Legend subsidy_legend_handles subsidy_labels "lower right")).

(** [gdf = get_town_gpd(bbox) if params.level == "town" else get_county_gpd(bbox)]. *)
Definition level_gpd (lvl : option string) (bbox : BBox) : res GeoDataFrame :=
  if decide (lvl = Some "town") then get_town_gpd bbox else get_county_gpd bbox.

(** One pass of [plot_choropleth]'s loop: join, then either the
    boundary-only fallback ([gdf.empty]) or the fill and the boundary. *)
Definition choropleth_step (p : ChoroplethParams) (fig : Figure) (ia : nat * string)
    : res Figure :=
  let! area := area_info ia.2 in
  let bbox := bbox_of area in
  let! gdf := level_gpd (level p) bbox in
  let! gdf := merge_gdf_and_df gdf (data p) (left_on (level p)) (right_on (level p)) in
  if gdf_empty gdf then
    let! county_edge := get_county_gpd bbox in
    draw_child fig ia.1 (Lines county_edge "black" 0.8)
  else
    let! art := plot_column (data p) gdf (column p) (cmap p) in
    let! fig := draw_child fig ia.1 art in
    let! county_edge := get_county_gpd bbox in
    draw_child fig ia.1 (Lines county_edge "black" 0.8).

(** [Graph.plot_choropleth(params)]: the panels, then one colorbar over
    [params.data[params.column].min()] and [.max()]. *)
Definition plot_choropleth (p : ChoroplethParams) : Plt Figure :=
  fig <- base ;;
  fig <- lift (res_fold area_list fig (choropleth_step p)) ;;
  vmin <- lift (series_min (data p) (column p)) ;;
  vmax <- lift (series_max (data p) (column p)) ;;
  lift (_colorbar fig vmin vmax (cmap p) (colorbar_format p) (colorbar_tick_visible p)).

(** One pass of [plot_hist2d]'s loop: the histogram's range is the
    region's box. *)
Definition hist2d_step (p : Hist2DParams) (fig : Figure) (ia : nat * string) : res Figure :=
  let! area := area_info ia.2 in
  let b := bounds area in
  let! art := hist2d (h_x p) (h_y p) (bins p) ((min_x b, max_x b), (min_y b, max_y b))
                (h_cmap p) (h_alpha p) (cmin p) in
  draw_child fig ia.1 art.

(** [Graph.plot_hist2d(params)]: over the boundary map. *)
Definition plot_hist2d (p : Hist2DParams) : Plt Figure :=
  fig <- plot_boundary ;;
  lift (res_fold area_list fig (hist2d_step p)).

(** [s=params.size] and [c=params.color]: a number or [None], a color or
    [None]. *)
Definition size_arg (s : option Q) : SizeArg :=
  match s with Some q => SScalar q | None => SDefault end.

Definition color_arg (c : option string) : ColorArg :=
  match c with Some c0 => CSingle c0 | None => CDefault end.

Definition dot_step (p : DotParams) (fig : Figure) (ia : nat * string) : res Figure :=
  let! art := scatter (d_x p) (d_y p) (size_arg (d_size p)) (color_arg (d_color p)) (d_alpha p)
                None None in
  draw_child fig ia.1 art.

(** [Graph.plot_dot(params)]. *)
Definition plot_dot (p : DotParams) : Plt Figure :=
  fig <- plot_boundary ;;
  lift (res_fold area_list fig (dot_step p)).

Definition bubble_step (p : BubbleParams) (fig : Figure) (ia : nat * string) : res Figure :=
  let! art := scatter (b_x p) (b_y p) (SList (b_size p)) (CList (b_color p)) (b_alpha p)
                (Some "black") (Some 0.5%Q) in
  draw_child fig ia.1 art.

(** [Graph.plot_bubble(params)]. *)
Definition plot_bubble (p : BubbleParams) : Plt Figure :=
  fig <- plot_boundary ;;
  lift (res_fold area_list fig (bubble_step p)).

End Renderers.

(** ** Memory helpers *)

(** [Graph.cleanup_memory()]: close every figure, restore the default
    [rcParams]; [gc.collect()] has no effect the model observes. *)
Definition cleanup_memory : Plt unit :=
  close_all ;; rcdefaults.

(** [Graph._ensure_figure_closed(fig)]. *)
Definition _ensure_figure_closed (fig : option Figure) : Plt unit :=
  match fig with Some f => close f | None => ret tt end.

(** [with self._managed_plot(): body] and [with self.manage_memory(): body]. *)
Definition _managed_plot {A} (body : Plt A) : Plt A := try_finally body close_all.
Definition manage_memory {A} (body : Plt A) : Plt A := try_finally body close_all.

(** [Font.register(font)] and [Font.register_all()] of [src/config.py]. *)
Definition font_register (font : string) : Plt unit := addfont font.

Definition font_register_all : Plt unit :=
  addfont Font.CharisSIL ;; addfont Font.CharisSIL_Bold ;; addfont Font.NotoSerifTC ;;
  addfont Font.NotoSerifTC_Bold ;; addfont Font.TimesNewRoman ;;
  addfont Font.TimesNewRoman_Bold ;; addfont Font.Urbanist.

(** [Graph.__init__]: register the Urbanist and Noto Serif TC fonts. *)
Definition graph_init : Plt unit :=
  font_register Font.Urbanist ;; font_register Font.NotoSerifTC.

(** The import of [src/graph.py]: [plt.rcParams["figure.max_open_warning"] = 0]. *)
Definition graph_module_init : Plt unit :=
  modify (fun s => mkPlt (open_figs s) (mkRc 0) (ttflist s)).

End Graph.

(** ** The figure discipline of a plot function

    What the request handler of [app.py] relies on: a plot function
    either raises before opening any figure, or opens exactly one new
    figure (and closes none) and, when it returns, returns that figure. *)

Definition opens_one (f : Plt Figure) : Prop :=
  forall s, snd (f s) = Panels.opened s /\
    forall fig, fst (f s) = Ok fig -> fig_num fig = next_fignum (open_figs s).

Definition figure_discipline (f : Plt Figure) : Prop :=
  forall s, (snd (f s) = s /\ is_ok (fst (f s)) = false) \/
    (snd (f s) = Panels.opened s /\
     forall fig, fst (f s) = Ok fig -> fig_num fig = next_fignum (open_figs s)).

Lemma opens_one_discipline f : opens_one f -> figure_discipline f.
Proof. intros H s. right. apply H. Qed.

Lemma opens_one_base : opens_one GeoPlot.base.
Proof. intros s. rewrite Panels.base_run. split; [done|]. by intros fig [= <-]. Qed.

(** Drawing after a figure-opening call keeps the discipline. *)
Lemma opens_one_then (f : Plt Figure) (R : Figure -> res Figure) :
  opens_one f -> keeps_num R -> opens_one (fig <- f ;; lift (R fig)).
Proof.
  intros Hf HR s. destruct (Hf s) as [Hs Hn]. unfold bind, lift.
  destruct (f s) as [[fig|e] s1]; simpl in *; subst; (split; [done|]); [|done].
  intros fig' Hfig'. rewrite (HR fig fig' Hfig'). by apply Hn.
Qed.

Lemma opens_one_ret (f : Plt Figure) (g : Figure -> Figure) :
  opens_one f -> (forall fig, fig_num (g fig) = fig_num fig) ->
  opens_one (fig <- f ;; ret (g fig)).
Proof.
  intros Hf Hg s. destruct (Hf s) as [Hs Hn]. unfold bind, ret.
  destruct (f s) as [[fig|e] s1]; simpl in *; subst; (split; [done|]); [|done].
  intros fig' [= <-]. rewrite Hg. by apply Hn.
Qed.

(** ** The panel loop of every renderer *)

Module RenderLoop.
Import GeoPlot Panels Graph.

Lemma area_list_imap : area_list = imap (fun j k => (0 + j, k)) FigConfig.AREA_RANGE.*1.
Proof. reflexivity. Qed.

Lemma add_artists_panel_of ax e l : panel_of ax e -> panel_of (add_artists ax l) e.
Proof. done. Qed.

(** A loop over [area_list] whose pass [i] draws the artists [A a] of
    region [a] on panel [i] leaves panel [i] as region [i]'s panel with
    exactly those artists. *)
Lemma render_panels (step : Figure -> nat * string -> res Figure) (A : string -> list Artist)
    (fig0 : Figure) :
  child_axes fig0 = base_children ->
  (forall fig j k, FigConfig.AREA_RANGE.*1 !! j = Some k -> j < length (child_axes fig) ->
     step fig (j, k) = draw_all fig j (A k)) ->
  exists fig, res_fold area_list fig0 step = Ok fig /\
    fig_num fig = fig_num fig0 /\ main_ax fig = main_ax fig0 /\
    Forall2 (fun ax e => panel_of ax e /\ artists ax = A e.1) (child_axes fig) FigConfig.AREA_RANGE.
Proof.
  intros H0 Hstep. rewrite area_list_imap.
  destruct (panel_loop_ok step (fun _ k => A k) FigConfig.AREA_RANGE.*1 0 fig0)
    as (fig & Hf & Hn & Hm & Hl & Hc).
  { intros fig j k Hj Hlt. by apply Hstep. }
  { rewrite H0. vm_compute. lia. }
  exists fig. split_and!; try done.
  pose proof base_children_registry as Hreg.
  apply Forall2_same_length_lookup in Hreg as [Hlen Hreg].
  apply Forall2_same_length_lookup. split; [by rewrite Hl, H0|].
  intros i ax e Hax He.
  destruct (lookup_lt_is_Some_2 base_children i) as [ax0 Hax0].
  { rewrite Hlen. by apply (lookup_lt_Some _ _ e). }
  rewrite <- H0 in Hax0. pose proof (Hc i ax0 Hax0) as Hi. rewrite Hax in Hi.
  injection Hi as ->. rewrite H0 in Hax0.
  destruct (Hreg i ax0 e Hax0 He) as [Hp Ha].
  unfold panel_after. rewrite decide_True, Nat.sub_0_r by lia.
  match goal with
  | |- context [?l !! i] =>
      replace (l !! i) with (Some e.1)
        by (change l with (FigConfig.AREA_RANGE.*1); by rewrite list_lookup_fmap, He)
  end.
  split; [by apply add_artists_panel_of|]. simpl. by rewrite Ha.
Qed.

End RenderLoop.

(** ** Theorems on the renderers *)

Module GraphTheorems.
Import GeoPlot Panels Graph RenderLoop.

Section Source.
Context `{GS : GeometrySource} `{MP : Mpl}.

(** The artists [plot_boundary] draws for region [k]. *)
Definition boundary_arts (k : string) : list Artist :=
  match FigConfig.area_info k with
  | Ok a => match get_county_gpd (bbox_of a) with
            | Ok g => [Lines g "black" 0.8]
            | Raise _ => []
            end
  | Raise _ => []
  end.

Lemma boundary_step_draw (fig : Figure) j k :
  (forall b, exists g, get_county_gpd b = Ok g) ->
  FigConfig.AREA_RANGE.*1 !! j = Some k ->
  boundary_step fig (j, k) = draw_all fig j (boundary_arts k).
Proof.
  intros Hread Hk. destruct (FigConfig.area_info_key j k Hk) as (a & _ & Ha).
  unfold boundary_step, boundary_arts. simpl. rewrite Ha. simpl.
  destruct (Hread (bbox_of a)) as [g ->]. simpl. by rewrite draw_all_one.
Qed.

(** The boundary map [plot_boundary] returns. *)
Lemma plot_boundary_run (s : PltState) :
  (forall b, exists g, get_county_gpd b = Ok g) ->
  exists fig, plot_boundary s = (Ok fig, opened s) /\
    fig_num fig = fig_num (base_fig s) /\ main_ax fig = main_ax (base_fig s) /\
    Forall2 (fun ax e => panel_of ax e /\ artists ax = boundary_arts e.1)
      (child_axes fig) FigConfig.AREA_RANGE.
Proof.
  intros Hread. unfold plot_boundary, bind. rewrite base_run.
  destruct (render_panels boundary_step boundary_arts (base_fig s))
    as (fig & Hf & Hn & Hm & Hp); [done| |].
  { intros fig j k Hk _. by apply boundary_step_draw. }
  exists fig. unfold lift. rewrite Hf. done.
Qed.

(** An overlay loop over [area_list] on a figure with one panel per
    region succeeds when each pass draws a list of artists on its panel. *)
Lemma overlay_loop_ok (step : Figure -> nat * string -> res Figure) (A : string -> list Artist)
    (fig0 : Figure) :
  length (child_axes fig0) = length FigConfig.AREA_RANGE ->
  (forall fig j k, FigConfig.AREA_RANGE.*1 !! j = Some k -> step fig (j, k) = draw_all fig j (A k)) ->
  exists fig, res_fold area_list fig0 step = Ok fig /\ fig_num fig = fig_num fig0.
Proof.
  intros Hl Hstep. rewrite area_list_imap.
  destruct (panel_loop_ok step (fun _ k => A k) FigConfig.AREA_RANGE.*1 0 fig0)
    as (fig & Hf & Hn & _); [intros fig j k Hk _; by apply Hstep|rewrite length_fmap; lia|].
  eauto.
Qed.

(** A renderer that overlays artists on the boundary map succeeds on a
    readable county shapefile, opening one figure. *)
Lemma plot_overlay_run (step : Figure -> nat * string -> res Figure) (A : string -> list Artist)
    (s : PltState) :
  (forall b, exists g, get_county_gpd b = Ok g) ->
  (forall fig j k, FigConfig.AREA_RANGE.*1 !! j = Some k -> step fig (j, k) = draw_all fig j (A k)) ->
  exists fig, (fig0 <- plot_boundary ;; lift (res_fold area_list fig0 step)) s = (Ok fig, opened s).
Proof.
  intros Hread Hstep. destruct (plot_boundary_run s Hread) as (fig0 & Hrun & _ & _ & Hp).
  destruct (overlay_loop_ok step A fig0) as (fig & Hf & _); [by apply Forall2_length in Hp|done|].
  exists fig. unfold bind, lift. by rewrite Hrun, Hf.
Qed.

(** [plot_hist2d] succeeds on coordinates of one length and a positive
    bin count. *)
Lemma plot_hist2d_run (p : Params.Hist2DParams) (s : PltState) (b : Z) :
  length (Params.h_x p) = length (Params.h_y p) -> Params.bins p = Some b -> (0 < b)%Z ->
  check_cmap (Params.h_cmap p) = Ok tt -> check_alpha (Params.h_alpha p) = Ok tt ->
  (forall b, exists g, get_county_gpd b = Ok g) ->
  exists fig, plot_hist2d p s = (Ok fig, opened s).
Proof.
  intros Hl Hbs Hb Hcm Hal Hread. apply (plot_overlay_run _ (fun k =>
    match FigConfig.area_info k with
    | Ok a => [QuadMesh (Params.h_x p) (Params.h_y p) b
                 ((FigConfig.min_x (FigConfig.bounds a), FigConfig.max_x (FigConfig.bounds a)),
                  (FigConfig.min_y (FigConfig.bounds a), FigConfig.max_y (FigConfig.bounds a)))
                 (Params.h_cmap p) (Params.h_alpha p) (Params.cmin p)]
    | Raise _ => []
    end)); [done|].
  intros fig j k Hk. destruct (FigConfig.area_info_key j k Hk) as (a & _ & Ha).
  unfold hist2d_step. cbn [fst snd]. rewrite Ha. cbn [res_bind].
  unfold hist2d. rewrite Hl, Nat.eqb_refl, Hbs. cbn [negb].
  destruct (Z.leb_spec b 0); [lia|]. cbn [res_bind]. rewrite Hcm. cbn [res_bind].
  rewrite Hal. cbn [res_bind]. by rewrite draw_all_one.
Qed.

(** The overlay renderers whose artist is one [scatter] succeed when the
    [scatter] call accepts its arguments. *)
Lemma plot_dot_run (p : Params.DotParams) (s : PltState) art :
  scatter (Params.d_x p) (Params.d_y p) (size_arg (Params.d_size p)) (color_arg (Params.d_color p))
    (Params.d_alpha p) None None = Ok art ->
  (forall b, exists g, get_county_gpd b = Ok g) ->
  exists fig, plot_dot p s = (Ok fig, opened s).
Proof.
  intros Hs Hread. apply (plot_overlay_run _ (fun _ => [art])); [done|].
  intros fig j k _. unfold dot_step. rewrite Hs. cbn [res_bind]. by rewrite draw_all_one.
Qed.

(** [scatter] as [plot_dot] calls it accepts coordinates of one length,
    whatever the size, with a color and an alpha it accepts, [None]
    included. *)
Lemma scatter_dot_ok xs ys s c alpha :
  length ys = length xs -> color_ok c = true -> check_alpha alpha = Ok tt ->
  exists art, scatter xs ys (size_arg s) (color_arg c) alpha None None = Ok art.
Proof.
  intros Hy Hc Hal. unfold scatter, scatter_colors. rewrite Hy, Nat.eqb_refl. cbn [negb].
  destruct c as [c0|]; simpl in Hc; destruct s; cbn [size_arg color_arg res_bind];
    try rewrite Hc; cbn [res_bind]; rewrite Hal; cbn [res_bind]; eauto.
Qed.

(** [scatter] as [plot_bubble] calls it accepts sizes and colors of a
    length it allows, colors that name colors and an alpha in [[0, 1]]. *)
Lemma scatter_bubble_ok xs ys l cs alpha edge lw :
  length ys = length xs ->
  (length l = 1 \/ length l = length xs)%nat ->
  (length cs <= 1 \/ length cs = length xs)%nat ->
  forallb is_color_like cs = true -> check_alpha alpha = Ok tt ->
  exists art, scatter xs ys (SList l) (CList cs) alpha edge lw = Ok art.
Proof.
  intros Hy Hl Hc Hcl Hal. unfold scatter, scatter_colors. rewrite Hy, Nat.eqb_refl. cbn [negb].
  assert (El : ((length l =? 1) || (length l =? length xs))%nat = true)
    by (apply orb_true_iff; rewrite !Nat.eqb_eq; lia).
  assert (Ec : ((length cs =? 0) || (length cs =? 1) || (length cs =? length xs))%nat = true)
    by (rewrite !orb_true_iff, !Nat.eqb_eq; lia).
  rewrite El. cbn [negb res_bind]. rewrite Hcl. cbn [negb]. rewrite Ec. cbn [negb res_bind].
  rewrite Hal. eauto.
Qed.

Lemma plot_bubble_run (p : Params.BubbleParams) (s : PltState) art :
  scatter (Params.b_x p) (Params.b_y p) (SList (Params.b_size p)) (CList (Params.b_color p))
    (Params.b_alpha p) (Some "black") (Some 0.5%Q) = Ok art ->
  (forall b, exists g, get_county_gpd b = Ok g) ->
  exists fig, plot_bubble p s = (Ok fig, opened s).
Proof.
  intros Hs Hread. apply (plot_overlay_run _ (fun _ => [art])); [done|].
  intros fig j k _. unfold bubble_step. rewrite Hs. cbn [res_bind]. by rewrite draw_all_one.
Qed.

(** C9: when the county shapefile can be read, [plot_boundary] succeeds,
    opens exactly one figure, and draws on panel [i] (the panel of region
    [i]) exactly one artist: the boundaries of the county features the
    source returns for region [i]'s box, in black at width 0.8. *)
Theorem plot_boundary_panels (s : PltState) :
  (forall b, exists g, get_county_gpd b = Ok g) ->
  exists fig, plot_boundary s = (Ok fig, opened s) /\
    Forall2 (fun ax e => panel_of ax e /\
               exists g, get_county_gpd (bbox_of e.2) = Ok g /\
                         artists ax = [Lines g "black" 0.8])
      (child_axes fig) FigConfig.AREA_RANGE.
Proof.
  intros Hread. destruct (plot_boundary_run s Hread) as (fig & Hrun & _ & _ & Hp).
  exists fig. split; [done|]. eapply Forall2_impl_in_r; [exact Hp|].
  intros ax e He [Hpan Har]. split; [done|].
  unfold boundary_arts in Har. rewrite (FigConfig.area_info_in e He) in Har.
  destruct (Hread (bbox_of e.2)) as [g Hg]. rewrite Hg in Har. eauto.
Qed.

(** C15: against the [GeometrySource] interface and its law, every
    boundary [plot_boundary] draws on panel [i] is made of features that
    meet region [i]'s box: a panel shows only its own region's geometry. *)
Theorem plot_boundary_features_in_box `{!GeometrySourceLaws} (s : PltState) :
  (forall b, exists g, get_county_gpd b = Ok g) ->
  exists fig, fst (plot_boundary s) = Ok fig /\
    Forall2 (fun ax e => forall g c w, Lines g c w ∈ artists ax ->
               Forall (fun f => bbox_intersects (envelope f) (bbox_of e.2) = true) g)
      (child_axes fig) FigConfig.AREA_RANGE.
Proof.
  intros Hread. destruct (plot_boundary_run s Hread) as (fig & Hrun & _ & _ & Hp).
  exists fig. rewrite Hrun. split; [done|]. eapply Forall2_impl_in_r; [exact Hp|].
  intros ax e He [_ Har] g c w Hl. rewrite Har in Hl. unfold boundary_arts in Hl.
  rewrite (FigConfig.area_info_in e He) in Hl.
  destruct (get_county_gpd (bbox_of e.2)) as [g0|] eqn:Hg; [|apply elem_of_nil in Hl; contradiction].
  apply list_elem_of_singleton in Hl. injection Hl as -> _ _. by eapply county_in_bbox.
Qed.

Lemma boundary_step_num x : keeps_num (fun f => boundary_step f x).
Proof. unfold boundary_step. keeps_num_step. Qed.

Lemma subsidy_step_num tt x : keeps_num (fun f => subsidy_step tt f x).
Proof. unfold subsidy_step. keeps_num_step. Qed.

Lemma choropleth_step_num p x : keeps_num (fun f => choropleth_step p f x).
Proof. unfold choropleth_step. keeps_num_step. Qed.

Lemma hist2d_step_num p x : keeps_num (fun f => hist2d_step p f x).
Proof. unfold hist2d_step. keeps_num_step. Qed.

Lemma dot_step_num p x : keeps_num (fun f => dot_step p f x).
Proof. unfold dot_step. keeps_num_step. Qed.

Lemma bubble_step_num p x : keeps_num (fun f => bubble_step p f x).
Proof. unfold bubble_step. keeps_num_step. Qed.

#[local] Hint Resolve boundary_step_num subsidy_step_num choropleth_step_num hist2d_step_num
  dot_step_num bubble_step_num res_fold_num opens_one_base opens_one_then : gis.

Lemma plot_boundary_opens_one : opens_one plot_boundary.
Proof. unfold plot_boundary. auto with gis. Qed.

#[local] Hint Resolve plot_boundary_opens_one : gis.

(** The exit of a plot function that raised after opening its figure. *)
Ltac raised_after_open := simpl; split; [reflexivity | intros ? Hc; discriminate Hc].

Lemma plot_choropleth_opens_one p : opens_one (plot_choropleth p).
Proof.
  intros s. unfold plot_choropleth, bind, lift, ret. rewrite base_run.
  destruct (res_fold area_list (base_fig s) (choropleth_step p)) as [fig|e] eqn:Ef;
    [|raised_after_open].
  destruct (ColorScale.series_min (Params.data p) (Params.column p)); [|raised_after_open].
  destruct (ColorScale.series_max (Params.data p) (Params.column p)); [|raised_after_open].
  simpl. destruct (ColorScale._colorbar _ _ _ _ _ _) as [fig'|] eqn:Ec; [|raised_after_open].
  split; [reflexivity|]. intros fig'' Hf. injection Hf as <-.
  unfold ColorScale._colorbar in Ec.
  destruct (ColorScale.sanitize_extremum _), (ColorScale.sanitize_extremum _), (check_cmap _);
    simpl in Ec; try discriminate Ec. injection Ec as <-. simpl.
  rewrite (res_fold_num _ _ (choropleth_step_num p) _ _ Ef). reflexivity.
Qed.

Lemma plot_boundary_with_subsidy_opens_one table :
  opens_one (plot_boundary_with_subsidy (Some table)).
Proof.
  intros s. unfold plot_boundary_with_subsidy, load_town_type, bind, lift, ret.
  rewrite base_run.
  destruct (res_fold area_list (base_fig s) (subsidy_step table)) as [fig|e] eqn:Ef;
    [|raised_after_open].
  simpl. split; [reflexivity|]. intros fig' Hf. injection Hf as <-. simpl.
  rewrite (res_fold_num _ _ (subsidy_step_num table) _ _ Ef). reflexivity.
Qed.

Lemma plot_boundary_with_subsidy_discipline tt : figure_discipline (plot_boundary_with_subsidy tt).
Proof.
  destruct tt as [table|].
  - apply opens_one_discipline, plot_boundary_with_subsidy_opens_one.
  - intros s. left. split; reflexivity.
Qed.

Lemma plot_hist2d_opens_one p : opens_one (plot_hist2d p).
Proof. unfold plot_hist2d. auto with gis. Qed.

Lemma plot_dot_opens_one p : opens_one (plot_dot p).
Proof. unfold plot_dot. auto with gis. Qed.

Lemma plot_bubble_opens_one p : opens_one (plot_bubble p).
Proof. unfold plot_bubble. auto with gis. Qed.

(** Every renderer keeps the figure discipline [handle_plot_request]
    relies on. *)
Lemma renderers_discipline :
  figure_discipline plot_boundary /\
  (forall tt, figure_discipline (plot_boundary_with_subsidy tt)) /\
  (forall p, figure_discipline (plot_choropleth p)) /\
  (forall p, figure_discipline (plot_hist2d p)) /\
  (forall p, figure_discipline (plot_dot p)) /\
  (forall p, figure_discipline (plot_bubble p)).
Proof.
  split_and!; intros;
    first [apply plot_boundary_with_subsidy_discipline | apply opens_one_discipline];
    auto using plot_boundary_opens_one, plot_choropleth_opens_one, plot_hist2d_opens_one,
      plot_dot_opens_one, plot_bubble_opens_one.
Qed.

(** C7: every renderer of [Graph] but [plot_boundary_with_subsidy]
    opens exactly one new figure, closing none, whatever its inputs, and
    when it returns a figure that figure is the one it opened;
    [plot_boundary_with_subsidy] does the same when its table can be read
    and otherwise raises [FileNotFoundError] before opening any figure.
    A renderer that raises after [base] leaves its figure open. *)
Theorem renderers_open_one_figure :
  opens_one plot_boundary /\
  (forall p, opens_one (plot_choropleth p)) /\
  (forall p, opens_one (plot_hist2d p)) /\
  (forall p, opens_one (plot_dot p)) /\
  (forall p, opens_one (plot_bubble p)) /\
  (forall table, opens_one (plot_boundary_with_subsidy (Some table))) /\
  (forall s, plot_boundary_with_subsidy None s =
               (Raise (FileNotFoundError "res/json/town_type_by_town.json"), s)).
Proof.
  split_and!; intros;
    auto using plot_boundary_opens_one, plot_choropleth_opens_one, plot_hist2d_opens_one,
      plot_dot_opens_one, plot_bubble_opens_one, plot_boundary_with_subsidy_opens_one.
Qed.

(** The first pass of a renderer's loop, on the main island's panel. *)
Lemma area_list_head : area_list = (0, "taiwan") :: tail area_list.
Proof. reflexivity. Qed.

Lemma res_fold_first_raise {B C} (x : B) (l : list B) (acc : C) body e :
  body acc x = Raise e -> res_fold (x :: l) acc body = Raise e.
Proof. simpl. by intros ->. Qed.

(** [plot_dot] on coordinate lists of different lengths. *)
Lemma plot_dot_mismatch_run (p : Params.DotParams) (s : PltState) :
  length (Params.d_x p) <> length (Params.d_y p) ->
  (forall b, exists g, get_county_gpd b = Ok g) ->
  plot_dot p s = (Raise (ValueError "x and y must be the same size"), opened s).
Proof.
  intros Hlen Hread. destruct (plot_boundary_run s Hread) as (fig & Hrun & _).
  unfold plot_dot, bind, lift. rewrite Hrun, area_list_head.
  rewrite (res_fold_first_raise _ _ _ _ (ValueError "x and y must be the same size")); [done|].
  unfold dot_step, scatter. simpl.
  destruct (length (Params.d_y p) =? length (Params.d_x p))%nat eqn:E; [|done].
  apply Nat.eqb_eq in E. lia.
Qed.

(** C21: [plot_dot] does not check [len(x) == len(y)] before drawing: on a
    readable county shapefile it first draws the whole boundary map, then
    its first [scatter] raises [ValueError]; the figure stays open. *)
Theorem plot_dot_mismatch_after_drawing (p : Params.DotParams) (s : PltState) :
  length (Params.d_x p) <> length (Params.d_y p) ->
  (forall b, exists g, get_county_gpd b = Ok g) ->
  (exists fig, fst (plot_boundary s) = Ok fig) /\
  plot_dot p s = (Raise (ValueError "x and y must be the same size"), opened s).
Proof.
  intros Hlen Hread. destruct (plot_boundary_run s Hread) as (fig & Hrun & _).
  split; [rewrite Hrun; eauto|by apply plot_dot_mismatch_run].
Qed.

(** [scatter] with a size list of neither 1 nor [len(x)] entries. *)
Lemma scatter_bad_sizes xs ys l c alpha edge lw :
  length ys = length xs -> length l <> 1%nat -> length l <> length xs ->
  scatter xs ys (SList l) c alpha edge lw =
    Raise (ValueError "s must be a scalar, or float array-like with the same size as x and y").
Proof.
  intros Hy H1 Hn. unfold scatter. rewrite Hy, Nat.eqb_refl. simpl.
  apply Nat.eqb_neq in H1, Hn. by rewrite H1, Hn.
Qed.

Lemma plot_bubble_bad_sizes (p : Params.BubbleParams) (s : PltState) :
  length (Params.b_y p) = length (Params.b_x p) ->
  length (Params.b_size p) <> 1%nat -> length (Params.b_size p) <> length (Params.b_x p) ->
  (forall b, exists g, get_county_gpd b = Ok g) ->
  plot_bubble p s =
    (Raise (ValueError "s must be a scalar, or float array-like with the same size as x and y"),
     opened s).
Proof.
  intros Hy H1 Hn Hread. destruct (plot_boundary_run s Hread) as (fig & Hrun & _).
  unfold plot_bubble, bind, lift. rewrite Hrun, area_list_head.
  rewrite (res_fold_first_raise _ _ _ _
    (ValueError "s must be a scalar, or float array-like with the same size as x and y")); [done|].
  unfold bubble_step. by rewrite scatter_bad_sizes.
Qed.

(** [plot_choropleth] on an empty data list: [pd.DataFrame([])] has no
    column, so the first [merge] raises [KeyError('county')]. *)
Lemma plot_choropleth_empty_data_run (p : Params.ChoroplethParams) (s : PltState) :
  Params.data p = [] -> Params.level p <> Some "town" ->
  (forall b, exists g, get_county_gpd b = Ok g) ->
  plot_choropleth p s = (Raise (KeyError "county"), opened s).
Proof.
  intros Hd Hl Hread. unfold plot_choropleth, bind, lift. rewrite base_run, area_list_head.
  rewrite (res_fold_first_raise _ _ _ _ (KeyError "county")); [done|].
  unfold choropleth_step. assert (Ha : exists a, FigConfig.area_info "taiwan" = Ok a) by (eexists; reflexivity).
  destruct Ha as [a Ha]. cbn [snd]. rewrite Ha. cbn [res_bind].
  unfold level_gpd. rewrite decide_False by done.
  destruct (Hread (bbox_of a)) as [g ->]. cbn [res_bind].
  unfold merge_gdf_and_df, left_on, right_on. rewrite Hd. case_decide; [done|]. reflexivity.
Qed.

(** [plot_hist2d] with [bins=None] draws the boundary map, then its first
    [hist2d] raises [TypeError]. *)
Lemma plot_hist2d_null_bins_run (p : Params.Hist2DParams) (s : PltState) :
  Params.bins p = None -> length (Params.h_x p) = length (Params.h_y p) ->
  (forall b, exists g, get_county_gpd b = Ok g) ->
  plot_hist2d p s =
    (Raise (TypeError "'<' not supported between instances of 'NoneType' and 'int'"), opened s).
Proof.
  intros Hb Hl Hread. destruct (plot_boundary_run s Hread) as (fig & Hrun & _).
  unfold plot_hist2d, bind, lift. rewrite Hrun, area_list_head.
  rewrite (res_fold_first_raise _ _ _ _
    (TypeError "'<' not supported between instances of 'NoneType' and 'int'")); [done|].
  unfold hist2d_step. assert (Ha : exists a, FigConfig.area_info "taiwan" = Ok a) by (eexists; reflexivity).
  destruct Ha as [a Ha]. cbn [snd]. rewrite Ha. cbn [res_bind].
  unfold hist2d. rewrite Hl, Nat.eqb_refl, Hb. reflexivity.
Qed.

(** A county-level choropleth whose [county] column is numeric: when the
    main island's box holds a county feature, the first merge raises
    pandas' dtype [ValueError]. *)
Lemma plot_choropleth_numeric_keys_run (p : Params.ChoroplethParams) (s : PltState) a g :
  Params.level p <> Some "town" ->
  has_column (Params.data p) "county" = true -> col_numeric (Params.data p) "county" = true ->
  FigConfig.area_info "taiwan" = Ok a -> get_county_gpd (bbox_of a) = Ok g -> g <> [] ->
  plot_choropleth p s =
    (Raise (ValueError ("You are trying to merge on object and " +:+ col_dtype (Params.data p) "county"
                        +:+ " columns for key 'COUNTYNAME'. If you wish to proceed you should use pd.concat")),
     opened s).
Proof.
  intros Hl Hc Hn Ha Hg Hne. unfold plot_choropleth, bind, lift. rewrite base_run, area_list_head.
  erewrite res_fold_first_raise; [done|].
  unfold choropleth_step. cbn [snd]. rewrite Ha. cbn [res_bind].
  unfold level_gpd, left_on, right_on. rewrite !decide_False by done. rewrite Hg. cbn [res_bind].
  by rewrite merge_county_numeric.
Qed.

(** A choropleth's parameters with another level. *)
Definition with_level (p : Params.ChoroplethParams) (lvl : option string) : Params.ChoroplethParams :=
  Params.mkChoroplethParams (Params.data p) (Params.column p) lvl (Params.cmap p)
    (Params.colorbar_format p) (Params.colorbar_tick_visible p).

(** C26: [plot_choropleth] does not reject an unknown level: every level
    other than ["town"], [None] included, draws exactly the county-level
    map. *)
Theorem choropleth_unknown_level_is_county (p : Params.ChoroplethParams) (s : PltState) :
  Params.level p <> Some "town" ->
  plot_choropleth p s = plot_choropleth (with_level p (Some "county")) s.
Proof.
  intros Hl. unfold plot_choropleth, bind. rewrite base_run.
  rewrite (res_fold_ext (choropleth_step p) _ _ (choropleth_step (with_level p (Some "county")))); [done|].
  intros fig ia. unfold choropleth_step, level_gpd, left_on, right_on. simpl.
  repeat case_decide; first [reflexivity | congruence].
Qed.

Lemma join_keys_length (lvl : option string) : length (left_on lvl) = length (right_on lvl).
Proof. unfold left_on, right_on. by case_decide. Qed.

(** The artists [plot_choropleth] draws for region [k]: the fallback
    boundary when the join is empty, else the fill and the boundary. *)
Definition choropleth_arts (p : Params.ChoroplethParams) (k : string) : list Artist :=
  match FigConfig.area_info k with
  | Ok a =>
      match level_gpd (Params.level p) (bbox_of a) with
      | Ok g =>
          match merge_gdf_and_df g (Params.data p) (left_on (Params.level p))
                  (right_on (Params.level p)) with
          | Ok m =>
              match get_county_gpd (bbox_of a) with
              | Ok ce =>
                  if gdf_empty m then [Lines ce "black" 0.8]
                  else match ColorScale.plot_column (Params.data p) m (Params.column p)
                               (Params.cmap p) with
                       | Ok art => [art; Lines ce "black" 0.8]
                       | Raise _ => []
                       end
              | Raise _ => []
              end
          | Raise _ => []
          end
      | Raise _ => []
      end
  | Raise _ => []
  end.

Section ChoroplethInputs.
Context (p : Params.ChoroplethParams).
(** Both shapefiles can be read; the features of the chosen level carry
    the join's key columns. *)
Hypothesis Hcounty : forall b, exists g, get_county_gpd b = Ok g.
Hypothesis Hlevel : forall b, exists g, level_gpd (Params.level p) b = Ok g /\
  Forall (has_keys (left_on (Params.level p))) g.
(** The records have the join's columns, not numeric ones, and a number
    in the value column of every record; the colormap is registered. *)
Hypothesis Hcols : Forall (fun c => has_column (Params.data p) c = true)
  (right_on (Params.level p)).
Hypothesis Hkeys : Forall (fun c => col_numeric (Params.data p) c = false)
  (right_on (Params.level p)).
Hypothesis Hval : has_column (Params.data p) (Params.column p) = true.
Hypothesis Hnum : forall r, r ∈ Params.data p -> exists v, cell_get r (Params.column p) = CNum v.
Hypothesis Hcmap : check_cmap (Params.cmap p) = Ok tt.

Lemma value_numeric : col_numeric (Params.data p) (Params.column p) = true.
Proof.
  unfold has_column in Hval. apply existsb_exists in Hval as (r0 & Hr0 & _).
  apply andb_true_iff. split.
  - apply existsb_exists. exists r0. split; [done|].
    destruct (Hnum r0) as [v ->]; [by apply list_elem_of_In|done].
  - apply forallb_forall. intros r Hr. destruct (Hnum r) as [v ->]; [by apply list_elem_of_In|done].
Qed.

(** The join's rows, and the fill of a panel that has one. *)
Lemma merge_rows g :
  Forall (has_keys (left_on (Params.level p))) g ->
  merge_gdf_and_df g (Params.data p) (left_on (Params.level p)) (right_on (Params.level p)) =
    Ok (join_pairs (left_on (Params.level p)) (right_on (Params.level p)) g (Params.data p)).
Proof. intros Hk. apply merge_ok; [apply join_keys_length|done..]. Qed.

Lemma panel_fill_ok (m : list (Feature * Record_)) :
  m <> [] -> (forall fr, fr ∈ m -> fr.2 ∈ Params.data p) ->
  exists art, ColorScale.plot_column (Params.data p) m (Params.column p) (Params.cmap p) = Ok art.
Proof.
  intros Hne Hin. destruct m as [|fr m']; [done|].
  destruct (Hnum fr.2) as [v Hv]; [apply Hin; set_solver|].
  destruct (ColorScale.plot_column_ok (Params.data p) (fr :: m') (Params.column p) (Params.cmap p))
    as (mn & mx & Hp & _); [done|apply value_numeric| |done|eauto].
  exists fr, v. split; [set_solver|done].
Qed.

Lemma join_rows_in g fr :
  fr ∈ join_pairs (left_on (Params.level p)) (right_on (Params.level p)) g (Params.data p) ->
  fr.2 ∈ Params.data p.
Proof. destruct fr as [f r]. by intros (_ & Hr & _)%elem_of_join_pairs. Qed.

Lemma choropleth_step_draw (fig : Figure) j k :
  FigConfig.AREA_RANGE.*1 !! j = Some k ->
  choropleth_step p fig (j, k) = draw_all fig j (choropleth_arts p k).
Proof.
  intros Hk. destruct (FigConfig.area_info_key j k Hk) as (a & _ & Ha).
  unfold choropleth_step, choropleth_arts. simpl. rewrite Ha. simpl.
  destruct (Hlevel (bbox_of a)) as (g & Hg & Hk'). rewrite Hg. simpl.
  rewrite merge_rows by done. simpl.
  destruct (Hcounty (bbox_of a)) as [ce Hce]. rewrite Hce.
  unfold gdf_empty. case_bool_decide as Hemp; simpl; [by rewrite draw_all_one|].
  destruct (panel_fill_ok _ Hemp (join_rows_in g)) as [art Hart].
  rewrite Hart. simpl. rewrite draw_all_cons.
  destruct (draw_child fig j art); simpl; [by rewrite draw_all_one|done].
Qed.

(** The figure [plot_choropleth] returns: the panels, then the colorbar
    over the least and greatest value of the request. *)
Lemma plot_choropleth_run (s : PltState) :
  exists fig mn mx,
    plot_choropleth p s =
      (Ok (draw_main fig (Colorbar (Some mn) (Some mx) (Params.cmap p) (Params.colorbar_format p)
             (match Params.colorbar_tick_visible p with Some true => MaxNLocator 6 | _ => NullLocator end))),
       opened s) /\
    (exists r, r ∈ Params.data p /\ cell_get r (Params.column p) = CNum mn) /\
    (exists r, r ∈ Params.data p /\ cell_get r (Params.column p) = CNum mx) /\
    (forall r v, r ∈ Params.data p -> cell_get r (Params.column p) = CNum v -> (mn <= v <= mx)%Q) /\
    main_ax fig = main_ax (base_fig s) /\
    Forall2 (fun ax e => panel_of ax e /\ artists ax = choropleth_arts p e.1)
      (child_axes fig) FigConfig.AREA_RANGE.
Proof.
  destruct (ColorScale.series_numeric (Params.data p) (Params.column p) Hval value_numeric)
    as (mn & mx & Hmin & Hmax & Hmn & Hmx & Hb).
  destruct (render_panels (choropleth_step p) (choropleth_arts p) (base_fig s))
    as (fig & Hf & Hn & Hm & Hp); [done| |].
  { intros fig j k Hk _. by apply choropleth_step_draw. }
  exists fig, mn, mx. split_and!; try done.
  unfold plot_choropleth, bind, lift, ret. rewrite base_run, Hf, Hmin, Hmax.
  by rewrite ColorScale.colorbar_ok.
Qed.

(** C10: on readable sources, non-numeric join keys, a number in every
    record's value column and a registered colormap, [plot_choropleth]
    succeeds and every panel [i] shows region [i]: when the region's
    features join no record ([gdf.empty]) it shows only the county
    boundaries (the fallback, no error); otherwise the fill of the joined
    features, then the county boundaries drawn over it. *)
Theorem plot_choropleth_panels (s : PltState) :
  exists fig, fst (plot_choropleth p s) = Ok fig /\
    Forall2 (fun ax e => panel_of ax e /\
      exists g m ce,
        level_gpd (Params.level p) (bbox_of e.2) = Ok g /\
        merge_gdf_and_df g (Params.data p) (left_on (Params.level p))
          (right_on (Params.level p)) = Ok m /\
        get_county_gpd (bbox_of e.2) = Ok ce /\
        ((m = [] /\ artists ax = [Lines ce "black" 0.8]) \/
         (m <> [] /\ exists art,
            ColorScale.plot_column (Params.data p) m (Params.column p) (Params.cmap p) = Ok art /\
            artists ax = [art; Lines ce "black" 0.8])))
      (child_axes fig) FigConfig.AREA_RANGE.
Proof.
  destruct (plot_choropleth_run s) as (fig & mn & mx & Hrun & _ & _ & _ & _ & Hp).
  rewrite Hrun. eexists. split; [reflexivity|]. simpl.
  eapply Forall2_impl_in_r; [exact Hp|]. intros ax e He [Hpan Har]. split; [done|].
  unfold choropleth_arts in Har. rewrite (FigConfig.area_info_in e He) in Har.
  destruct (Hlevel (bbox_of e.2)) as (g & Hg & Hk'). rewrite Hg in Har.
  rewrite merge_rows in Har by done.
  destruct (Hcounty (bbox_of e.2)) as [ce Hce]. rewrite Hce in Har.
  eexists g, _, ce. split_and!; [done|by apply merge_rows|done|].
  unfold gdf_empty in Har. case_bool_decide as Hemp; [left; split; assumption|right].
  destruct (panel_fill_ok _ Hemp (join_rows_in g)) as [art Hart].
  rewrite Hart in Har. eauto.
Qed.

(** C11: [plot_choropleth] draws exactly one colorbar, on the main axes,
    and its range is the least and the greatest value of the whole value
    column of the request (computed once, not per panel); it has ticks
    exactly when [colorbar_tick_visible] is [True] ([False] and [None]
    hide them). *)
Theorem plot_choropleth_one_colorbar (s : PltState) :
  exists fig mn mx, fst (plot_choropleth p s) = Ok fig /\
    (exists r, r ∈ Params.data p /\ cell_get r (Params.column p) = CNum mn) /\
    (exists r, r ∈ Params.data p /\ cell_get r (Params.column p) = CNum mx) /\
    (forall r v, r ∈ Params.data p -> cell_get r (Params.column p) = CNum v -> (mn <= v <= mx)%Q) /\
    artists (main_ax fig) =
      [Colorbar (Some mn) (Some mx) (Params.cmap p) (Params.colorbar_format p)
         (match Params.colorbar_tick_visible p with Some true => MaxNLocator 6 | _ => NullLocator end)].
Proof.
  destruct (plot_choropleth_run s) as (fig & mn & mx & Hrun & Hmn & Hmx & Hb & Hm & _).
  rewrite Hrun. eexists _, mn, mx. split_and!; [reflexivity|done|done|done|].
  simpl. rewrite Hm. reflexivity.
Qed.

End ChoroplethInputs.

(** The key of a town in [res/json/town_type_by_town.json]. *)
Definition town_type_key (f : Feature) : string := COUNTYNAME f +:+ default "" (TOWNNAME f).

(** The artists [plot_boundary_with_subsidy] draws for region [k]. *)
Definition subsidy_arts (table : gmap string string) (k : string) : list Artist :=
  match FigConfig.area_info k with
  | Ok a =>
      match get_county_gpd (bbox_of a), get_town_gpd (bbox_of a) with
      | Ok cg, Ok tg =>
          [Lines cg "black" 0.8; Lines tg "gray" 0.5;
           Patches (zip tg (Named <$> map subsidy_color (map (fun f => table !! town_type_key f) tg)))]
      | _, _ => []
      end
  | Raise _ => []
  end.

Section SubsidyInputs.
Context (table : gmap string string).
(** Both shapefiles can be read, and every town feature has a [TOWNNAME]. *)
Hypothesis Hcounty : forall b, exists g, get_county_gpd b = Ok g.
Hypothesis Htown : forall b, exists g, get_town_gpd b = Ok g /\
  Forall (fun f => is_Some (TOWNNAME f)) g.

Lemma town_type_of_key (f : Feature) :
  is_Some (TOWNNAME f) -> town_type_of table f = Ok (table !! town_type_key f).
Proof. unfold town_type_of, town_type_key. by intros [t ->]. Qed.

Lemma subsidy_step_draw (fig : Figure) j k :
  FigConfig.AREA_RANGE.*1 !! j = Some k ->
  subsidy_step table fig (j, k) = draw_all fig j (subsidy_arts table k).
Proof.
  intros Hk. destruct (FigConfig.area_info_key j k Hk) as (a & _ & Ha).
  unfold subsidy_step, subsidy_arts. simpl. rewrite Ha. simpl.
  destruct (Hcounty (bbox_of a)) as [cg ->]. destruct (Htown (bbox_of a)) as (tg & -> & Hnames).
  simpl. rewrite (res_mapM_ok _ (fun f => table !! town_type_key f)).
  2: { intros f Hf. apply town_type_of_key. by apply (proj1 (Forall_forall _ _) Hnames f Hf). }
  simpl. rewrite draw_all_cons. destruct (draw_child fig j _) as [fig1|]; simpl; [|done].
  rewrite draw_all_cons. destruct (draw_child fig1 j _); simpl; [|done].
  by rewrite draw_all_one.
Qed.

Lemma plot_subsidy_run (s : PltState) :
  exists fig, plot_boundary_with_subsidy (Some table) s =
      (Ok (draw_main fig (Legend subsidy_legend_handles subsidy_labels "lower right")), opened s) /\
    main_ax fig = main_ax (base_fig s) /\
    Forall2 (fun ax e => panel_of ax e /\ artists ax = subsidy_arts table e.1)
      (child_axes fig) FigConfig.AREA_RANGE.
Proof.
  destruct (render_panels (subsidy_step table) (subsidy_arts table) (base_fig s))
    as (fig & Hf & Hn & Hm & Hp); [done| |].
  { intros fig j k Hk _. by apply subsidy_step_draw. }
  exists fig. split_and!; try done.
  unfold plot_boundary_with_subsidy, load_town_type, bind, lift, ret.
  rewrite base_run, Hf. done.
Qed.

(** C20: the legend of [plot_boundary_with_subsidy] shows the class
    平地原民區 in ["#7FB685"], while every town of that class is filled
    with ["#A8D8B9"], the color of [colormap]: the legend does not match
    the map. *)
Theorem subsidy_legend_color_mismatch (s : PltState) :
  exists fig, fst (plot_boundary_with_subsidy (Some table) s) = Ok fig /\
    artists (main_ax fig) = [Legend subsidy_legend_handles subsidy_labels "lower right"] /\
    assoc "平地原民區" subsidy_legend_handles = Some "#7FB685" /\
    Forall (fun ax => forall polys f c, Patches polys ∈ artists ax -> (f, c) ∈ polys ->
              town_type_of table f = Ok (Some "平地原民區") -> c = Named "#A8D8B9")
      (child_axes fig).
Proof.
  destruct (plot_subsidy_run s) as (fig & Hrun & Hm & Hp).
  rewrite Hrun. eexists. split_and!; [reflexivity| |reflexivity|].
  { simpl. rewrite Hm. reflexivity. }
  simpl. eapply Forall2_Forall_l_in; [exact Hp|]. intros ax e _ [_ Har] polys f c Hpol Hfc Ht.
  rewrite Har in Hpol. unfold subsidy_arts in Hpol.
  destruct (FigConfig.area_info e.1) as [a|]; [|apply elem_of_nil in Hpol; contradiction].
  destruct (get_county_gpd (bbox_of a)), (get_town_gpd (bbox_of a)) as [tg|]; try (apply elem_of_nil in Hpol; contradiction).
  rewrite !elem_of_cons, elem_of_nil in Hpol.
  destruct Hpol as [?|[?|[[= ->]|[]]]]; [discriminate..|].
  apply elem_of_zip_image in Hfc as ->.
  unfold town_type_of, town_type_key in *. destruct (TOWNNAME f); [|discriminate].
  injection Ht as Ht. cbn. by rewrite Ht.
Qed.

End SubsidyInputs.

End Source.
End GraphTheorems.

(** ** The renderers on the sample shapefiles *)

Module GraphExamples.
Import GeoPlot Panels Graph GraphTheorems.

(** A fresh pyplot state. *)
Definition s0 : PltState := mkPlt ∅ rcParamsDefault [].

(** The request of [ChoroplethData]'s example, with Penghu added. *)
Definition penghu_data : DataFrame :=
  [[("county", CStr "臺北市"); ("value", CNum 10)];
   [("county", CStr "新北市"); ("value", CNum 20)];
   [("county", CStr "澎湖縣"); ("value", CNum 15)]].

Definition penghu_params : Params.ChoroplethParams :=
  Params.mkChoroplethParams penghu_data "value" (Some "county") (Some "GnBu") (Some "{x:,.0f}")
    (Some true).

(** The fills panel [i] shows. *)
Definition panel_fills (fig : Figure) (i : nat) : list (Feature * Color) :=
  match child_axes fig !! i with
  | Some ax => concat (map (fun a => match a with Patches ps => ps | _ => [] end) (artists ax))
  | None => []
  end.

(** The color scale of a choropleth is not shared by its panels.  On
    the sample shapefiles, with Taipei 10, New Taipei 20 and Penghu 15,
    the colorbar reads 10 to 20 and the main panel fills Penghu at
    [cmap(0.5)], but Penghu's own inset, where 15 is the only value, fills
    it at [cmap(0)], the color of 10. *)
Example choropleth_inset_scale_differs :
  match fst (@plot_choropleth Sample.source SampleMpl.sample_mpl penghu_params s0) with
  | Ok fig =>
      artists (main_ax fig) =
        [Colorbar (Some 10%Q) (Some 20%Q) (Some "GnBu") (Some "{x:,.0f}") (MaxNLocator 6)] /\
      (exists t, (Sample.penghu, CmapColor (Some "GnBu") t) ∈ panel_fills fig 0 /\ (t == 1#2)%Q) /\
      (exists t, (Sample.penghu, CmapColor (Some "GnBu") t) ∈ panel_fills fig 1 /\ (t == 0)%Q)
  | Raise _ => False
  end.
Proof.
  vm_compute. split; [reflexivity|].
  split; eexists; (split; [apply list_elem_of_In; simpl; eauto 10|reflexivity]).
Qed.

(** The hypotheses of the renderers' theorems, on the sample shapefiles. *)
Ltac sample_inputs :=
  first
  [ solve [intros b; eexists; split; [reflexivity|];
           apply Forall_forall; intros f Hf; apply list_elem_of_filter in Hf as [_ Hf];
           elem_cases Hf ltac:(eexists; reflexivity)]
  | solve [intros b; eexists; reflexivity]
  | solve [intros b; eexists; split; [reflexivity|];
           apply Forall_forall; intros f _; eexists; reflexivity]
  | solve [intros r Hr; elem_cases Hr ltac:(eexists; reflexivity)]
  | solve [repeat constructor]
  | reflexivity ].

Lemma plot_boundary_panels_witness :
  (forall b, exists g, @get_county_gpd Sample.source b = Ok g) /\
  exists fig, @plot_boundary Sample.source s0 = (Ok fig, opened s0).
Proof.
  split; [sample_inputs|].
  destruct (@plot_boundary_panels Sample.source s0) as (fig & Hrun & _); [sample_inputs|].
  eauto.
Defined.

Lemma plot_boundary_features_in_box_witness :
  (forall b, exists g, @get_county_gpd Sample.source b = Ok g) /\
  exists fig, fst (@plot_boundary Sample.source s0) = Ok fig.
Proof.
  split; [sample_inputs|].
  destruct (@plot_boundary_features_in_box Sample.source
              (geo_data_laws Sample.county_shp Sample.town_shp) s0) as (fig & Hrun & _);
    [sample_inputs|]. eauto.
Defined.

Lemma plot_choropleth_panels_witness :
  has_column penghu_data "value" = true /\
  exists fig, fst (@plot_choropleth Sample.source SampleMpl.sample_mpl penghu_params s0) = Ok fig.
Proof.
  split; [reflexivity|].
  edestruct (@plot_choropleth_panels Sample.source SampleMpl.sample_mpl penghu_params) as (fig & Hrun & _);
    [sample_inputs..|]. eauto.
Defined.

Lemma plot_choropleth_one_colorbar_witness :
  has_column penghu_data "value" = true /\
  exists fig, fst (@plot_choropleth Sample.source SampleMpl.sample_mpl penghu_params s0) = Ok fig.
Proof.
  split; [reflexivity|].
  edestruct (@plot_choropleth_one_colorbar Sample.source SampleMpl.sample_mpl penghu_params) as (fig & _ & _ & Hrun & _);
    [sample_inputs..|]. eauto.
Defined.

Lemma plot_dot_mismatch_after_drawing_witness :
  length [121.5; 120.3]%Q <> length [25.0]%Q /\
  @plot_dot Sample.source SampleMpl.sample_mpl (Params.mkDotParams [121.5; 120.3]%Q [25.0]%Q (Some 10%Q) (Some "red") (Some 1%Q)) s0 =
    (Raise (ValueError "x and y must be the same size"), opened s0).
Proof.
  split; [discriminate|].
  apply (@plot_dot_mismatch_after_drawing Sample.source SampleMpl.sample_mpl); [discriminate|sample_inputs].
Defined.

Lemma subsidy_legend_color_mismatch_witness :
  (forall b, exists g, @get_town_gpd Sample.source b = Ok g /\
     Forall (fun f => is_Some (TOWNNAME f)) g) /\
  exists fig, fst (@plot_boundary_with_subsidy Sample.source (Some Sample.town_type) s0) = Ok fig.
Proof.
  split; [sample_inputs|].
  edestruct (@subsidy_legend_color_mismatch Sample.source Sample.town_type) as (fig & Hrun & _);
    [sample_inputs..|]. eauto.
Defined.

Lemma choropleth_unknown_level_is_county_witness :
  Params.level (with_level penghu_params None) <> Some "town" /\
  @plot_choropleth Sample.source SampleMpl.sample_mpl (with_level penghu_params None) s0 =
    @plot_choropleth Sample.source SampleMpl.sample_mpl (with_level (with_level penghu_params None) (Some "county")) s0.
Proof.
  assert (Hl : Params.level (with_level penghu_params None) <> Some "town")
    by (intros Hc; vm_compute in Hc; discriminate Hc).
  split; [exact Hl|]. exact (@choropleth_unknown_level_is_county Sample.source SampleMpl.sample_mpl _ s0 Hl).
Defined.

End GraphExamples.
