(* ===== verification/App.v ===== *)
(** * App: the HTTP service of [src/app.py]

    The service state (pyplot's state and the global [request_counter]),
    [cleanup_memory_if_needed], [fig_to_image], [handle_plot_request], the
    endpoints with their request models' defaults, [manual_cleanup] and the
    [lifespan] hooks.  Serving a request is a step of a state machine; the
    theorems show that no figure survives a request, that the counter stays
    below [CLEANUP_INTERVAL] and the periodic purge is reached within every
    50 plot requests, that each route answers its declared response type,
    that every valid request is served, and what each failing request
    returns.  The raster encoder ([fig.savefig]) is a
    parameter of the section: every theorem holds for any encoder, failing
    or not. *)

From Stdlib Require Import QArith String ZArith.
From stdpp Require Import base list sets gmap strings.
From S2P Require Import Prelude Config GeoData Pyplot Layout ColorScale Graph.

Open Scope string_scope.
Open Scope py_scope.

Module App.
Import Params Graph.

Record AppState := mkApp {
  plt : PltState;
  request_counter : nat;
}.

Definition CLEANUP_INTERVAL : nat := 50.

Definition AppM (A : Type) := StM AppState A.

(** A pyplot call made by the service. *)
Definition on_plt {A} (m : Plt A) : AppM A :=
  fun st => let '(r, s') := m (plt st) in (r, mkApp s' (request_counter st)).

Definition set_counter (n : nat) : AppM unit :=
  modify (fun st => mkApp (plt st) n).

(** [cleanup_memory_if_needed()]: count the request; every
    [CLEANUP_INTERVAL]-th one purges and resets the counter. *)
Definition cleanup_memory_if_needed : AppM unit :=
  st <- get ;;
  let c := S (request_counter st) in
  set_counter c ;;
  if (CLEANUP_INTERVAL <=? c)%nat then on_plt cleanup_memory ;; set_counter 0
  else ret tt.

Inductive Response (Image : Type) :=
  | StreamingResponse (img : Image) (media_type : string)
  | JSONResponse (message : string)
  | TemplateResponse (template : string).
Arguments StreamingResponse {Image} img media_type.
Arguments JSONResponse {Image} message.
Arguments TemplateResponse {Image} template.

(** [str(e)] of the exceptions the renderers raise. *)
Definition exn_str (e : PyExn) : string :=
  match e with
  | KeyError k => "'" +:+ k +:+ "'"
  | IndexError => "list index out of range"
  | ValueError m => m
  | ZeroDivisionError => "float division by zero"
  | TypeError m => m
  | FileNotFoundError p => "No such file or directory: '" +:+ p +:+ "'"
  | HTTPException _ d => d
  end.

Section Service.
Context {Image : Type}.
(** [fig.savefig(img_buf, format="png", bbox_inches="tight", dpi=300)]. *)
Context (savefig : Figure -> res Image).

(** [fig_to_image(fig)]: encode, and close the figure on every exit. *)
Definition fig_to_image (fig : Figure) : Plt Image :=
  try_finally (lift (savefig fig)) (close fig).

(** [handle_plot_request(plot_func)]: count the request, plot, encode;
    on any exception purge and answer HTTP 500. *)
Definition handle_plot_request (plot_func : Plt Figure) : AppM (Response Image) :=
  try_except
    (cleanup_memory_if_needed ;;
     fig <- on_plt plot_func ;;
     img_buf <- on_plt (fig_to_image fig) ;;
     ret (StreamingResponse img_buf "image/png"))
    (fun e => on_plt cleanup_memory ;;
              raise (HTTPException 500 ("繪圖失敗: " +:+ exn_str e))).

(** [POST /cleanup]. *)
Definition manual_cleanup : AppM (Response Image) :=
  on_plt cleanup_memory ;; set_counter 0 ;; ret (JSONResponse "記憶體清理完成").

End Service.

(** ** Request models and their defaults

    The Pydantic models as the routes receive them: an [Optional] field
    is an [option], [None] when the request sends [null]. *)

Record ChoroplethData := mkChoroplethData {
  cd_data : list Record_;
  cd_column : string;
  cd_level : option string;
  cd_cmap : option string;
  cd_colorbar_format : option string;
  cd_colorbar_tick_visible : option bool;
}.

Definition ChoroplethData_default : ChoroplethData :=
  mkChoroplethData [[("county", CStr "臺北市"); ("value", CNum 10)];
                    [("county", CStr "新北市"); ("value", CNum 20)]]
    "value" (Some "county") (Some "GnBu") (Some "{x:,.0f}") (Some true).

Record DotPlotData := mkDotPlotData {
  dp_x : list Q; dp_y : list Q; dp_size : option Q; dp_color : option string; dp_alpha : option Q;
}.

Record Hist2DData := mkHist2DData {
  hd_x : list Q; hd_y : list Q; hd_bins : option Z; hd_cmap : option string; hd_alpha : option Q;
  hd_cmin : option Z;
}.

Record BubbleData := mkBubbleData {
  bd_x : list Q; bd_y : list Q; bd_size : list Q; bd_color : list string; bd_alpha : option Q;
}.

(** [BubbleData]'s defaults for [size] and [color]: six fixed entries. *)
Definition BubbleData_size_default : list Q := [10; 20; 30; 40; 50; 60]%Q.
Definition BubbleData_color_default : list string :=
  ["red"; "blue"; "green"; "yellow"; "purple"; "orange"].

(** The defaults of [DotPlotData], [Hist2DData] and [BubbleData]: the
    [Field] default of each field. *)
Definition DotPlotData_default : DotPlotData :=
  mkDotPlotData [120.96]%Q [23.70]%Q (Some 10%Q) (Some "red") (Some (1#2)).

Definition Hist2DData_default : Hist2DData :=
  mkHist2DData [120.96; 120.96; 120.96; 119.57; 118.30; 119.90]%Q
    [23.70; 23.70; 23.70; 23.57; 24.40; 26.20]%Q (Some 100%Z) (Some "GnBu") (Some (1#2))
    (Some 1%Z).

Definition BubbleData_default : BubbleData :=
  mkBubbleData [120.96; 120.96; 120.96; 119.57; 118.30; 119.90]%Q
    [23.70; 23.70; 23.70; 23.57; 24.40; 26.20]%Q BubbleData_size_default
    BubbleData_color_default (Some (1#2)).

(** A request as the routes receive it, after Pydantic's validation. *)
Inductive Request :=
  | GetHome
  | GetBoundary
  | GetBoundaryWithSubsidy
  | PostChoropleth (d : ChoroplethData)
  | PostDot (d : DotPlotData)
  | PostHist2d (d : Hist2DData)
  | PostBubble (d : BubbleData)
  | PostCleanup.

Section Endpoints.
Context `{GS : GeometrySource} `{MP : Mpl} (town_type_json : option (gmap string string)).
Context {Image : Type} (savefig : Figure -> res Image).

(** [create_choropleth]: [pd.DataFrame(data.data)] and [ChoroplethParams]. *)
Definition choropleth_params (d : ChoroplethData) : ChoroplethParams :=
  mkChoroplethParams (cd_data d) (cd_column d) (cd_level d) (cd_cmap d)
    (cd_colorbar_format d) (cd_colorbar_tick_visible d).

Definition dot_params (d : DotPlotData) : DotParams :=
  mkDotParams (dp_x d) (dp_y d) (dp_size d) (dp_color d) (dp_alpha d).

Definition hist2d_params (d : Hist2DData) : Hist2DParams :=
  mkHist2DParams (hd_x d) (hd_y d) (hd_bins d) (hd_cmap d) (hd_alpha d) (hd_cmin d).

(** [BubbleParams(x=..., y=..., size=data.size, color=data.color, alpha=...)]:
    [size] and [color] are always given, so [__post_init__] fills nothing;
    [cmin] keeps its default 1. *)
Definition bubble_params (d : BubbleData) : BubbleParams :=
  BubbleParams_new (bd_x d) (bd_y d) (Some (bd_size d)) (Some (bd_color d)) (bd_alpha d) 1.

(** The route a request reaches. *)
Definition dispatch (req : Request) : AppM (Response Image) :=
  match req with
  | GetHome => ret (TemplateResponse "home.html")
  | GetBoundary => handle_plot_request savefig plot_boundary
  | GetBoundaryWithSubsidy => handle_plot_request savefig (plot_boundary_with_subsidy town_type_json)
  | PostChoropleth d => handle_plot_request savefig (plot_choropleth (choropleth_params d))
  | PostDot d => handle_plot_request savefig (plot_dot (dot_params d))
  | PostHist2d d => handle_plot_request savefig (plot_hist2d (hist2d_params d))
  | PostBubble d => handle_plot_request savefig (plot_bubble (bubble_params d))
  | PostCleanup => manual_cleanup
  end.

End Endpoints.

(** ** Process start *)

(** The pyplot state of a fresh interpreter. *)
Definition plt_fresh : PltState := mkPlt ∅ rcParamsDefault [].

(** Importing [src.graph] (the [rcParams] line) and [graph_instance =
    Graph()] (its fonts), with [request_counter = 0]. *)
Definition after_import : AppState :=
  let s1 := snd (graph_module_init plt_fresh) in
  let s2 := snd (graph_init s1) in
  mkApp s2 0.

(** [lifespan] before [yield]: reset the counter, then [cleanup_memory()]. *)
Definition lifespan_startup : AppM unit :=
  set_counter 0 ;; on_plt cleanup_memory.

(** [lifespan] after [yield]. *)
Definition lifespan_shutdown : AppM unit := on_plt cleanup_memory.

Definition serving_start : AppState := snd (lifespan_startup after_import).

End App.

(** ** Theorems on the service *)

Module AppTheorems.
Import App Graph.

(** [cleanup_memory()] on a pyplot state. *)
Lemma cleanup_memory_run (s : PltState) :
  cleanup_memory s = (Ok tt, mkPlt ∅ rcParamsDefault (ttflist s)).
Proof. reflexivity. Qed.

(** The state after [cleanup_memory_if_needed]: the request counted,
    and every [CLEANUP_INTERVAL]-th time the purge. *)
Definition counted (st : AppState) : AppState :=
  if (CLEANUP_INTERVAL <=? S (request_counter st))%nat
  then mkApp (mkPlt ∅ rcParamsDefault (ttflist (plt st))) 0
  else mkApp (plt st) (S (request_counter st)).

Lemma cleanup_if_needed_run (st : AppState) :
  cleanup_memory_if_needed st = (Ok tt, counted st).
Proof.
  unfold cleanup_memory_if_needed, counted, bind, get, set_counter, modify, ret, on_plt.
  cbv beta iota zeta. case_match; reflexivity.
Qed.

Lemma cleanup_if_needed_open (st : AppState) :
  open_figs (plt (snd (cleanup_memory_if_needed st))) ⊆ open_figs (plt st).
Proof.
  rewrite cleanup_if_needed_run. unfold counted. case_match; simpl; set_solver.
Qed.

(** The state a purge leaves: no figure open, default [rcParams], the
    counter at 0. *)
Definition purged (st : AppState) : Prop :=
  open_figs (plt st) = ∅ /\ rc (plt st) = rcParamsDefault /\ request_counter st = 0%nat.

Section Service.
Context {Image : Type} (savefig : Figure -> res Image).

(** The except branch: purge, then answer HTTP 500. *)
Lemma except_branch_run (e : PyExn) (st : AppState) :
  (on_plt cleanup_memory ;; raise (A:=Response Image) (HTTPException 500 ("繪圖失敗: " +:+ exn_str e))) st =
  (Raise (HTTPException 500 ("繪圖失敗: " +:+ exn_str e)),
   mkApp (mkPlt ∅ rcParamsDefault (ttflist (plt st))) (request_counter st)).
Proof. reflexivity. Qed.

(** Whatever the plot function (obeying the figure discipline) and the
    encoder do, the set of open figures never grows: on success the only
    figure opened is closed by [fig_to_image], on every failure
    [cleanup_memory()] closes all figures. *)
Lemma handle_plot_request_open (f : Plt Figure) (st : AppState) :
  figure_discipline f ->
  open_figs (plt (snd (handle_plot_request savefig f st))) ⊆ open_figs (plt st) /\
  (is_ok (fst (handle_plot_request savefig f st)) = false ->
   open_figs (plt (snd (handle_plot_request savefig f st))) = ∅).
Proof.
  intros Hf. pose proof (cleanup_if_needed_open st) as Hc.
  rewrite cleanup_if_needed_run in Hc. simpl in Hc.
  destruct (handle_plot_request savefig f st) as [r st'] eqn:EH. simpl.
  unfold handle_plot_request, try_except, bind at 1 in EH. rewrite cleanup_if_needed_run in EH.
  generalize dependent (counted st). intros st1 Hc EH.
  unfold bind, on_plt, fig_to_image, try_finally, lift, close, modify, ret, raise in EH.
  cbn beta iota in EH.
  destruct (Hf (plt st1)) as [[Hs Hr]|[Hs Hn]];
    destruct (f (plt st1)) as [[fig|e] s2]; simpl in Hs, EH; try discriminate Hr; subst s2.
  - injection EH as <- <-. simpl. split; [set_solver|done].
  - specialize (Hn fig eq_refl). destruct (savefig fig) as [img|e']; simpl in EH;
      injection EH as <- <-; simpl.
    + rewrite Hn, close_opened. split; [done|discriminate].
    + split; [set_solver|done].
  - injection EH as <- <-. simpl. split; [set_solver|done].
Qed.

(** The request counter after a plot request, on every path. *)
Lemma handle_plot_request_counter (f : Plt Figure) (st : AppState) :
  request_counter (snd (handle_plot_request savefig f st)) =
    if (CLEANUP_INTERVAL <=? S (request_counter st))%nat then 0%nat
    else S (request_counter st).
Proof.
  destruct (handle_plot_request savefig f st) as [r st'] eqn:EH. cbn [snd].
  unfold handle_plot_request, try_except, bind at 1 in EH. rewrite cleanup_if_needed_run in EH.
  assert (Hc : request_counter (counted st) =
    if (CLEANUP_INTERVAL <=? S (request_counter st))%nat then 0%nat
    else S (request_counter st))
    by (unfold counted; destruct (CLEANUP_INTERVAL <=? S (request_counter st))%nat; reflexivity).
  rewrite <- Hc. generalize dependent (counted st). intros st1 EH _.
  unfold bind, on_plt, fig_to_image, try_finally, lift, close, modify, ret, raise in EH.
  cbn beta iota in EH.
  destruct (f (plt st1)) as [[fig|e] s2]; simpl in EH; [destruct (savefig fig); simpl in EH|];
    by injection EH as <- <-.
Qed.

(** A plot function that raises makes the request answer HTTP 500 with
    the exception's text. *)
Lemma handle_plot_request_raise (f : Plt Figure) (st : AppState) (e : PyExn) :
  fst (f (plt (counted st))) = Raise e ->
  fst (handle_plot_request savefig f st) =
    Raise (HTTPException 500 ("繪圖失敗: " +:+ exn_str e)).
Proof.
  intros He. unfold handle_plot_request, try_except, bind at 1. rewrite cleanup_if_needed_run.
  unfold bind, on_plt. cbn beta iota.
  destruct (f (plt (counted st))) as [r s2]. simpl in He. by subst r.
Qed.

(** Whatever the plot function and the encoder do, a plot request answers
    an image or HTTP 500 carrying the exception's text: no other exception
    leaves [handle_plot_request]. *)
Lemma handle_plot_request_result (f : Plt Figure) (st : AppState) :
  (exists img, fst (handle_plot_request savefig f st) = Ok (StreamingResponse img "image/png")) \/
  (exists e, fst (handle_plot_request savefig f st) =
               Raise (HTTPException 500 ("繪圖失敗: " +:+ exn_str e))).
Proof.
  destruct (handle_plot_request savefig f st) as [r st'] eqn:EH. cbn [fst].
  unfold handle_plot_request, try_except, bind at 1 in EH. rewrite cleanup_if_needed_run in EH.
  generalize dependent (counted st). intros st1 EH.
  unfold bind, on_plt, fig_to_image, try_finally, lift, close, modify, ret, raise in EH.
  cbn beta iota in EH.
  destruct (f (plt st1)) as [[fig|e] s2]; [destruct (savefig fig) as [img|e]|];
    injection EH as <- _; eauto.
Qed.

(** The pyplot state a plot request leaves: the one after counting (on
    success the figure opened is closed again), or the purged one (on
    failure, by [cleanup_memory()]). *)
Lemma handle_plot_request_plt (f : Plt Figure) (st : AppState) :
  figure_discipline f ->
  plt (snd (handle_plot_request savefig f st)) = plt (counted st) \/
  plt (snd (handle_plot_request savefig f st)) = mkPlt ∅ rcParamsDefault (ttflist (plt st)).
Proof.
  intros Hf. assert (Ht : ttflist (plt (counted st)) = ttflist (plt st))
    by (unfold counted; case_match; reflexivity).
  rewrite <- Ht. clear Ht.
  destruct (handle_plot_request savefig f st) as [r st'] eqn:EH. cbn [snd].
  unfold handle_plot_request, try_except, bind at 1 in EH. rewrite cleanup_if_needed_run in EH.
  generalize dependent (counted st). intros st1 EH.
  unfold bind, on_plt, fig_to_image, try_finally, lift, close, modify, ret, raise in EH.
  cbn beta iota in EH.
  destruct (Hf (plt st1)) as [[Hs Hr]|[Hs Hn]];
    destruct (f (plt st1)) as [[fig|e] s2]; simpl in Hs, EH; try discriminate Hr; subst s2.
  - injection EH as <- <-. by right.
  - specialize (Hn fig eq_refl). destruct (savefig fig); simpl in EH; injection EH as <- <-.
    + left. simpl. rewrite Hn, close_opened. by destruct (plt st1).
    + by right.
  - injection EH as <- <-. by right.
Qed.

(** The [CLEANUP_INTERVAL]-th request purges: whatever the plot function
    (under the figure discipline) and the encoder do, it leaves no figure
    open, the default [rcParams] and the counter at 0. *)
Lemma handle_plot_request_purge (f : Plt Figure) (st : AppState) :
  figure_discipline f -> S (request_counter st) = CLEANUP_INTERVAL ->
  purged (snd (handle_plot_request savefig f st)).
Proof.
  intros Hf Hc. unfold purged. rewrite handle_plot_request_counter, Hc, Nat.leb_refl.
  assert (Hp : plt (counted st) = mkPlt ∅ rcParamsDefault (ttflist (plt st)))
    by (unfold counted; rewrite Hc, Nat.leb_refl; reflexivity).
  destruct (handle_plot_request_plt f st Hf) as [->| ->]; rewrite ?Hp; done.
Qed.

(** A plot function that returns a figure, with an encoder that encodes
    it, makes the request answer the PNG. *)
Lemma handle_plot_request_ok (f : Plt Figure) (st : AppState) :
  (forall s, exists fig s', f s = (Ok fig, s')) ->
  (forall fig, exists img, savefig fig = Ok img) ->
  exists img, fst (handle_plot_request savefig f st) = Ok (StreamingResponse img "image/png").
Proof.
  intros Hf Henc. destruct (handle_plot_request savefig f st) as [r st'] eqn:EH. cbn [fst].
  unfold handle_plot_request, try_except, bind at 1 in EH. rewrite cleanup_if_needed_run in EH.
  generalize dependent (counted st). intros st1 EH.
  unfold bind, on_plt, fig_to_image, try_finally, lift, close, modify, ret, raise in EH.
  cbn beta iota in EH. destruct (Hf (plt st1)) as (fig & s2 & Hfs). rewrite Hfs in EH.
  destruct (Henc fig) as [img Himg]. rewrite Himg in EH. cbn in EH. injection EH as <- _. eauto.
Qed.

End Service.

End AppTheorems.

(** ** The service as a state machine *)

Module Serving.
Import App Graph AppTheorems.

Section Serving.
Context `{GS : GeometrySource} `{MP : Mpl} (town_type_json : option (gmap string string)).
Context {Image : Type} (savefig : Figure -> res Image).

(** Serving one request. *)
Definition serve_one (st : AppState) (req : Request) : AppState :=
  snd (dispatch town_type_json savefig req st).

(** The states the service reaches from its start by serving requests. *)
Inductive reachable : AppState -> Prop :=
  | reach_start : reachable serving_start
  | reach_step st req : reachable st -> reachable (serve_one st req).

Definition service_inv (st : AppState) : Prop :=
  open_figs (plt st) = ∅ /\ (request_counter st < CLEANUP_INTERVAL)%nat.

Lemma plot_request_inv (f : Plt Figure) (st : AppState) :
  figure_discipline f -> service_inv st ->
  service_inv (snd (handle_plot_request savefig f st)).
Proof.
  intros Hf [Ho Hc]. destruct (handle_plot_request_open savefig f st Hf) as [Hsub _].
  split; [rewrite Ho in Hsub; set_solver|]. rewrite handle_plot_request_counter.
  destruct (CLEANUP_INTERVAL <=? S (request_counter st))%nat eqn:E;
    [unfold CLEANUP_INTERVAL; lia|apply Nat.leb_gt in E; lia].
Qed.

Lemma serve_one_inv (st : AppState) (req : Request) :
  service_inv st -> service_inv (serve_one st req).
Proof.
  pose proof GraphTheorems.renderers_discipline as (H1 & H2 & H3 & H4 & H5 & H6).
  intros Hinv. unfold serve_one. destruct req.
  - exact Hinv.
  - by apply plot_request_inv.
  - by apply plot_request_inv.
  - by apply plot_request_inv.
  - by apply plot_request_inv.
  - by apply plot_request_inv.
  - by apply plot_request_inv.
  - split; [reflexivity|unfold CLEANUP_INTERVAL; simpl; lia].
Qed.

(** C1: no request leaks a figure: serving any request, whatever its
    data, the geometry source and the encoder, never leaves more figures
    open than before, and a request that fails (HTTP 500) leaves none. *)
Theorem dispatch_no_leak (st : AppState) (req : Request) :
  open_figs (plt (serve_one st req)) ⊆ open_figs (plt st) /\
  (is_ok (fst (dispatch town_type_json savefig req st)) = false ->
   open_figs (plt (serve_one st req)) = ∅).
Proof.
  pose proof GraphTheorems.renderers_discipline as (H1 & H2 & H3 & H4 & H5 & H6).
  unfold serve_one. destruct req;
    first [by apply handle_plot_request_open | split; [set_solver|discriminate]].
Qed.

(** C2: in every state the service reaches from its start, whatever the
    requests served, their data, the geometry source and the encoder, no
    figure is open between requests and [request_counter] is below
    [CLEANUP_INTERVAL]: figures do not accumulate. *)
Theorem reachable_no_open_figure (st : AppState) :
  reachable st -> service_inv st.
Proof.
  induction 1 as [|st req _ IH].
  - split; [reflexivity|unfold CLEANUP_INTERVAL; simpl; lia].
  - by apply serve_one_inv.
Qed.

(** Serving a sequence of requests, in order. *)
Fixpoint serve (st : AppState) (reqs : list Request) : AppState :=
  match reqs with
  | [] => st
  | r :: rs => serve (serve_one st r) rs
  end.

(** [uvicorn.run(app, ...)] under [if __name__ == "__main__"]: the
    [lifespan] of [app] runs its startup ([serving_start]), the requests
    are served in order, and the part after [yield] runs at shutdown. *)
Definition run_app (reqs : list Request) : AppState :=
  snd (lifespan_shutdown (serve serving_start reqs)).

(** The requests that go through [handle_plot_request]. *)
Definition is_plot_request (r : Request) : bool :=
  match r with GetHome | PostCleanup => false | _ => true end.

Lemma serve_one_counter (st : AppState) (r : Request) :
  is_plot_request r = true -> (request_counter st < CLEANUP_INTERVAL)%nat ->
  request_counter (serve_one st r) = ((request_counter st + 1) mod CLEANUP_INTERVAL)%nat.
Proof.
  intros Hr Hc. unfold serve_one.
  assert (Hh : forall f, request_counter (snd (handle_plot_request savefig f st)) =
                         ((request_counter st + 1) mod CLEANUP_INTERVAL)%nat).
  { intros f. rewrite handle_plot_request_counter. unfold CLEANUP_INTERVAL in *.
    destruct (Nat.leb_spec 50 (S (request_counter st))).
    - assert (request_counter st + 1 = 50)%nat as -> by lia. reflexivity.
    - rewrite Nat.mod_small; lia. }
  destruct r; try discriminate Hr; apply Hh.
Qed.

(** C13: over any sequence of plot requests the request counter counts
    them modulo [CLEANUP_INTERVAL]: [cleanup_memory()] runs exactly on
    every 50th request, whatever the requests' outcomes. *)
Theorem serve_counter_mod (reqs : list Request) (st : AppState) :
  Forall (fun r => is_plot_request r = true) reqs ->
  (request_counter st < CLEANUP_INTERVAL)%nat ->
  request_counter (serve st reqs) =
    ((request_counter st + length reqs) mod CLEANUP_INTERVAL)%nat.
Proof.
  intros Hall. revert st. induction Hall as [|r rs Hr _ IH]; intros st Hc; cbn [serve length].
  - by rewrite Nat.add_0_r, Nat.mod_small.
  - assert (Hc' : request_counter (serve_one st r) =
                  ((request_counter st + 1) mod CLEANUP_INTERVAL)%nat) by by apply serve_one_counter.
    rewrite IH; [|rewrite Hc'; apply Nat.mod_upper_bound; unfold CLEANUP_INTERVAL; lia].
    rewrite Hc', Nat.Div0.add_mod_idemp_l. f_equal. lia.
Qed.

(** The handler of a plot request: [handle_plot_request] around a
    renderer that keeps the figure discipline. *)
Lemma plot_request_handler (r : Request) :
  is_plot_request r = true ->
  exists f, figure_discipline f /\
    forall st, dispatch town_type_json savefig r st = handle_plot_request savefig f st.
Proof.
  pose proof GraphTheorems.renderers_discipline as (H1 & H2 & H3 & H4 & H5 & H6).
  destruct r; try discriminate; intros _; eexists; (split; [|intros st; reflexivity]); auto.
Qed.

Lemma serve_app (st : AppState) (l1 l2 : list Request) :
  serve st (l1 ++ l2) = serve (serve st l1) l2.
Proof. revert st. induction l1 as [|r l1 IH]; intros st; [done|]. apply IH. Qed.

(** A run of the process serves from reachable states only, and its
    shutdown leaves no figure open and the default [rcParams]. *)
Lemma run_app_closed (reqs : list Request) :
  reachable (serve serving_start reqs) /\
  open_figs (plt (run_app reqs)) = ∅ /\ rc (plt (run_app reqs)) = rcParamsDefault.
Proof.
  split; [|unfold run_app, lifespan_shutdown, on_plt; by rewrite cleanup_memory_run].
  assert (H : forall st, reachable st -> reachable (serve st reqs))
    by (induction reqs as [|r reqs IH]; intros st Hst; [exact Hst|apply IH, reach_step, Hst]).
  exact (H _ reach_start).
Qed.

(** Below the interval, plot requests only count. *)
Lemma serve_counter_below (reqs : list Request) (st : AppState) :
  Forall (fun r => is_plot_request r = true) reqs ->
  (request_counter st + length reqs < CLEANUP_INTERVAL)%nat ->
  request_counter (serve st reqs) = (request_counter st + length reqs)%nat.
Proof.
  intros Hall. revert st. induction Hall as [|r rs Hr _ IH]; intros st Hc; cbn [serve length] in *;
    [lia|].
  assert (H1 : request_counter (serve_one st r) = S (request_counter st)).
  { rewrite serve_one_counter by (done || lia). rewrite Nat.mod_small; unfold CLEANUP_INTERVAL in *; lia. }
  rewrite IH; rewrite H1; lia.
Qed.


(** C4: the response of every route has the type the route declares:
    [GET /] the home template, [POST /cleanup] its JSON message, and a
    plot route either a PNG image or HTTP 500 whose detail is
    ["繪圖失敗: "] and the exception's text; no other exception leaves
    the service. *)
Theorem dispatch_response_shape (st : AppState) (req : Request) :
  match req with
  | GetHome => fst (dispatch town_type_json savefig req st) = Ok (TemplateResponse "home.html")
  | PostCleanup => fst (dispatch town_type_json savefig req st) = Ok (JSONResponse "記憶體清理完成")
  | _ => (exists img, fst (dispatch town_type_json savefig req st) =
                        Ok (StreamingResponse img "image/png")) \/
         (exists e, fst (dispatch town_type_json savefig req st) =
                      Raise (HTTPException 500 ("繪圖失敗: " +:+ exn_str e)))
  end.
Proof. destruct req; first [reflexivity | apply handle_plot_request_result]. Qed.

(** C22: a dot-map request whose [x] and [y] differ in length is not
    rejected by validation (HTTP 422): it is accepted, the boundary map is
    drawn, and the request answers HTTP 500 with matplotlib's message. *)
Theorem dot_mismatch_http_500 (d : DotPlotData) (st : AppState) :
  length (dp_x d) <> length (dp_y d) ->
  (forall b, exists g, get_county_gpd b = Ok g) ->
  fst (dispatch town_type_json savefig (PostDot d) st) =
    Raise (HTTPException 500 "繪圖失敗: x and y must be the same size").
Proof.
  intros Hlen Hread. unfold dispatch.
  erewrite (handle_plot_request_raise savefig _ _ (ValueError _)); [reflexivity|].
  by rewrite GraphTheorems.plot_dot_mismatch_run.
Qed.

(** C23: a bubble-map request that leaves [size] and [color] out gets the
    six fixed defaults of [BubbleData]; with any number of points other
    than six it fails with HTTP 500, although equal-length [x] and [y]
    are all it supplies. *)
Theorem bubble_defaults_http_500 (x y : list Q) (alpha : option Q) (st : AppState) :
  length y = length x -> length x <> 6%nat ->
  (forall b, exists g, get_county_gpd b = Ok g) ->
  fst (dispatch town_type_json savefig
         (PostBubble (mkBubbleData x y BubbleData_size_default BubbleData_color_default alpha)) st) =
    Raise (HTTPException 500
      "繪圖失敗: s must be a scalar, or float array-like with the same size as x and y").
Proof.
  intros Hy Hn Hread. unfold dispatch.
  erewrite (handle_plot_request_raise savefig _ _ (ValueError _)); [reflexivity|].
  rewrite GraphTheorems.plot_bubble_bad_sizes; [done|done|simpl; lia|simpl; lia|done].
Qed.

(** C24: a choropleth request with an empty [data] list (a county-level
    map) does not give the boundary-only map: [pd.DataFrame([])] has no
    [county] column, the merge raises [KeyError], and the request answers
    HTTP 500. *)
Theorem choropleth_empty_data_http_500 (d : ChoroplethData) (st : AppState) :
  cd_data d = [] -> cd_level d <> Some "town" ->
  (forall b, exists g, get_county_gpd b = Ok g) ->
  fst (dispatch town_type_json savefig (PostChoropleth d) st) =
    Raise (HTTPException 500 "繪圖失敗: 'county'").
Proof.
  intros Hd Hl Hread. unfold dispatch.
  erewrite (handle_plot_request_raise savefig _ _ (KeyError "county")); [reflexivity|].
  by rewrite GraphTheorems.plot_choropleth_empty_data_run.
Qed.

(** C32: A choropleth request whose counties are sent as numbers passes
    validation and does not give the boundary-only map of an empty join:
    when the main island's box holds a county feature, pandas refuses to
    merge the [object] key [COUNTYNAME] with the numeric [county] column,
    and the request answers HTTP 500. *)
Theorem choropleth_numeric_keys_http_500 (d : ChoroplethData) (st : AppState) a g :
  cd_level d <> Some "town" -> has_column (cd_data d) "county" = true ->
  col_numeric (cd_data d) "county" = true ->
  FigConfig.area_info "taiwan" = Ok a -> get_county_gpd (bbox_of a) = Ok g -> g <> [] ->
  fst (dispatch town_type_json savefig (PostChoropleth d) st) =
    Raise (HTTPException 500 ("繪圖失敗: You are trying to merge on object and "
      +:+ col_dtype (cd_data d) "county"
      +:+ " columns for key 'COUNTYNAME'. If you wish to proceed you should use pd.concat")).
Proof.
  intros Hl Hc Hn Ha Hg Hne. unfold dispatch.
  erewrite (handle_plot_request_raise savefig _ _ (ValueError _)); [reflexivity|].
  by erewrite GraphTheorems.plot_choropleth_numeric_keys_run.
Qed.


(** The requests the code can serve: coordinates of one length, a
    positive bin count, sizes and colors that [scatter] accepts, alphas in
    [[0, 1]], registered colormaps, and a county-level choropleth whose
    records have a [county] column of names (not numbers) and a number in
    the value column of each record. *)
Definition valid_request (req : Request) : Prop :=
  match req with
  | GetHome | GetBoundary | PostCleanup => True
  | GetBoundaryWithSubsidy => is_Some town_type_json
  | PostChoropleth d =>
      cd_level d <> Some "town" /\ has_column (cd_data d) "county" = true /\
      col_numeric (cd_data d) "county" = false /\
      has_column (cd_data d) (cd_column d) = true /\
      (forall r, r ∈ cd_data d -> exists v, cell_get r (cd_column d) = CNum v) /\
      check_cmap (cd_cmap d) = Ok tt
  | PostDot d =>
      length (dp_x d) = length (dp_y d) /\ color_ok (dp_color d) = true /\
      check_alpha (dp_alpha d) = Ok tt
  | PostHist2d d =>
      length (hd_x d) = length (hd_y d) /\ (exists b, hd_bins d = Some b /\ (0 < b)%Z) /\
      check_cmap (hd_cmap d) = Ok tt /\ check_alpha (hd_alpha d) = Ok tt
  | PostBubble d =>
      length (bd_y d) = length (bd_x d) /\
      (length (bd_size d) = 1 \/ length (bd_size d) = length (bd_x d))%nat /\
      (length (bd_color d) <= 1 \/ length (bd_color d) = length (bd_x d))%nat /\
      forallb is_color_like (bd_color d) = true /\ check_alpha (bd_alpha d) = Ok tt
  end.

(** Every valid plot request is served on readable shapefiles and a total
    encoder; the town shapefile matters only to the subsidy map. *)
Lemma plot_request_served (req : Request) (st : AppState) :
  (forall b, exists g, get_county_gpd b = Ok g) ->
  (req = GetBoundaryWithSubsidy ->
   forall b, exists g, get_town_gpd b = Ok g /\ Forall (fun f => is_Some (TOWNNAME f)) g) ->
  (forall fig, exists img, savefig fig = Ok img) ->
  is_plot_request req = true -> valid_request req ->
  exists img, fst (dispatch town_type_json savefig req st) = Ok (StreamingResponse img "image/png").
Proof.
  intros Hread Htown Henc Hplot Hvalid. unfold dispatch.
  destruct req as [| | |d|d|d|d|]; try discriminate Hplot;
    apply handle_plot_request_ok; try exact Henc; intros s; cbn in Hvalid.
  - destruct (GraphTheorems.plot_boundary_run s Hread) as (fig & -> & _). eauto.
  - destruct Hvalid as [table ->].
    destruct (GraphTheorems.plot_subsidy_run table Hread (Htown eq_refl) s) as (fig & -> & _). eauto.
  - destruct Hvalid as (Hl & Hc & Hk & Hv & Hn & Hcm).
    edestruct (GraphTheorems.plot_choropleth_run (choropleth_params d)) as (fig & mn & mx & -> & _);
      [exact Hread| |by cbn; unfold right_on; rewrite decide_False by done; repeat constructor
      |by cbn; unfold right_on; rewrite decide_False by done; repeat constructor
      |exact Hv|exact Hn|exact Hcm|eauto].
    intros b. destruct (Hread b) as [g Hg]. exists g. cbn. unfold level_gpd, left_on.
    rewrite !decide_False by done. split; [exact Hg|].
    apply Forall_forall. intros f _. by eexists.
  - destruct Hvalid as (Hl & Hc & Ha).
    destruct (GraphTheorems.scatter_dot_ok (dp_x d) (dp_y d) (dp_size d) (dp_color d) (dp_alpha d)
                (eq_sym Hl) Hc Ha) as [art Hart].
    destruct (GraphTheorems.plot_dot_run (dot_params d) s art Hart Hread) as [fig ->]. eauto.
  - destruct Hvalid as (Hl & (b & Hbs & Hb) & Hcm & Ha).
    destruct (GraphTheorems.plot_hist2d_run (hist2d_params d) s b Hl Hbs Hb Hcm Ha Hread)
      as [fig ->]. eauto.
  - destruct Hvalid as (Hy & Hs & Hc & Hcl & Ha).
    destruct (GraphTheorems.scatter_bubble_ok (bd_x d) (bd_y d) (bd_size d) (bd_color d) (bd_alpha d)
                (Some "black") (Some 0.5%Q) Hy Hs Hc Hcl Ha) as [art Hart].
    destruct (GraphTheorems.plot_bubble_run (bubble_params d) s art Hart Hread) as [fig ->]. eauto.
Qed.


(** C5: the service serves every valid request: on readable shapefiles
    (town features carrying their [TOWNNAME]) and an encoder that encodes
    every figure, every valid plot request answers a PNG image, whatever
    the state. *)
Theorem valid_requests_served (req : Request) (st : AppState) :
  (forall b, exists g, get_county_gpd b = Ok g) ->
  (forall b, exists g, get_town_gpd b = Ok g /\ Forall (fun f => is_Some (TOWNNAME f)) g) ->
  (forall fig, exists img, savefig fig = Ok img) ->
  is_plot_request req = true -> valid_request req ->
  exists img, fst (dispatch town_type_json savefig req st) = Ok (StreamingResponse img "image/png").
Proof. intros Hread Htown. apply plot_request_served; [exact Hread|intros _; exact Htown]. Qed.

End Serving.
End Serving.


(** ** The service on the sample shapefiles *)

Module AppExamples.
Import App Graph AppTheorems Serving.

(** An encoder that always succeeds. *)
Definition encode (fig : Figure) : res unit := Ok tt.

(** The sample shapefiles are the geometry source of the examples. *)
#[local] Existing Instance Sample.source | 0.
#[local] Existing Instance SampleMpl.sample_mpl.

Lemma reachable_no_open_figure_witness :
  reachable None encode (serve_one None encode serving_start GetBoundary) /\
  open_figs (plt (serve_one None encode serving_start GetBoundary)) = ∅.
Proof.
  assert (Hr : reachable None encode (serve_one None encode serving_start GetBoundary))
    by (apply reach_step, reach_start).
  split; [exact Hr|]. apply (reachable_no_open_figure None encode _ Hr).
Defined.

Lemma serve_counter_mod_witness :
  Forall (fun r => is_plot_request r = true) [GetBoundary; GetBoundaryWithSubsidy] /\
  request_counter (serve None encode serving_start [GetBoundary; GetBoundaryWithSubsidy]) = 2%nat.
Proof.
  split; [repeat constructor|].
  rewrite (serve_counter_mod None encode); [reflexivity|repeat constructor|vm_compute; lia].
Defined.

(** Two points, their coordinates lists of different lengths. *)
Definition bad_dots : DotPlotData := mkDotPlotData [121.5; 120.3]%Q [25.0]%Q (Some 10%Q) (Some "red") (Some 1%Q).

Lemma dot_mismatch_http_500_witness :
  length (dp_x bad_dots) <> length (dp_y bad_dots) /\
  fst (dispatch None encode (PostDot bad_dots) serving_start) =
    Raise (HTTPException 500 "繪圖失敗: x and y must be the same size").
Proof.
  split; [intros Hc; vm_compute in Hc; discriminate Hc|].
  apply dot_mismatch_http_500; [intros Hc; vm_compute in Hc; discriminate Hc|].
  intros b; eexists; reflexivity.
Defined.

Lemma bubble_defaults_http_500_witness :
  length [121.5; 121.6]%Q <> 6%nat /\
  fst (dispatch None encode
         (PostBubble (mkBubbleData [121.5; 121.6]%Q [25.0; 25.1]%Q
                        BubbleData_size_default BubbleData_color_default (Some (7#10)))) serving_start) =
    Raise (HTTPException 500
      "繪圖失敗: s must be a scalar, or float array-like with the same size as x and y").
Proof.
  split; [intros Hc; vm_compute in Hc; discriminate Hc|].
  apply bubble_defaults_http_500; [reflexivity|intros Hc; vm_compute in Hc; discriminate Hc|].
  intros b; eexists; reflexivity.
Defined.

(** A county-level choropleth request with no records. *)
Definition empty_choropleth : ChoroplethData :=
  mkChoroplethData [] "value" (Some "county") (Some "GnBu") (Some "{x:,.0f}") (Some true).

Lemma choropleth_empty_data_http_500_witness :
  cd_data empty_choropleth = [] /\
  fst (dispatch None encode (PostChoropleth empty_choropleth) serving_start) =
    Raise (HTTPException 500 "繪圖失敗: 'county'").
Proof.
  split; [reflexivity|].
  apply choropleth_empty_data_http_500;
    [reflexivity|intros Hc; vm_compute in Hc; discriminate Hc|intros b; eexists; reflexivity].
Defined.


(** Counties sent as numbers. *)
Definition numeric_counties : ChoroplethData :=
  mkChoroplethData [[("county", CNum 63); ("value", CNum 10)]] "value" (Some "county")
    (Some "GnBu") (Some "{x:,.0f}") (Some true).

Lemma choropleth_numeric_keys_http_500_witness :
  col_numeric (cd_data numeric_counties) "county" = true /\
  fst (dispatch None encode (PostChoropleth numeric_counties) serving_start) =
    Raise (HTTPException 500 "繪圖失敗: You are trying to merge on object and int64 columns for key 'COUNTYNAME'. If you wish to proceed you should use pd.concat").
Proof.
  split; [reflexivity|].
  eapply choropleth_numeric_keys_http_500;
    [intros Hc; vm_compute in Hc; discriminate Hc|reflexivity|reflexivity|reflexivity|reflexivity
    |discriminate].
Defined.

(** The 2D histogram of [Hist2DData]'s example with [bins: null]. *)
Definition null_bins : Hist2DData :=
  mkHist2DData (hd_x Hist2DData_default) (hd_y Hist2DData_default) None (Some "GnBu") (Some (1#2))
    (Some 1%Z).


(** The dot-map request of [src/test/test_api.py]. *)
Definition test_dot : DotPlotData :=
  mkDotPlotData [121.5; 120.2; 120.7; 120.9; 120.3]%Q [25.0; 23.0; 24.2; 24.8; 22.6]%Q
    (Some 100%Q) (Some "red") (Some (8#10)).

Lemma valid_requests_served_witness :
  valid_request None (PostDot test_dot) /\
  exists img, fst (dispatch None encode (PostDot test_dot) serving_start) =
                Ok (StreamingResponse img "image/png").
Proof.
  assert (Hv : valid_request None (PostDot test_dot)) by (split_and!; reflexivity).
  split; [exact Hv|].
  apply (valid_requests_served None encode); [intros b; eexists; reflexivity| |
    intros fig; eexists; reflexivity|reflexivity|exact Hv].
  intros b. eexists. split; [reflexivity|].
  apply Forall_forall. intros f Hf. apply list_elem_of_filter in Hf as [_ Hf].
  elem_cases Hf ltac:(eexists; reflexivity).
Defined.

End AppExamples.
