(* ===== verification/Http.v ===== *)
(** * Http: the FastAPI layer of [src/app.py]

    Before a route of [app.py] runs, FastAPI and Starlette decide what the
    HTTP request reaches.  The router ([app = FastAPI(...)] with the
    [@app.get] / [@app.post] decorators, and the documentation routes
    FastAPI adds itself) matches the path and the method: a path no route
    has answers 404, a path whose routes take another method 405, and a
    path that matches only with or without its trailing slash is
    redirected (307).  A route with a body parameter ([data: ChoroplethData]
    and the like) has Pydantic validate the JSON body against the model:
    a missing field takes its [Field] default, [null] in an [Optional]
    field is [None], and a body that does not fit answers 422.  Then the
    route runs ([App.dispatch]); an [HTTPException] becomes its status, any
    other exception 500.

    JSON values are those [json.loads] returns ([JSON]).  How Pydantic
    coerces one scalar to a field's type differs between its versions
    (v1 coerces more; [Union[int, float]] truncates floats in v1), so the
    scalar coercions are the class [PyCoerce], and [PyCoerceLaws] states
    only what every version does: a value of the field's own JSON type is
    accepted as is, [null], arrays and objects are refused by the scalar
    types.  The same class gives the pandas cell of a record's value, with
    laws for strings, numbers and [null].  [strict_coerce] is an instance,
    used by the examples.

    The theorems show that every response has one of the statuses 200,
    307, 404, 405, 422 or 500, that a request answered 307, 404, 405 or 422
    leaves the service untouched, that the service invariant holds across
    any HTTP request.  The port [uvicorn.run] serves on is [uvicorn_port]. *)

From Stdlib Require Import QArith ZArith Ascii String Lia.
From stdpp Require Import base list option gmap strings.
From S2P Require Import Prelude Config GeoData Pyplot Graph App.

Local Open Scope string_scope.
Local Set Warnings "-register-all".

Module Http.
Import App.

(** ** JSON values *)

(** A value [json.loads] returns: [int] and [float] are distinct, an
    object is a dict (its keys distinct). *)
Inductive JSON :=
  | JNull
  | JBool (b : bool)
  | JInt (z : Z)
  | JFloat (q : Q)
  | JStr (s : string)
  | JArr (l : list JSON)
  | JObj (fields : list (string * JSON)).

(** ** Pydantic's coercions *)

(** The scalar coercions of Pydantic's validators, and pandas' cell for a
    value of a record ([pd.DataFrame] of the [data] list). *)
Class PyCoerce := {
  py_float : JSON -> option Q;
  py_int : JSON -> option Z;
  py_number : JSON -> option Q;   (** [Union[int, float]] *)
  py_str : JSON -> option string;
  py_bool : JSON -> option bool;
  py_dict : JSON -> option (list (string * JSON));
  py_cell : JSON -> Cell;
}.

(** What every Pydantic version does. *)
Class PyCoerceLaws `{PyCoerce} : Prop := {
  py_float_int z : py_float (JInt z) = Some (inject_Z z);
  py_float_float q : py_float (JFloat q) = Some q;
  py_int_int z : py_int (JInt z) = Some z;
  py_number_int z : py_number (JInt z) = Some (inject_Z z);
  py_number_integral z : py_number (JFloat (inject_Z z)) = Some (inject_Z z);
  py_str_str s : py_str (JStr s) = Some s;
  py_bool_bool b : py_bool (JBool b) = Some b;
  py_dict_obj f : py_dict (JObj f) = Some f;
  py_cell_str s : py_cell (JStr s) = CStr s;
  py_cell_int z : py_cell (JInt z) = CNum (inject_Z z);
  py_cell_float q : py_cell (JFloat q) = CNum q;
  py_cell_null : py_cell JNull = CNull;
  py_scalar_refuses j :
    match j with JNull | JArr _ | JObj _ => True | _ => False end ->
    py_float j = None /\ py_int j = None /\ py_number j = None /\ py_str j = None /\
    py_bool j = None;
  py_dict_refuses j :
    match j with JNull | JBool _ | JInt _ | JFloat _ | JStr _ => True | _ => False end ->
    py_dict j = None;
}.

(** Coercion that accepts only a value of the field's own JSON type (and
    an [int] for a [float]). *)
#[export] Instance strict_coerce : PyCoerce := {|
  py_float j := match j with JInt z => Some (inject_Z z) | JFloat q => Some q | _ => None end;
  py_int j := match j with JInt z => Some z | _ => None end;
  py_number j := match j with JInt z => Some (inject_Z z) | JFloat q => Some q | _ => None end;
  py_str j := match j with JStr s => Some s | _ => None end;
  py_bool j := match j with JBool b => Some b | _ => None end;
  py_dict j := match j with JObj f => Some f | _ => None end;
  py_cell j := match j with
               | JStr s => CStr s | JInt z => CNum (inject_Z z) | JFloat q => CNum q
               | _ => CNull
               end;
|}.

#[export] Instance strict_coerce_laws : PyCoerceLaws.
Proof. split; try reflexivity; intros []; simpl; tauto. Qed.

Section Validation.
Context `{PC : PyCoerce}.

(** A field of the body: its [Field] default when the key is missing. *)
Definition field {A} (dec : JSON -> option A) (dflt : A) (k : string)
    (o : list (string * JSON)) : option A :=
  match assoc k o with None => Some dflt | Some j => dec j end.

(** [Optional[T]]: [null] is [None]. *)
Definition optional {A} (dec : JSON -> option A) (j : JSON) : option (option A) :=
  match j with JNull => Some None | _ => Some <$> dec j end.

(** [List[T]]. *)
Definition list_of {A} (dec : JSON -> option A) (j : JSON) : option (list A) :=
  match j with JArr l => mapM dec l | _ => None end.

(** A [dict] of the [data] list, as the record of the frame. *)
Definition record_of (j : JSON) : option Record_ :=
  (fun f : list (string * JSON) => (fun kv : string * JSON => (kv.1, py_cell kv.2)) <$> f)
    <$> py_dict j.

(** Validating the body as [ChoroplethData]. *)
Definition validate_choropleth (j : JSON) : option ChoroplethData :=
  o ← py_dict j;
  data ← field (list_of record_of) (cd_data ChoroplethData_default) "data" o;
  column ← field py_str (cd_column ChoroplethData_default) "column" o;
  level ← field (optional py_str) (cd_level ChoroplethData_default) "level" o;
  cmap ← field (optional py_str) (cd_cmap ChoroplethData_default) "cmap" o;
  fmt ← field (optional py_str) (cd_colorbar_format ChoroplethData_default) "colorbar_format" o;
  tick ← field (optional py_bool) (cd_colorbar_tick_visible ChoroplethData_default)
           "colorbar_tick_visible" o;
  Some (mkChoroplethData data column level cmap fmt tick).

(** Validating the body as [DotPlotData]. *)
Definition validate_dot (j : JSON) : option DotPlotData :=
  o ← py_dict j;
  x ← field (list_of py_float) (dp_x DotPlotData_default) "x" o;
  y ← field (list_of py_float) (dp_y DotPlotData_default) "y" o;
  size ← field (optional py_number) (dp_size DotPlotData_default) "size" o;
  color ← field (optional py_str) (dp_color DotPlotData_default) "color" o;
  alpha ← field (optional py_float) (dp_alpha DotPlotData_default) "alpha" o;
  Some (mkDotPlotData x y size color alpha).

(** Validating the body as [Hist2DData]. *)
Definition validate_hist2d (j : JSON) : option Hist2DData :=
  o ← py_dict j;
  x ← field (list_of py_float) (hd_x Hist2DData_default) "x" o;
  y ← field (list_of py_float) (hd_y Hist2DData_default) "y" o;
  bins ← field (optional py_int) (hd_bins Hist2DData_default) "bins" o;
  cmap ← field (optional py_str) (hd_cmap Hist2DData_default) "cmap" o;
  alpha ← field (optional py_float) (hd_alpha Hist2DData_default) "alpha" o;
  cmin ← field (optional py_int) (hd_cmin Hist2DData_default) "cmin" o;
  Some (mkHist2DData x y bins cmap alpha cmin).

(** Validating the body as [BubbleData]. *)
Definition validate_bubble (j : JSON) : option BubbleData :=
  o ← py_dict j;
  x ← field (list_of py_float) (bd_x BubbleData_default) "x" o;
  y ← field (list_of py_float) (bd_y BubbleData_default) "y" o;
  size ← field (list_of py_number) (bd_size BubbleData_default) "size" o;
  color ← field (list_of py_str) (bd_color BubbleData_default) "color" o;
  alpha ← field (optional py_float) (bd_alpha BubbleData_default) "alpha" o;
  Some (mkBubbleData x y size color alpha).

End Validation.

(** ** Routing *)

(** [app = FastAPI(title=..., description=..., lifespan=lifespan)]: the
    title and description go into the OpenAPI schema and the pages. *)
Record FastAPIApp := mkFastAPI { app_title : string; app_description : string }.

Definition app : FastAPIApp := mkFastAPI "地理圖表API" "使用FastAPI提供地理資料視覺化服務".

(** [uvicorn.run(app, host="0.0.0.0", port=5011)]: the port the service
    listens on. *)
Definition uvicorn_port : Z := 5011.

Inductive Route :=
  | ROpenAPI | RDocs | RDocsRedirect | RRedoc
  | RHome | RBoundary | RBoundaryWithSubsidy
  | RChoropleth | RDot | RHist2d | RBubble | RCleanup.

(** The router's routes in order: the documentation routes FastAPI adds
    when [app] is made, then the routes the decorators of [app.py]
    register, each with its method and path. *)
Definition routes : list (string * string * Route) := [
  ("GET", "/openapi.json", ROpenAPI);
  ("GET", "/docs", RDocs);
  ("GET", "/docs/oauth2-redirect", RDocsRedirect);
  ("GET", "/redoc", RRedoc);
  ("GET", "/", RHome);
  ("GET", "/boundary", RBoundary);
  ("GET", "/boundary_with_subsidy", RBoundaryWithSubsidy);
  ("POST", "/choropleth", RChoropleth);
  ("POST", "/dot", RDot);
  ("POST", "/hist2d", RHist2d);
  ("POST", "/bubble", RBubble);
  ("POST", "/cleanup", RCleanup)
].

(** A route registered for GET also answers HEAD. *)
Definition method_allows (route_method meth : string) : bool :=
  bool_decide (route_method = meth) ||
  (bool_decide (route_method = "GET") && bool_decide (meth = "HEAD")).

Definition path_has_route (p : string) : bool :=
  existsb (fun r => bool_decide (r.1.2 = p)) routes.

Fixpoint str_rev (s : string) : string :=
  match s with EmptyString => EmptyString | String c s' => str_rev s' +:+ String c EmptyString end.

Fixpoint drop_slashes (s : string) : string :=
  match s with
  | String c s' => if Ascii.eqb c "/"%char then drop_slashes s' else s
  | EmptyString => EmptyString
  end.

Definition ends_with_slash (s : string) : bool :=
  match str_rev s with String c _ => Ascii.eqb c "/"%char | EmptyString => false end.

(** The other spelling [redirect_slashes] tries: [path.rstrip("/")] or
    [path + "/"]. *)
Definition slash_variant (p : string) : string :=
  if ends_with_slash p then str_rev (drop_slashes (str_rev p)) else p +:+ "/".

Inductive RouteMatch := Full (r : Route) | Partial | Redirect (path : string) | NoMatch.

(** Starlette's [Router]: the first route matching path and method; else a
    route with the path (405); else, for a path other than ["/"], the
    slash variant when some route has it (307); else 404. *)
Definition resolve (meth path : string) : RouteMatch :=
  match find (fun r => bool_decide (r.1.2 = path) && method_allows r.1.1 meth) routes with
  | Some r => Full r.2
  | None =>
      if path_has_route path then Partial
      else if bool_decide (path = "/") then NoMatch
      else if path_has_route (slash_variant path) then Redirect (slash_variant path)
      else NoMatch
  end.

(** ** Handling an HTTP request *)

Inductive HttpResponse (Image : Type) :=
  | Routed (r : Response Image)
  | OpenAPISchema (title description : string)
  | DocsPage (title : string)
  | Redirected (location : string)
  | ValidationFailed
  | HttpError (status : Z) (detail : string).
Arguments Routed {Image} r.
Arguments OpenAPISchema {Image} title description.
Arguments DocsPage {Image} title.
Arguments Redirected {Image} location.
Arguments ValidationFailed {Image}.
Arguments HttpError {Image} status detail.

Definition http_status {Image} (r : HttpResponse Image) : Z :=
  match r with
  | Routed _ | OpenAPISchema _ _ | DocsPage _ => 200
  | Redirected _ => 307
  | ValidationFailed => 422
  | HttpError c _ => c
  end.

Section Handler.
Context `{GS : GeometrySource} `{MP : Mpl} (town_type_json : option (gmap string string)).
Context {Image : Type} (savefig : Figure -> res Image).
Context `{PC : PyCoerce}.

(** The endpoint on its validated request: FastAPI answers a raised
    [HTTPException] with its status and detail, Starlette any other
    exception with 500. *)
Definition run_endpoint (req : Request) : AppM (HttpResponse Image) :=
  try_except (r <- dispatch town_type_json savefig req ;; ret (Routed r))
    (fun e => ret (match e with
                   | HTTPException c d => HttpError c d
                   | _ => HttpError 500 "Internal Server Error"
                   end)).

(** A route with a body parameter: the body must be JSON that validates;
    the endpoint does not run otherwise. *)
Definition with_body {A} (validate : JSON -> option A) (mk : A -> Request)
    (body : option JSON) : AppM (HttpResponse Image) :=
  match body ≫= validate with
  | Some d => run_endpoint (mk d)
  | None => ret ValidationFailed
  end.

Definition handle_route (r : Route) (body : option JSON) : AppM (HttpResponse Image) :=
  match r with
  | ROpenAPI => ret (OpenAPISchema (app_title app) (app_description app))
  | RDocs => ret (DocsPage (app_title app +:+ " - Swagger UI"))
  | RDocsRedirect => ret (DocsPage "Swagger UI: OAuth2 Redirect")
  | RRedoc => ret (DocsPage (app_title app +:+ " - ReDoc"))
  | RHome => run_endpoint GetHome
  | RBoundary => run_endpoint GetBoundary
  | RBoundaryWithSubsidy => run_endpoint GetBoundaryWithSubsidy
  | RChoropleth => with_body validate_choropleth PostChoropleth body
  | RDot => with_body validate_dot PostDot body
  | RHist2d => with_body validate_hist2d PostHist2d body
  | RBubble => with_body validate_bubble PostBubble body
  | RCleanup => run_endpoint PostCleanup
  end.

(** An HTTP request: method, path and the body ([None] when there is
    none or it is not JSON). *)
Definition http_handle (meth path : string) (body : option JSON) : AppM (HttpResponse Image) :=
  match resolve meth path with
  | Full r => handle_route r body
  | Partial => ret (HttpError 405 "Method Not Allowed")
  | Redirect p => ret (Redirected p)
  | NoMatch => ret (HttpError 404 "Not Found")
  end.

End Handler.

End Http.

(** ** Theorems on the HTTP layer *)

Module HttpTheorems.
Import App AppTheorems Serving Http.

(** *** Validation *)

Lemma field_hit {A} (dec : JSON -> option A) (dflt : A) (k : string) o j :
  assoc k o = Some j -> field dec dflt k o = dec j.
Proof. unfold field. by intros ->. Qed.

Lemma field_miss {A} (dec : JSON -> option A) (dflt : A) (k : string) o :
  assoc k o = None -> field dec dflt k o = Some dflt.
Proof. unfold field. by intros ->. Qed.

(** The fields of a JSON object whose keys are spelled out. *)
Ltac field_hits := repeat (erewrite field_hit by reflexivity).

Section Validation.
Context `{PC : PyCoerce} {PCL : PyCoerceLaws}.

Lemma list_of_fmap {A} (dec : JSON -> option A) (enc : A -> JSON) (l : list A) :
  Forall (fun x => dec (enc x) = Some x) l -> list_of dec (JArr (enc <$> l)) = Some l.
Proof. apply mapM_fmap_Forall_Some. Qed.

Lemma floats_json (l : list Q) : list_of py_float (JArr (JFloat <$> l)) = Some l.
Proof. apply list_of_fmap, Forall_forall. intros x _. apply py_float_float. Qed.

Lemma ints_json (l : list Z) :
  list_of py_number (JArr (JInt <$> l)) = Some (inject_Z <$> l).
Proof.
  unfold list_of. induction l as [|z l IH]; [reflexivity|]. cbn [fmap list_fmap mapM].
  rewrite py_number_int, IH. reflexivity.
Qed.

Lemma strs_json (l : list string) : list_of py_str (JArr (JStr <$> l)) = Some l.
Proof. apply list_of_fmap, Forall_forall. intros x _. apply py_str_str. Qed.

End Validation.

(** Validating a body written out as JSON, with the laws of the
    coercions. *)
Ltac json_laws :=
  repeat first
    [ rewrite py_dict_obj
    | progress cbn [mbind option_bind]
    | erewrite field_hit by reflexivity
    | rewrite field_miss by reflexivity
    | rewrite floats_json | rewrite strs_json | rewrite ints_json
    | rewrite py_number_int | rewrite py_int_int | rewrite py_str_str | rewrite py_bool_bool
    | rewrite py_float_float | rewrite py_cell_str | rewrite py_cell_int | rewrite py_cell_float
    | progress unfold record_of
    | progress cbn [optional list_of mapM record_of fmap option_fmap option_map list_fmap fst snd] ].

(** *** The handler *)

Section Handler.
Context `{GS : GeometrySource} `{MP : Mpl} (town_type_json : option (gmap string string)).
Context {Image : Type} (savefig : Figure -> res Image).
Context `{PC : PyCoerce}.

(** The routes raise only the [HTTPException(500)] of
    [handle_plot_request]. *)
Lemma dispatch_raises_500 (req : Request) (st : AppState) (e : PyExn) :
  fst (dispatch town_type_json savefig req st) = Raise e -> exists d, e = HTTPException 500 d.
Proof.
  intros He. destruct (is_plot_request req) eqn:Hp.
  - destruct (plot_request_handler town_type_json savefig req Hp) as (f & _ & Hd).
    rewrite Hd in He.
    destruct (handle_plot_request_result savefig f st) as [[img Hi]|[e' Hi]];
      rewrite Hi in He; [discriminate He|]. injection He as <-. eauto.
  - destruct req; try discriminate Hp; discriminate He.
Qed.

(** An endpoint that runs answers 200 or 500 and leaves the state of
    serving its request. *)
Lemma run_endpoint_run (req : Request) (st : AppState) :
  exists resp, run_endpoint town_type_json savefig req st =
                 (Ok resp, serve_one town_type_json savefig st req) /\
    (http_status resp = 200 \/ http_status resp = 500)%Z.
Proof.
  unfold run_endpoint, try_except, bind, ret, serve_one.
  destruct (dispatch town_type_json savefig req st) as [[r|e] st'] eqn:E.
  - eexists; split; [reflexivity|left; reflexivity].
  - destruct (dispatch_raises_500 req st e) as [d ->]; [by rewrite E|].
    eexists; split; [reflexivity|right; reflexivity].
Qed.

(** The outcomes of a request: an answer without touching the state, or
    an endpoint run. *)
Definition untouched (st : AppState) (r : res (HttpResponse Image) * AppState) : Prop :=
  exists resp, r = (Ok resp, st) /\ http_status resp ∈ [200; 307; 404; 405; 422]%Z.

Definition endpoint_ran (st : AppState) (r : res (HttpResponse Image) * AppState) : Prop :=
  exists req resp, r = (Ok resp, serve_one town_type_json savefig st req) /\
    (http_status resp = 200 \/ http_status resp = 500)%Z.

Lemma run_endpoint_ran (req : Request) (st : AppState) :
  endpoint_ran st (run_endpoint town_type_json savefig req st).
Proof. destruct (run_endpoint_run req st) as (resp & -> & Hs). by exists req, resp. Qed.

Lemma with_body_cases {A} (validate : JSON -> option A) (mk : A -> Request) body st :
  untouched st (with_body town_type_json savefig validate mk body st) \/
  endpoint_ran st (with_body town_type_json savefig validate mk body st).
Proof.
  unfold with_body. destruct (body ≫= validate); [right; apply run_endpoint_ran|].
  left. eexists; split; [reflexivity|]. cbn. set_solver.
Qed.

Lemma http_handle_cases (meth path : string) (body : option JSON) (st : AppState) :
  untouched st (http_handle town_type_json savefig meth path body st) \/
  endpoint_ran st (http_handle town_type_json savefig meth path body st).
Proof.
  unfold http_handle. destruct (resolve meth path) as [r| |p|];
    [destruct r; try apply with_body_cases; try (right; apply run_endpoint_ran)|..];
    left; eexists; (split; [reflexivity|]); cbn; set_solver.
Qed.

(** The service invariant holds across any HTTP request. *)
Lemma http_handle_inv (meth path : string) (body : option JSON) (st : AppState) :
  service_inv st -> service_inv (snd (http_handle town_type_json savefig meth path body st)).
Proof.
  destruct (http_handle_cases meth path body st) as [(resp & -> & _)|(req & resp & -> & _)];
    [done|apply serve_one_inv].
Qed.

(** C6: every HTTP request gets a response, never an exception, whatever
    its method, path and body: its status is 200, 307, 404, 405, 422 or 500;
    a request answered 307, 404, 405 or 422 (a redirect, an unknown path,
    a wrong method, a body that does not validate) draws nothing and does
    not count; and the service invariant (no figure open, the counter
    below [CLEANUP_INTERVAL]) holds after every request that found it. *)
Theorem http_handle_status (meth path : string) (body : option JSON) (st : AppState) :
  exists resp, fst (http_handle town_type_json savefig meth path body st) = Ok resp /\
    http_status resp ∈ [200; 307; 404; 405; 422; 500]%Z /\
    (http_status resp ∈ [307; 404; 405; 422]%Z ->
     snd (http_handle town_type_json savefig meth path body st) = st) /\
    (service_inv st -> service_inv (snd (http_handle town_type_json savefig meth path body st))).
Proof.
  destruct (http_handle_cases meth path body st) as [(resp & -> & Hs)|(req & resp & -> & Hs)];
    exists resp; cbn [fst snd]; split_and!; try done.
  - set_solver.
  - destruct Hs as [-> | ->]; set_solver.
  - destruct Hs as [-> | ->]; intros Hc; apply list_elem_of_In in Hc; simpl in Hc;
      destruct Hc as [Hc|[Hc|[Hc|[Hc|[]]]]]; discriminate Hc.
  - apply serve_one_inv.
Qed.

End Handler.

End HttpTheorems.

(** ** The HTTP layer on the sample shapefiles *)

Module HttpExamples.
Import App AppTheorems Serving Http HttpTheorems AppExamples.

#[local] Existing Instance Sample.source | 0.
#[local] Existing Instance SampleMpl.sample_mpl.

Lemma http_handle_status_witness :
  exists resp, fst (http_handle None encode "PUT" "/dot/" None serving_start) = Ok resp /\
    http_status resp ∈ [200; 307; 404; 405; 422; 500]%Z.
Proof.
  destruct (http_handle_status None encode "PUT" "/dot/" None serving_start) as (resp & H & Hs & _).
  eauto.
Defined.

(** [{"bins": null}] is a valid [Hist2DData] (the field is [Optional]):
    the boundary map is drawn, [hist2d] compares [None] with an integer
    and raises [TypeError], and the request answers 500 instead of being
    refused before any drawing. *)
Example hist2d_null_bins_500 :
  fst (http_handle None encode "POST" "/hist2d" (Some (JObj [("bins", JNull)])) serving_start) =
    Ok (HttpError 500 ("繪圖失敗: " +:+ "'<' not supported between instances of 'NoneType' and 'int'")).
Proof. vm_compute. reflexivity. Qed.

End HttpExamples.
