(* ===== verification/ExampleUsage.v ===== *)
(** * ExampleUsage: the script [src/example_usage.py]

    [main()] makes a [Graph], builds the sample frame of six counties
    with [pd.DataFrame] from a dict of columns, then draws a choropleth, a
    2D histogram, a dot map and a bubble map, one after the other, keeping
    none of the figures it gets back.  The prints are not modelled; the
    coordinates [np.random.uniform(119, 122, 1000)] and
    [np.random.uniform(22, 25, 1000)] are the parameters [xs] and [ys].

    The theorems show that on a readable county shapefile the script runs
    to its end and leaves the four figures open, and that three of its
    six counties are spelled with 台 where the MOI shapefile writes 臺, so
    they are never filled. *)

From Stdlib Require Import QArith String.
From stdpp Require Import base list sets fin_sets gmap strings.
From S2P Require Import Prelude Config GeoData Pyplot Layout ColorScale Graph.

Local Open Scope py_scope.
Local Open Scope string_scope.

Module ExampleUsage.
Import Params Graph Panels.

(** [sample_data]'s dict of columns. *)
Definition sample_columns : list (string * list Cell) := [
  ("county", CStr <$> ["台北市"; "新北市"; "桃園市"; "台中市"; "台南市"; "高雄市"]);
  ("population", CNum <$> [2600000; 4000000; 2250000; 2800000; 1880000; 2770000]%Q)
].

Definition choropleth_params (sample_data : DataFrame) : ChoroplethParams :=
  mkChoroplethParams sample_data "population" (Some "county") (Some "GnBu") (Some "{x:,.0f}")
    (Some true).

Definition hist2d_params (x_coords y_coords : list Q) : Hist2DParams :=
  mkHist2DParams x_coords y_coords (Some 50%Z) (Some "Reds") (Some (7#10)) (Some 2%Z).

Definition x_points : list Q := [121.5; 121.0; 120.7; 120.2; 120.5; 120.3]%Q.
Definition y_points : list Q := [25.0; 24.8; 24.2; 23.5; 22.8; 22.6]%Q.

Definition dot_params : DotParams := mkDotParams x_points y_points (Some 50%Q) (Some "blue") (Some (8#10)).

Definition bubble_sizes : list Q := [100; 200; 150; 300; 250; 180]%Q.
Definition bubble_colors : list string := ["red"; "green"; "blue"; "orange"; "purple"; "yellow"].

Definition bubble_params : BubbleParams :=
  BubbleParams_new x_points y_points (Some bubble_sizes) (Some bubble_colors) (Some (6#10)) 1.

Section Main.
Context `{GS : GeometrySource} `{MP : Mpl}.

(** [main()]: [graph = Graph()], the frame, then the four renderers; the
    figures they return are dropped, never closed. *)
Definition main (x_coords y_coords : list Q) : Plt unit :=
  graph_init ;;
  sample_data <- lift (frame_of_columns sample_columns) ;;
  _ <- plot_choropleth (choropleth_params sample_data) ;;
  _ <- plot_hist2d (hist2d_params x_coords y_coords) ;;
  _ <- plot_dot dot_params ;;
  _ <- plot_bubble bubble_params ;;
  ret tt.

End Main.

End ExampleUsage.

(** ** Theorems on the script *)

Module ExampleTheorems.
Import Params Graph Panels GraphTheorems ExampleUsage.

(** The sample frame: six records with a [county] of names and a
    [population] number. *)
Lemma sample_frame :
  exists df, frame_of_columns sample_columns = Ok df /\
    has_column df "county" = true /\ col_numeric df "county" = false /\
    has_column df "population" = true /\
    forall r, r ∈ df -> exists v, cell_get r "population" = CNum v.
Proof.
  eexists. split; [reflexivity|]. split_and!; [reflexivity..|].
  intros r Hr. elem_cases Hr ltac:(eexists; reflexivity).
Qed.

Lemma graph_init_run (s : PltState) :
  graph_init s =
    (Ok tt, mkPlt (open_figs s) (rc s) ((ttflist s ++ [Font.Urbanist]) ++ [Font.NotoSerifTC])).
Proof. reflexivity. Qed.

Section Source.
Context `{GS : GeometrySource} `{MPL : MplLaws}.
Hypothesis Hread : forall b, exists g, get_county_gpd b = Ok g.

(** The county level of a choropleth meets the join's key columns on
    every readable county shapefile. *)
Lemma county_level_keys :
  forall b, exists g, level_gpd (Some "county") b = Ok g /\ Forall (has_keys (left_on (Some "county"))) g.
Proof.
  intros b. destruct (Hread b) as [g Hg]. exists g. split; [exact Hg|].
  apply Forall_forall. intros f _. by eexists.
Qed.

(** C27: on a readable county shapefile and coordinate lists of one
    length, the script runs to its end and leaves open the four figures
    it drew: nothing closes them. *)
Theorem main_leaves_four_figures_open (x_coords y_coords : list Q) (s : PltState) :
  length x_coords = length y_coords ->
  fst (main x_coords y_coords s) = Ok tt /\
  size (open_figs (snd (main x_coords y_coords s))) = (size (open_figs s) + 4)%nat.
Proof.
  intros Hl. destruct sample_frame as (df & Hdf & Hc & Hk & Hp & Hn).
  set (s1 := mkPlt (open_figs s) (rc s) ((ttflist s ++ [Font.Urbanist]) ++ [Font.NotoSerifTC])).
  edestruct (plot_choropleth_run (choropleth_params df)) as (fig1 & mn & mx & H1 & _);
    [exact Hread|exact county_level_keys|by repeat constructor|by repeat constructor
    |exact Hp|exact Hn|by apply builtin_cmap|].
  destruct (plot_hist2d_run (hist2d_params x_coords y_coords) (opened s1) 50) as [fig2 H2];
    [exact Hl|reflexivity|reflexivity|by apply builtin_cmap|reflexivity|exact Hread|].
  destruct (scatter_dot_ok x_points y_points (Some 50%Q) (Some "blue") (Some (8#10)))
    as [art3 Hart3]; [reflexivity|by apply named_color|reflexivity|].
  destruct (plot_dot_run dot_params (opened (opened s1)) art3 Hart3 Hread) as [fig3 H3].
  destruct (scatter_bubble_ok x_points y_points bubble_sizes bubble_colors (Some (6#10))
              (Some "black") (Some 0.5%Q)) as [art4 Hart4];
    [reflexivity|right; reflexivity|right; reflexivity|by apply named_colors|reflexivity|].
  destruct (plot_bubble_run bubble_params (opened (opened (opened s1))) art4 Hart4 Hread)
    as [fig4 H4].
  unfold main, bind, lift, ret. rewrite graph_init_run. fold s1.
  cbv beta iota. rewrite Hdf. cbv beta iota. rewrite H1. cbv beta iota.
  rewrite H2. cbv beta iota. rewrite H3. cbv beta iota. rewrite H4. cbv beta iota.
  split; [reflexivity|]. cbn [snd]. rewrite !opened_size. simpl. lia.
Qed.

End Source.

(** The script's frame spells Taipei, Taichung and Tainan with 台
    (台北市, 台中市, 台南市): on any county frame, no feature named the
    MOI way (臺北市, 臺中市, 臺南市) is matched by the join, so these
    three counties are never filled. *)
Lemma sample_data_misses_tai_spelling (gdf : GeoDataFrame) :
  exists df m, frame_of_columns sample_columns = Ok df /\
    merge_gdf_and_df gdf df ["COUNTYNAME"] ["county"] = Ok m /\
    forall f r, (f, r) ∈ m -> COUNTYNAME f ∉ ["臺北市"; "臺中市"; "臺南市"].
Proof.
  eexists _, (join_pairs ["COUNTYNAME"] ["county"] gdf _). split; [reflexivity|]. split.
  - apply merge_ok; [done|by repeat constructor|by repeat constructor|].
    apply Forall_forall. intros f _. by eexists.
  - intros f r Hfr. apply elem_of_join_pairs in Hfr as (_ & Hr & Hm).
    unfold pair_matches, row_matches in Hm. simpl in Hm.
    rewrite andb_true_r, key_match_true in Hm.
    elem_cases_vm Hr ltac:(simpl in Hm; injection Hm as Hm; rewrite <- Hm;
                        rewrite list_elem_of_In; simpl;
                        intros [Hc|[Hc|[Hc|[]]]]; discriminate Hc).
Qed.

Lemma main_leaves_four_figures_open_witness :
  length [120.5; 121]%Q = length [23.5; 24]%Q /\
  fst (@main Sample.source SampleMpl.sample_mpl [120.5; 121]%Q [23.5; 24]%Q GraphExamples.s0) = Ok tt.
Proof.
  assert (Hl : length [120.5; 121]%Q = length [23.5; 24]%Q) by reflexivity.
  split; [exact Hl|].
  destruct (@main_leaves_four_figures_open Sample.source SampleMpl.sample_mpl SampleMpl.sample_mpl_laws
              ltac:(intros b; eexists; reflexivity)
              [120.5; 121]%Q [23.5; 24]%Q GraphExamples.s0 Hl) as [H _].
  exact H.
Defined.

End ExampleTheorems.
