(* ===== verification/Tests.v ===== *)
(** * Tests: the drivers under [src/test] as clients of the service

    [src/test/memory_test.py] ([MemoryMonitor.test_endpoints]) sends, in
    each of [iterations] rounds, five requests (the boundary map, a
    choropleth, a dot map, a 2D histogram and a bubble map) and, after
    every tenth round, [POST /cleanup]; [src/test/test_api.py]
    ([test_api_endpoints]) sends the home page and the five plot routes
    once.  A driver is modelled as an HTTP client of [Http.http_handle]:
    each request, with its method, path and [json=...] body, goes to the
    port of the driver's [base_url]; on the port the service listens on
    it is routed, validated and served, and the driver logs its endpoint
    and the status code it reads; on another port the connection is
    refused, the driver catches the error and logs no status.  The memory
    readings (psutil), the prints, the sleeps, the PNG files written and
    the JSON report are not modelled; other connection failures (timeouts,
    a service not yet started) do not arise in the model.

    The count-up loop [for i in range(iterations)] is defined by
    well-founded recursion on [iterations - i] (Equations); the theorems
    show that it stops after exactly [iterations] rounds; that on readable
    shapefiles every request of the memory test answers 200, whatever
    Pydantic and matplotlib versions validate and draw it, and that no
    figure stays open; and that [test_api.py], aimed at port 5010, never
    reaches the service on 5011. *)

From Stdlib Require Import QArith ZArith String Lia.
From Equations Require Import Equations.
From stdpp Require Import base list gmap strings.
From S2P Require Import Prelude Config GeoData Pyplot Graph App Http.

Local Open Scope string_scope.

Module Driver.
Import App Http.

(** A request of a driver: [(method, endpoint, data)], the data sent as
    the JSON body. *)
Record Endpoint := mkEndpoint {
  ep_method : string;
  ep_path : string;
  ep_body : option JSON;
}.

(** Python's [l * n] on lists. *)
Definition list_mul {A} (l : list A) (n : nat) : list A := concat (replicate n l).

(** [test_data] of [memory_test.py] as [requests] sends it ([json=data]). *)
Definition mt_choropleth_body : JSON :=
  JObj [("data", JArr [JObj [("county", JStr "臺北市"); ("value", JInt 100)];
                       JObj [("county", JStr "新北市"); ("value", JInt 200)];
                       JObj [("county", JStr "桃園市"); ("value", JInt 150)]]);
        ("column", JStr "value"); ("level", JStr "county")].

Definition mt_dot_body : JSON :=
  JObj [("x", JArr (JFloat <$> [121.5; 121.6; 121.7]%Q)); ("y", JArr (JFloat <$> [25.0; 25.1; 25.2]%Q));
        ("size", JInt 10); ("color", JStr "red")].

Definition mt_hist2d_body : JSON :=
  JObj [("x", JArr (JFloat <$> list_mul [121.5; 121.6; 121.7; 121.8]%Q 25));
        ("y", JArr (JFloat <$> list_mul [25.0; 25.1; 25.2; 25.3]%Q 25));
        ("bins", JInt 50)].

Definition mt_bubble_body : JSON :=
  JObj [("x", JArr (JFloat <$> [121.5; 121.6; 121.7]%Q)); ("y", JArr (JFloat <$> [25.0; 25.1; 25.2]%Q));
        ("size", JArr (JInt <$> [10; 20; 15]%Z)); ("color", JArr (JStr <$> ["red"; "blue"; "green"]))].

(** [endpoints] of [memory_test.py]: a GET sends no body. *)
Definition endpoints : list Endpoint := [
  mkEndpoint "GET" "/boundary" None;
  mkEndpoint "POST" "/choropleth" (Some mt_choropleth_body);
  mkEndpoint "POST" "/dot" (Some mt_dot_body);
  mkEndpoint "POST" "/hist2d" (Some mt_hist2d_body);
  mkEndpoint "POST" "/bubble" (Some mt_bubble_body)
].

(** [requests.post(f"{self.base_url}/cleanup")]: no body. *)
Definition cleanup_endpoint : Endpoint := mkEndpoint "POST" "/cleanup" None.

(** The requests of round [i]: the five endpoints, then [POST /cleanup]
    when [(i + 1) % 10 == 0]. *)
Definition iteration_endpoints (i : nat) : list Endpoint :=
  (endpoints ++ (if Nat.eqb ((i + 1) mod 10) 0 then [cleanup_endpoint] else []))%list.

(** The requests of [for i in range(iterations)], in order. *)
Definition memory_test_requests (iterations : nat) : list Endpoint :=
  concat (map iteration_endpoints (seq 0 iterations)).

(** The bodies of [test_api.py]'s [test_api_endpoints()]. *)
Definition api_choropleth_body : JSON :=
  JObj [("data", JArr [JObj [("county", JStr "臺北市"); ("value", JInt 100)];
                       JObj [("county", JStr "新北市"); ("value", JInt 200)];
                       JObj [("county", JStr "桃園市"); ("value", JInt 150)];
                       JObj [("county", JStr "臺中市"); ("value", JInt 180)];
                       JObj [("county", JStr "臺南市"); ("value", JInt 120)];
                       JObj [("county", JStr "高雄市"); ("value", JInt 220)]]);
        ("column", JStr "value"); ("level", JStr "county"); ("cmap", JStr "Blues");
        ("colorbar_format", JStr "{x:,.0f}"); ("colorbar_tick_visible", JBool true)].

Definition api_dot_body : JSON :=
  JObj [("x", JArr (JFloat <$> [121.5; 120.2; 120.7; 120.9; 120.3]%Q));
        ("y", JArr (JFloat <$> [25.0; 23.0; 24.2; 24.8; 22.6]%Q));
        ("size", JInt 100); ("color", JStr "red"); ("alpha", JFloat (8#10))].

Definition api_hist2d_body : JSON :=
  JObj [("x", JArr (JFloat <$> list_mul [120.96; 121.5; 120.2; 120.7; 120.9; 120.3]%Q 20));
        ("y", JArr (JFloat <$> list_mul [23.70; 25.0; 23.0; 24.2; 24.8; 22.6]%Q 20));
        ("bins", JInt 30); ("cmap", JStr "Reds"); ("alpha", JFloat (7#10)); ("cmin", JInt 2)].

Definition api_bubble_body : JSON :=
  JObj [("x", JArr (JFloat <$> [121.5; 120.2; 120.7; 120.9; 120.3]%Q));
        ("y", JArr (JFloat <$> [25.0; 23.0; 24.2; 24.8; 22.6]%Q));
        ("size", JArr (JInt <$> [100; 200; 150; 300; 250]%Z));
        ("color", JArr (JStr <$> ["red"; "blue"; "green"; "orange"; "purple"]));
        ("alpha", JFloat (6#10))].

Definition api_requests : list Endpoint := [
  mkEndpoint "GET" "/" None;
  mkEndpoint "GET" "/boundary" None;
  mkEndpoint "POST" "/choropleth" (Some api_choropleth_body);
  mkEndpoint "POST" "/dot" (Some api_dot_body);
  mkEndpoint "POST" "/hist2d" (Some api_hist2d_body);
  mkEndpoint "POST" "/bubble" (Some api_bubble_body)
].

(** The port of each driver's [base_url]: [MemoryMonitor()]'s default
    [http://localhost:5011], the literal [http://localhost:5011/] of
    [memory_test.main()]'s home check, and [test_api.py]'s
    [http://localhost:5010]. *)
Definition memory_monitor_port : Z := 5011.
Definition memory_main_port : Z := 5011.
Definition test_api_port : Z := 5010.

Section Client.
Context `{GS : GeometrySource} `{MP : Mpl} (town_type_json : option (gmap string string)).
Context {Image : Type} (savefig : Figure -> res Image).
Context `{PC : PyCoerce}.

(** The [response.status_code] a driver reads. *)
Definition status_code (r : res (HttpResponse Image)) : Z :=
  match r with Ok resp => http_status resp | Raise _ => 500 end.

(** One request of a driver ([requests.get] or [requests.post]) to
    [localhost:port], and what it logs: the status code when the service,
    listening on [uvicorn_port], answers; [None] when the connection is
    refused, which the driver's [except Exception] catches and prints,
    the service untouched. *)
Definition send (port : Z) (ep : Endpoint) (st : AppState) : (string * option Z) * AppState :=
  if Z.eqb port uvicorn_port then
    let '(r, st') := http_handle town_type_json savefig (ep_method ep) (ep_path ep) (ep_body ep) st in
    ((ep_path ep, Some (status_code r)), st')
  else ((ep_path ep, None), st).

(** [for method, endpoint, data in endpoints: ...]. *)
Fixpoint send_all (port : Z) (eps : list Endpoint) (st : AppState)
    : list (string * option Z) * AppState :=
  match eps with
  | [] => ([], st)
  | ep :: eps' =>
      let '(o, st1) := send port ep st in
      let '(os, st2) := send_all port eps' st1 in
      (o :: os, st2)
  end.

(** One round of [test_endpoints] on [self.base_url]: its requests, then
    the manual cleanup of every tenth round. *)
Definition iteration (i : nat) (st : AppState) : list (string * option Z) * AppState :=
  send_all memory_monitor_port (iteration_endpoints i) st.

(** [for i in range(iterations)], counting [i] up from its start. *)
Equations? test_loop (iterations i : nat) (st : AppState) : list (string * option Z) * AppState
  by wf (iterations - i) lt :=
  test_loop iterations i st with lt_dec i iterations => {
    | left _ =>
        let '(o1, st1) := iteration i st in
        let '(o2, st2) := test_loop iterations (S i) st1 in
        ((o1 ++ o2)%list, st2);
    | right _ => ([], st) }.
Proof. lia. Qed.

(** [MemoryMonitor().test_endpoints(iterations)]. *)
Definition test_endpoints (iterations : nat) (st : AppState) : list (string * option Z) * AppState :=
  test_loop iterations 0 st.

(** [memory_test.main()]: the home page first; the 30 rounds only when it
    answers 200. *)
Definition memory_test_main (st : AppState) : list (string * option Z) * AppState :=
  let '((_, code), st1) := send memory_main_port (mkEndpoint "GET" "/" None) st in
  match code with
  | Some 200%Z => test_endpoints 30 st1
  | _ => ([], st1)
  end.

(** [test_api_endpoints()]: the six requests, in order, to [base_url]. *)
Definition test_api_endpoints (st : AppState) : list (string * option Z) * AppState :=
  send_all test_api_port api_requests st.

End Client.
End Driver.

(** ** Theorems on the drivers *)

Module TestTheorems.
Import App AppTheorems Serving Http HttpTheorems Driver.

(** [S n / 10] steps up exactly at the multiples of 10. *)
Lemma div10_step (n : nat) :
  (S n / 10 = n / 10 + if Nat.eqb (S n mod 10) 0 then 1 else 0)%nat.
Proof.
  pose proof (Nat.div_mod_eq n 10). pose proof (Nat.div_mod_eq (S n) 10).
  pose proof (Nat.mod_upper_bound n 10 ltac:(lia)).
  pose proof (Nat.mod_upper_bound (S n) 10 ltac:(lia)).
  destruct (Nat.eqb_spec (S n mod 10) 0);
    set (a := S n / 10) in *; set (b := n / 10) in *; set (r := n mod 10) in *;
    set (r' := S n mod 10) in *; clearbody a b r r'; lia.
Qed.

(** [range(iterations)] issues five requests a round and one cleanup
    every tenth round. *)
Lemma memory_test_requests_length (n : nat) :
  length (memory_test_requests n) = (5 * n + n / 10)%nat.
Proof.
  unfold memory_test_requests. induction n as [|n IH]; [reflexivity|].
  assert (Hi : length (iteration_endpoints n) = (5 + if Nat.eqb (S n mod 10) 0 then 1 else 0)%nat)
    by (unfold iteration_endpoints; rewrite Nat.add_1_r; by destruct (Nat.eqb _ 0)).
  rewrite seq_S, map_app, concat_app, length_app, IH. cbn [map concat].
  rewrite app_nil_r, Nat.add_0_l, Hi, div10_step. lia.
Qed.

(** ** The models Pydantic makes of the memory test's bodies *)

Definition mt_choropleth : ChoroplethData :=
  mkChoroplethData [[("county", CStr "臺北市"); ("value", CNum 100)];
                    [("county", CStr "新北市"); ("value", CNum 200)];
                    [("county", CStr "桃園市"); ("value", CNum 150)]]
    "value" (Some "county") (Some "GnBu") (Some "{x:,.0f}") (Some true).

Definition mt_dot : DotPlotData :=
  mkDotPlotData [121.5; 121.6; 121.7]%Q [25.0; 25.1; 25.2]%Q (Some 10%Q) (Some "red") (Some (1#2)).

Definition mt_hist2d : Hist2DData :=
  mkHist2DData (list_mul [121.5; 121.6; 121.7; 121.8]%Q 25)
    (list_mul [25.0; 25.1; 25.2; 25.3]%Q 25) (Some 50%Z) (Some "GnBu") (Some (1#2))
    (Some 1%Z).

Definition mt_bubble : BubbleData :=
  mkBubbleData [121.5; 121.6; 121.7]%Q [25.0; 25.1; 25.2]%Q [10; 20; 15]%Q
    ["red"; "blue"; "green"] (Some (1#2)).

Section Bodies.
Context `{PC : PyCoerce} {PCL : PyCoerceLaws}.

(** Every version of Pydantic reads the memory test's bodies as these
    models, the missing fields taking their defaults. *)
Lemma driver_bodies_valid :
  validate_choropleth mt_choropleth_body = Some mt_choropleth /\
  validate_dot mt_dot_body = Some mt_dot /\
  validate_hist2d mt_hist2d_body = Some mt_hist2d /\
  validate_bubble mt_bubble_body = Some mt_bubble.
Proof.
  split_and!;
    [unfold validate_choropleth, mt_choropleth_body|unfold validate_dot, mt_dot_body
    |unfold validate_hist2d, mt_hist2d_body|unfold validate_bubble, mt_bubble_body];
    json_laws; reflexivity.
Qed.

End Bodies.

Section Client.
Context `{GS : GeometrySource} `{MP : Mpl} (town_type_json : option (gmap string string)).
Context {Image : Type} (savefig : Figure -> res Image).
Context `{PC : PyCoerce}.

Lemma send_all_app (port : Z) (l1 l2 : list Endpoint) (st : AppState) :
  send_all town_type_json savefig port (l1 ++ l2) st =
    let '(o1, st1) := send_all town_type_json savefig port l1 st in
    let '(o2, st2) := send_all town_type_json savefig port l2 st1 in
    ((o1 ++ o2)%list, st2).
Proof.
  revert st. induction l1 as [|ep l1 IH]; intros st; cbn [send_all Datatypes.app].
  - by destruct (send_all _ _ _ l2 st).
  - destruct (send town_type_json savefig port ep st) as [o st1]. rewrite IH.
    destruct (send_all _ _ _ l1 st1) as [o1 st2]. by destruct (send_all _ _ _ l2 st2).
Qed.

(** The count-up loop from [i] sends the rounds [i], ..., [iterations - 1]
    in order. *)
Lemma test_loop_range (iterations i : nat) (st : AppState) :
  test_loop town_type_json savefig iterations i st =
    send_all town_type_json savefig memory_monitor_port
      (concat (map iteration_endpoints (seq i (iterations - i)))) st.
Proof.
  funelim (test_loop town_type_json savefig iterations i st).
  - replace (iterations - i)%nat with (S (iterations - S i)) by lia.
    cbn [seq map concat]. rewrite send_all_app. unfold iteration.
    destruct (send_all _ _ _ (iteration_endpoints i) st) as [o1 st1].
    match goal with IH : _ -> forall _, test_loop _ _ _ _ _ = _ |- _ => rewrite IH by exact o1 end.
    reflexivity.
  - by replace (iterations - i)%nat with 0%nat by lia.
Qed.

Lemma send_all_length (port : Z) (eps : list Endpoint) (st : AppState) :
  length (fst (send_all town_type_json savefig port eps st)) = length eps.
Proof.
  revert st. induction eps as [|ep eps IH]; intros st; [done|]. cbn [send_all].
  destruct (send _ _ _ ep st) as [o st1]. specialize (IH st1).
  destruct (send_all _ _ _ eps st1). simpl in *. lia.
Qed.

Lemma test_endpoints_send_all (iterations : nat) (st : AppState) :
  test_endpoints town_type_json savefig iterations st =
    send_all town_type_json savefig memory_monitor_port (memory_test_requests iterations) st.
Proof. unfold test_endpoints. by rewrite test_loop_range, Nat.sub_0_r. Qed.

(** C28: [MemoryMonitor.test_endpoints(iterations)] terminates after
    exactly [iterations] rounds, whatever the responses: it logs
    [5 * iterations + iterations // 10] responses (five endpoints a round,
    one [POST /cleanup] every tenth round), and it is the sequence of
    those requests sent in order to its [base_url]. *)
Theorem test_endpoints_terminates (iterations : nat) (st : AppState) :
  length (fst (test_endpoints town_type_json savefig iterations st)) =
    (5 * iterations + iterations / 10)%nat /\
  test_endpoints town_type_json savefig iterations st =
    send_all town_type_json savefig memory_monitor_port (memory_test_requests iterations) st.
Proof.
  rewrite test_endpoints_send_all. split; [|reflexivity].
  rewrite send_all_length. apply memory_test_requests_length.
Qed.

(** The service invariant holds across a driver's requests. *)
Lemma send_all_inv (port : Z) (eps : list Endpoint) (st : AppState) :
  service_inv st -> service_inv (snd (send_all town_type_json savefig port eps st)).
Proof.
  revert st. induction eps as [|ep eps IH]; intros st Hinv; [exact Hinv|]. cbn [send_all].
  unfold send. destruct (Z.eqb port uvicorn_port).
  - pose proof (http_handle_inv town_type_json savefig (ep_method ep) (ep_path ep)
                  (ep_body ep) st Hinv) as H1.
    destruct (http_handle _ _ _ _ _ st) as [r st1]. specialize (IH st1 H1).
    destruct (send_all _ _ _ eps st1). exact IH.
  - specialize (IH st Hinv). destruct (send_all _ _ _ eps st). exact IH.
Qed.

(** An endpoint the service answers with 200 in every state. *)
Definition answers_200 (ep : Endpoint) : Prop :=
  forall st, fst (fst (send town_type_json savefig uvicorn_port ep st)) = ep_path ep /\
             snd (fst (send town_type_json savefig uvicorn_port ep st)) = Some 200%Z.

Lemma send_all_200 (eps : list Endpoint) (st : AppState) :
  Forall answers_200 eps ->
  Forall (fun o => o.2 = Some 200%Z) (fst (send_all town_type_json savefig uvicorn_port eps st)).
Proof.
  intros Hall. revert st. induction Hall as [|ep eps Hep _ IH]; intros st; [constructor|].
  cbn [send_all]. destruct (Hep st) as [_ H200].
  destruct (send _ _ _ ep st) as [o st1]. specialize (IH st1).
  destruct (send_all _ _ _ eps st1). by constructor.
Qed.

(** An endpoint whose route runs [req] on its body. *)
Lemma routed_answers (ep : Endpoint) (req : Request) :
  (forall st, http_handle town_type_json savefig (ep_method ep) (ep_path ep) (ep_body ep) st =
              run_endpoint town_type_json savefig req st) ->
  (forall st, exists r st', dispatch town_type_json savefig req st = (Ok r, st')) ->
  answers_200 ep.
Proof.
  intros Hh Hd st. unfold send. rewrite Z.eqb_refl, Hh. destruct (Hd st) as (r & st' & E).
  unfold run_endpoint, try_except, bind, ret. rewrite E. done.
Qed.

Section Readable.
Context {PCL : PyCoerceLaws} {MPL : MplLaws}.
Hypothesis Hread : forall b, exists g, get_county_gpd b = Ok g.
Hypothesis Henc : forall fig, exists img, savefig fig = Ok img.

Lemma served_ok (req : Request) :
  is_plot_request req = true -> req <> GetBoundaryWithSubsidy -> valid_request town_type_json req ->
  forall st, exists r st', dispatch town_type_json savefig req st = (Ok r, st').
Proof.
  intros Hp Hs Hv st.
  destruct (plot_request_served town_type_json savefig req st Hread
              (fun E => False_rect _ (Hs E)) Henc Hp Hv) as [img Hi].
  destruct (dispatch _ _ req st) as [r st']. simpl in Hi. subst r. eauto.
Qed.

(** The POST routes of the drivers run the model of their body. *)
Ltac body_route lem :=
  intros st; unfold http_handle; cbn [ep_method ep_path ep_body];
  change (resolve _ _) with (Full RChoropleth) || change (resolve _ _) with (Full RDot) ||
  change (resolve _ _) with (Full RHist2d) || change (resolve _ _) with (Full RBubble);
  cbn [handle_route]; unfold with_body; cbn [mbind option_bind]; rewrite lem; reflexivity.

Lemma memory_test_endpoints_200 : Forall answers_200 (endpoints ++ [cleanup_endpoint]).
Proof.
  destruct driver_bodies_valid as (H1 & H2 & H3 & H4).
  repeat apply Forall_cons_2; [..|apply Forall_nil_2].
  - apply (routed_answers _ GetBoundary); [intros st; reflexivity|].
    apply served_ok; [reflexivity|discriminate|exact I].
  - apply (routed_answers _ (PostChoropleth mt_choropleth)); [body_route H1|].
    apply served_ok; [reflexivity|discriminate|].
    split_and!; [discriminate|reflexivity..| |by apply builtin_cmap].
    intros r Hr. elem_cases Hr ltac:(eexists; reflexivity).
  - apply (routed_answers _ (PostDot mt_dot)); [body_route H2|].
    apply served_ok; [reflexivity|discriminate|].
    split_and!; [reflexivity|by apply named_color|reflexivity].
  - apply (routed_answers _ (PostHist2d mt_hist2d)); [body_route H3|].
    apply served_ok; [reflexivity|discriminate|].
    split_and!; [vm_compute; reflexivity|eexists; split; [reflexivity|lia]
                |by apply builtin_cmap|reflexivity].
  - apply (routed_answers _ (PostBubble mt_bubble)); [body_route H4|].
    apply served_ok; [reflexivity|discriminate|].
    split_and!; [reflexivity|right; reflexivity|right; reflexivity|by apply named_colors|reflexivity].
  - apply (routed_answers _ PostCleanup); [intros st; reflexivity|].
    intros st. eexists _, _. reflexivity.
Qed.

Lemma memory_test_requests_200 (iterations : nat) :
  Forall answers_200 (memory_test_requests iterations).
Proof.
  pose proof memory_test_endpoints_200 as Hall. unfold memory_test_requests.
  apply Forall_concat, Forall_forall. intros l Hl.
  apply list_elem_of_In, in_map_iff in Hl as (i & <- & _). unfold iteration_endpoints.
  destruct (Nat.eqb _ 0); [exact Hall|]. apply Forall_app in Hall as [H _]. by rewrite app_nil_r.
Qed.

End Readable.

(** C29: the memory test passes: whatever Pydantic version validates the
    bodies and whatever matplotlib version draws them, on a readable
    county shapefile and an encoder that encodes every figure, from any
    state of the service where no figure is open and the counter is below
    [CLEANUP_INTERVAL], every request of [test_endpoints(iterations)],
    sent as HTTP with its JSON body to [MemoryMonitor()]'s [base_url],
    answers 200 and the service ends with no figure open: figures never
    accumulate across the rounds. *)
Theorem memory_test_no_leak {PCL : PyCoerceLaws} {MPL : MplLaws} (iterations : nat) (st : AppState) :
  (forall b, exists g, get_county_gpd b = Ok g) ->
  (forall fig, exists img, savefig fig = Ok img) ->
  service_inv st ->
  Forall (fun o => o.2 = Some 200%Z) (fst (test_endpoints town_type_json savefig iterations st)) /\
  service_inv (snd (test_endpoints town_type_json savefig iterations st)).
Proof.
  intros Hread Henc Hinv. rewrite test_endpoints_send_all. split.
  - apply send_all_200, memory_test_requests_200; assumption.
  - by apply send_all_inv.
Qed.


End Client.
End TestTheorems.

(** ** The memory test against the sample shapefiles *)

Module TestExamples.
Import App Serving Http Driver TestTheorems AppExamples.

#[local] Existing Instance Sample.source | 0.
#[local] Existing Instance SampleMpl.sample_mpl.

Lemma memory_test_no_leak_witness :
  service_inv serving_start /\
  Forall (fun o => o.2 = Some 200%Z) (fst (test_endpoints None encode 30 serving_start)).
Proof.
  assert (Hinv : service_inv serving_start)
    by (split; [reflexivity|unfold CLEANUP_INTERVAL; simpl; lia]).
  split; [exact Hinv|].
  destruct (@memory_test_no_leak _ _ None _ encode _ strict_coerce_laws SampleMpl.sample_mpl_laws 30
              serving_start ltac:(intros b; eexists; reflexivity)
              ltac:(intros fig; eexists; reflexivity) Hinv) as [H _].
  exact H.
Defined.

End TestExamples.
